(** * Clock tree configuration of the STM32F746 examples

    Shallow embedding of [system_stm32f746.c] / [system_stm32f746.h]:
    the prescaler and flash wait-state tables, the divisor solver, the PLL
    frequency model and the register-level clock switching routines.

    Registers and C integers are [Z] with the wrap-around written out;
    routines that touch registers are state transformers that may fault
    (division by zero, read past the end of a table).  The state carries
    the registers, the two globals of the module and the sequence of
    register writes issued.  Of the hardware two things are modelled: the
    SWS status of RCC_CFGR follows the SW selection, and a wait loop on a
    ready flag is left with the flag raised. *)

From Stdlib Require Import ZArith List Bool Lia.
Import ListNotations.
Local Open Scope Z_scope.

(** ** C integer conversions on a 32-bit ARM target *)

Module CInt.

(** conversion to [uint32_t] *)
Definition u32 (x : Z) : Z := x mod 2 ^ 32.

(** conversion to [uint64_t] *)
Definition u64 (x : Z) : Z := x mod 2 ^ 64.

(** conversion to [int] (two's complement) *)
Definition int (x : Z) : Z :=
  let y := u32 x in if y <? 2 ^ 31 then y else y - 2 ^ 32.

(** [~x] on a [uint32_t] *)
Definition not32 (x : Z) : Z := u32 (Z.lnot x).

(** [x << n] in 32 bits; a negative [int] is shifted as its bit pattern *)
Definition shl32 (x n : Z) : Z := u32 (Z.shiftl x n).

End CInt.
Import CInt.

(** ** The CMSIS device header

    [stm32f746xx.h] is the vendor's register description; it is not part of
    the sources.  The masks and bit positions the clock module takes
    from it are the fields of [DeviceHeader]; the routines below are written
    against an arbitrary header, and [stm32f746xx] further down gives the
    values of the STM32F746 reference manual. *)

Class DeviceHeader : Type := {
  FLASH_ACR_LATENCY : Z;
  FLASH_ACR_LATENCY_Pos : Z;
  RCC_CR_HSION : Z;
  RCC_CR_HSIRDY : Z;
  RCC_CR_HSEON : Z;
  RCC_CR_HSERDY : Z;
  RCC_CR_HSEBYP : Z;
  RCC_CR_PLLON : Z;
  RCC_CR_PLLRDY : Z;
  RCC_CR_PLLI2SON : Z;
  RCC_CR_PLLI2SRDY : Z;
  RCC_CR_PLLSAION : Z;
  RCC_CR_PLLSAIRDY : Z;
  RCC_CFGR_SW : Z;
  RCC_CFGR_SW_HSI : Z;
  RCC_CFGR_SW_HSE : Z;
  RCC_CFGR_SW_PLL : Z;
  RCC_CFGR_SWS : Z;
  RCC_CFGR_SWS_HSI : Z;
  RCC_CFGR_SWS_HSE : Z;
  RCC_CFGR_SWS_PLL : Z;
  RCC_CFGR_HPRE_Msk : Z;
  RCC_CFGR_HPRE_Pos : Z;
  RCC_CFGR_PPRE1_Msk : Z;
  RCC_CFGR_PPRE1_Pos : Z;
  RCC_CFGR_PPRE2_Msk : Z;
  RCC_CFGR_PPRE2_Pos : Z;
  RCC_PLLCFGR_PLLM : Z;
  RCC_PLLCFGR_PLLM_Pos : Z;
  RCC_PLLCFGR_PLLN : Z;
  RCC_PLLCFGR_PLLN_Pos : Z;
  RCC_PLLCFGR_PLLP : Z;
  RCC_PLLCFGR_PLLP_Pos : Z;
  RCC_PLLCFGR_PLLQ : Z;
  RCC_PLLCFGR_PLLQ_Pos : Z;
  RCC_PLLCFGR_PLLSRC : Z;
  RCC_PLLCFGR_PLLSRC_Pos : Z;
  RCC_PLLCFGR_PLLSRC_HSI : Z;
  RCC_PLLSAICFGR_PLLSAIN : Z;
  RCC_PLLSAICFGR_PLLSAIN_Pos : Z;
  RCC_PLLSAICFGR_PLLSAIP : Z;
  RCC_PLLSAICFGR_PLLSAIP_Pos : Z;
  RCC_PLLSAICFGR_PLLSAIQ : Z;
  RCC_PLLSAICFGR_PLLSAIQ_Pos : Z;
  RCC_PLLSAICFGR_PLLSAIR : Z;
  RCC_PLLSAICFGR_PLLSAIR_Pos : Z;
  RCC_PLLI2SCFGR_PLLI2SN : Z;
  RCC_PLLI2SCFGR_PLLI2SN_Pos : Z;
  RCC_PLLI2SCFGR_PLLI2SP : Z;
  RCC_PLLI2SCFGR_PLLI2SP_Pos : Z;
  RCC_PLLI2SCFGR_PLLI2SQ : Z;
  RCC_PLLI2SCFGR_PLLI2SQ_Pos : Z;
  RCC_PLLI2SCFGR_PLLI2SR : Z;
  RCC_PLLI2SCFGR_PLLI2SR_Pos : Z
}.

(** ** Board constants of [system_stm32f746.h] *)

Definition VSUPPLY : Z := 3300.
Definition HSE_OSCILLATOR_FREQ : Z := 25000000.
Definition HSE_FREQ : Z := HSE_OSCILLATOR_FREQ.
Definition HCLKMAX : Z := 216000000.
Definition HSI_FREQ : Z := 16000000.

(** ** Static tables *)

(** AHB prescaler table: a power of 2 in 1..512, without 32 *)
Definition hpre_table : list Z :=
  [1; 1; 1; 1; 1; 1; 1; 1; 2; 4; 8; 16; 64; 128; 256; 512].

(** APB prescaler table: a power of 2 in 1..16 *)
Definition ppre_table : list Z := [1; 1; 1; 1; 2; 4; 8; 16].

Record FlashWaitStates_Type : Type := {
  vmin : Z;               (* minimum voltage in mV *)
  freqmax : list Z        (* maximal frequency in MHz for the number of WS *)
}.

Definition flashwaitstates_tab : list FlashWaitStates_Type := [
  {| vmin := 2700; freqmax := [30; 60; 90; 120; 150; 180; 210; 216; 0; 0; 0] |};
  {| vmin := 2400; freqmax := [24; 48; 72; 96; 120; 144; 168; 192; 216; 0; 0] |};
  {| vmin := 2100; freqmax := [22; 44; 66; 88; 110; 132; 154; 176; 198; 216; 0] |};
  {| vmin := 1800; freqmax := [20; 40; 60; 80; 100; 120; 140; 160; 180; 0; 0] |};
  {| vmin := 0;    freqmax := [0; 0; 0; 0; 0; 0; 0; 0; 0; 0; 0] |}
].

(** Used when increasing clock frequency *)
Definition MAXWAITSTATES : Z := 9.

(** ** Pure helpers *)

Definition iabs (k : Z) : Z := if k <? 0 then int (- k) else k.

(** First loop of [FindFlashWaitStates]: walk the rows while [vmin] is
    nonzero and above [voltage]; the row where the walk stops.  [None] is a
    read past the last row. *)
Fixpoint scan_vmin (tab : list FlashWaitStates_Type) (voltage : Z)
  : option FlashWaitStates_Type :=
  match tab with
  | [] => None
  | r :: rest =>
      if negb (vmin r =? 0) && (voltage <? vmin r)
      then scan_vmin rest voltage
      else Some r
  end.

(** Second loop: walk the row while the entry is nonzero and below [freq];
    the index [j] reached and the entry found there. *)
Fixpoint scan_freqmax (row : list Z) (freq j : Z) : option (Z * Z) :=
  match row with
  | [] => None
  | f :: rest =>
      if negb (f =? 0) && (freq >? f)
      then scan_freqmax rest freq (j + 1)
      else Some (j, f)
  end.

(** Number of wait states for a core clock frequency and a voltage; [-1]
    when the table has no entry. *)
Definition FindFlashWaitStates (freq voltage : Z) : option Z :=
  match scan_vmin flashwaitstates_tab voltage with
  | None => None
  | Some r =>
      if vmin r =? 0 then Some (-1)
      else
        match scan_freqmax (freqmax r) freq 0 with
        | None => None
        | Some (j, f) => if f =? 0 then Some (-1) else Some j
        end
  end.

(** The search loop shared by the four power-of-2 routines:
    [for(i=0;i<20;i++) { k = 1<<i; e = iabs((int)divisor-(int)k);
                         if (e >= err) { i--; break; } err = e; n = k; }]
    run for the [fuel] iterations that remain; the values of [i] and [n]
    at the exit.  [dec] tells whether the break decrements [i].  The [int]
    arithmetic wraps around (it only does for divisors from 2^31 on). *)
Fixpoint power2_loop (dec : bool) (fuel : nat) (divisor i n err : Z) : Z * Z :=
  match fuel with
  | O => (i, n)
  | S fuel' =>
      let k := int (Z.shiftl 1 i) in
      let e := iabs (int (int divisor - k)) in
      if e >=? err
      then ((if dec then i - 1 else i), n)
      else power2_loop dec fuel' divisor (i + 1) k e
  end.

Definition SystemFindNearestPower2 (divisor : Z) : Z :=
  let '(_, n) := power2_loop false 20 divisor 0 1 10000000 in
  u32 n.

Definition SystemFindNearestPower2Exp (divisor : Z) : Z :=
  let '(i, _) := power2_loop true 20 divisor 0 1 10000000 in
  u32 i.

Definition SystemFindLargestPower2 (divisor : Z) : Z :=
  let '(_, n) := power2_loop true 20 divisor 0 1 10000000 in
  let n := if u32 n <? divisor then int (Z.shiftl n 1) else n in
  u32 n.

Definition SystemFindLargestPower2Exp (divisor : Z) : Z :=
  let '(i, n) := power2_loop true 20 divisor 0 1 10000000 in
  let i := if u32 n <? divisor then i + 1 else i in
  u32 i.

(** Given a divisor, find the HPRE encoding (the [#if 1] branch). *)
Definition FindHPRE (divisor : Z) : Z :=
  if divisor <=? 1 then 0
  else if divisor >=? 512 then 15
  else
    let k := SystemFindLargestPower2 divisor in
    if k <=? 1 then 0
    else if k <? 5 then u32 (0x8 + k - 1)
    else if k =? 5 then 12
    else u32 (0x8 + k - 2).

(** ** PLL parameters *)

Record PLLConfiguration_t : Type := {
  source : Z;
  M : Z;
  N : Z;
  P : Z;
  Q : Z;
  R : Z
}.

(** unsigned division; [None] is a division by zero *)
Definition udiv (a b : Z) : option Z :=
  if b =? 0 then None else Some (a / b).

(** [SystemCheckPLLConfiguration]: 0 if the configuration is OK *)
Definition SystemCheckPLLConfiguration (pllconfig : PLLConfiguration_t) : Z :=
  if (M pllconfig <? 2) || (M pllconfig >? 63) then -1
  else if (N pllconfig <? 50) || (M pllconfig >? 432) then -2
  else if negb (P pllconfig =? 2) && negb (P pllconfig =? 4)
          && negb (P pllconfig =? 6) && negb (P pllconfig =? 8) then -3
  else if (Q pllconfig <? 2) || (Q pllconfig >? 15) then -4
  else if negb (R pllconfig =? 0)
          && ((R pllconfig <? 2) || (R pllconfig >? 7)) then -4
  else 0.

(** [t[i]]; [None] is a read outside the table *)
Definition index (t : list Z) (i : Z) : option Z :=
  if i <? 0 then None else nth_error t (Z.to_nat i).

(** ** Registers and module state *)

Inductive reg : Type :=
| RCC_CR | RCC_CFGR | RCC_PLLCFGR | RCC_PLLSAICFGR | RCC_PLLI2SCFGR
| FLASH_ACR | FLASH_CR.

(** The RCC and FLASH registers the module touches, its two globals, and
    the register writes issued so far, oldest first. *)
Record state : Type := mkState {
  rcc_cr : Z;
  rcc_cfgr : Z;
  rcc_pllcfgr : Z;
  rcc_pllsaicfgr : Z;
  rcc_plli2scfgr : Z;
  flash_acr : Z;
  flash_cr : Z;
  SystemCoreClock : Z;
  MainPLLConfigured : Z;
  writes : list (reg * Z)
}.

Definition get (r : reg) (s : state) : Z :=
  match r with
  | RCC_CR => rcc_cr s
  | RCC_CFGR => rcc_cfgr s
  | RCC_PLLCFGR => rcc_pllcfgr s
  | RCC_PLLSAICFGR => rcc_pllsaicfgr s
  | RCC_PLLI2SCFGR => rcc_plli2scfgr s
  | FLASH_ACR => flash_acr s
  | FLASH_CR => flash_cr s
  end.

Definition set (r : reg) (v : Z) (s : state) : state :=
  match r with
  | RCC_CR => mkState v (rcc_cfgr s) (rcc_pllcfgr s) (rcc_pllsaicfgr s)
      (rcc_plli2scfgr s) (flash_acr s) (flash_cr s) (SystemCoreClock s)
      (MainPLLConfigured s) (writes s)
  | RCC_CFGR => mkState (rcc_cr s) v (rcc_pllcfgr s) (rcc_pllsaicfgr s)
      (rcc_plli2scfgr s) (flash_acr s) (flash_cr s) (SystemCoreClock s)
      (MainPLLConfigured s) (writes s)
  | RCC_PLLCFGR => mkState (rcc_cr s) (rcc_cfgr s) v (rcc_pllsaicfgr s)
      (rcc_plli2scfgr s) (flash_acr s) (flash_cr s) (SystemCoreClock s)
      (MainPLLConfigured s) (writes s)
  | RCC_PLLSAICFGR => mkState (rcc_cr s) (rcc_cfgr s) (rcc_pllcfgr s) v
      (rcc_plli2scfgr s) (flash_acr s) (flash_cr s) (SystemCoreClock s)
      (MainPLLConfigured s) (writes s)
  | RCC_PLLI2SCFGR => mkState (rcc_cr s) (rcc_cfgr s) (rcc_pllcfgr s)
      (rcc_pllsaicfgr s) v (flash_acr s) (flash_cr s) (SystemCoreClock s)
      (MainPLLConfigured s) (writes s)
  | FLASH_ACR => mkState (rcc_cr s) (rcc_cfgr s) (rcc_pllcfgr s)
      (rcc_pllsaicfgr s) (rcc_plli2scfgr s) v (flash_cr s) (SystemCoreClock s)
      (MainPLLConfigured s) (writes s)
  | FLASH_CR => mkState (rcc_cr s) (rcc_cfgr s) (rcc_pllcfgr s)
      (rcc_pllsaicfgr s) (rcc_plli2scfgr s) (flash_acr s) v (SystemCoreClock s)
      (MainPLLConfigured s) (writes s)
  end.

Definition log (r : reg) (v : Z) (s : state) : state :=
  mkState (rcc_cr s) (rcc_cfgr s) (rcc_pllcfgr s) (rcc_pllsaicfgr s)
    (rcc_plli2scfgr s) (flash_acr s) (flash_cr s) (SystemCoreClock s)
    (MainPLLConfigured s) (writes s ++ [(r, v)]).

(** ** The monad of the routines: state, and [None] for a fault *)

Definition Sys (A : Type) : Type := state -> option (A * state).

Definition ret {A : Type} (a : A) : Sys A := fun s => Some (a, s).

Definition bind {A B : Type} (c : Sys A) (k : A -> Sys B) : Sys B :=
  fun s => match c s with
           | Some (a, s') => k a s'
           | None => None
           end.

Notation "x <- c ;; k" := (bind c (fun x => k))
  (at level 61, c at next level, right associativity).
Notation "c ;; k" := (bind c (fun _ => k))
  (at level 61, right associativity).

Definition lift {A : Type} (o : option A) : Sys A :=
  fun s => match o with
           | Some a => Some (a, s)
           | None => None
           end.

Definition load (r : reg) : Sys Z := fun s => Some (get r s, s).

Definition get_SystemCoreClock : Sys Z := fun s => Some (SystemCoreClock s, s).

Definition set_SystemCoreClock (v : Z) : Sys unit := fun s =>
  Some (tt, mkState (rcc_cr s) (rcc_cfgr s) (rcc_pllcfgr s) (rcc_pllsaicfgr s)
    (rcc_plli2scfgr s) (flash_acr s) (flash_cr s) v
    (MainPLLConfigured s) (writes s)).

Definition get_MainPLLConfigured : Sys Z :=
  fun s => Some (MainPLLConfigured s, s).

Definition set_MainPLLConfigured (v : Z) : Sys unit := fun s =>
  Some (tt, mkState (rcc_cr s) (rcc_cfgr s) (rcc_pllcfgr s) (rcc_pllsaicfgr s)
    (rcc_plli2scfgr s) (flash_acr s) (flash_cr s) (SystemCoreClock s)
    v (writes s)).

(** ** The routines of [system_stm32f746.c] *)

Section Routines.

Context {hdr : DeviceHeader}.

(** Clock sources for SYSCLK, and the alias of the HPRE mask *)
Definition CLOCKSRC_HSI : Z := RCC_CFGR_SWS_HSI.
Definition CLOCKSRC_HSE : Z := RCC_CFGR_SWS_HSE.
Definition CLOCKSRC_PLL : Z := RCC_CFGR_SWS_PLL.
Definition RCC_CFGR_HPRE : Z := RCC_CFGR_HPRE_Msk.

(** *** What the hardware does

    The SWS field of RCC_CFGR is a read-only status: it ignores what is
    written to it and follows the source selected in SW (for the value of
    SW that selects nothing it keeps the status it had). *)
Definition cfgr_status (old v : Z) : Z :=
  let sw := Z.land v RCC_CFGR_SW in
  let sws :=
    if sw =? RCC_CFGR_SW_HSI then RCC_CFGR_SWS_HSI
    else if sw =? RCC_CFGR_SW_HSE then RCC_CFGR_SWS_HSE
    else if sw =? RCC_CFGR_SW_PLL then RCC_CFGR_SWS_PLL
    else Z.land old RCC_CFGR_SWS in
  Z.lor (Z.land v (not32 RCC_CFGR_SWS)) sws.

(** A register write: recorded, then taken by the hardware; the register
    reads back as written, but for the SWS status of RCC_CFGR. *)
Definition store (r : reg) (v : Z) : Sys unit := fun s =>
  let v' := match r with
            | RCC_CFGR => cfgr_status (rcc_cfgr s) v
            | _ => v
            end in
  Some (tt, set r v' (log r v s)).

(** [while ((r & flag) == 0) {}]: the loop is left only once the hardware
    has raised [flag]; the state in which it is left. *)
Definition wait_flag (r : reg) (flag : Z) : Sys unit := fun s =>
  Some (tt, set r (Z.lor (get r s) flag) s).

(** *** Flash wait states *)

Definition SetFlashWaitStates (n : Z) : Sys unit :=
  cr <- load FLASH_CR ;;
  store FLASH_ACR
    (Z.lor (Z.land cr (not32 FLASH_ACR_LATENCY))
           (shl32 n FLASH_ACR_LATENCY_Pos)).

Definition ConfigureFlashWaitStates (freq voltage : Z) : Sys unit :=
  r <- lift (FindFlashWaitStates freq voltage) ;;
  let ws := u32 r in
  if ws <? 0 then ret tt
  else SetFlashWaitStates (int ws).

(** *** Prescalers *)

Definition SystemGetHPRE : Sys Z :=
  cfgr <- load RCC_CFGR ;;
  ret (Z.shiftr (Z.land cfgr RCC_CFGR_HPRE) RCC_CFGR_HPRE_Pos).

Definition SystemSetHPRE (hpre : Z) : Sys Z :=
  cfgr <- load RCC_CFGR ;;
  store RCC_CFGR (Z.lor (Z.land cfgr (not32 RCC_CFGR_HPRE))
                        (shl32 hpre RCC_CFGR_HPRE_Pos)) ;;
  ret 0.

Definition SystemGetAHBPrescaler : Sys Z :=
  cfgr <- load RCC_CFGR ;;
  let hpre := Z.shiftr (Z.land cfgr RCC_CFGR_HPRE_Msk) RCC_CFGR_HPRE_Pos in
  lift (index hpre_table hpre).

Definition SystemSetAHBPrescaler (div : Z) : Sys Z :=
  let hpre := FindHPRE div in
  cfgr <- load RCC_CFGR ;;
  store RCC_CFGR (Z.lor (Z.land cfgr (not32 RCC_CFGR_HPRE))
                        (shl32 hpre RCC_CFGR_HPRE_Pos)) ;;
  ret 0.

Definition SystemGetAPB1Prescaler : Sys Z :=
  cfgr <- load RCC_CFGR ;;
  lift (index ppre_table
          (Z.shiftr (Z.land cfgr RCC_CFGR_PPRE1_Msk) RCC_CFGR_PPRE1_Pos)).

Definition SystemSetAPB1Prescaler (div : Z) : Sys unit :=
  clk <- get_SystemCoreClock ;;
  q <- lift (udiv clk div) ;;
  if q >? 54000000 then ret tt
  else
    let p2 := SystemFindLargestPower2Exp div in
    let ppre1 := if p2 =? 0 then 0 else u32 (4 + p2 - 1) in
    cfgr <- load RCC_CFGR ;;
    store RCC_CFGR (Z.lor (Z.land cfgr (not32 RCC_CFGR_PPRE1_Msk))
                          (shl32 ppre1 RCC_CFGR_PPRE1_Pos)).

Definition SystemGetAPB2Prescaler : Sys Z :=
  cfgr <- load RCC_CFGR ;;
  lift (index ppre_table
          (Z.shiftr (Z.land cfgr RCC_CFGR_PPRE2_Msk) RCC_CFGR_PPRE2_Pos)).

Definition SystemSetAPB2Prescaler (div : Z) : Sys unit :=
  clk <- get_SystemCoreClock ;;
  q <- lift (udiv clk div) ;;
  if q >? 54000000 then ret tt
  else
    let p2 := SystemFindLargestPower2Exp div in
    let ppre2 := if p2 =? 0 then 0 else u32 (4 + p2 - 1) in
    cfgr <- load RCC_CFGR ;;
    store RCC_CFGR (Z.lor (Z.land cfgr (not32 RCC_CFGR_PPRE2_Msk))
                          (shl32 ppre2 RCC_CFGR_PPRE2_Pos)).

(** *** PLL frequency model *)

(** [(infreq*N)/M/P] in 64 bits, returned as [uint32_t] *)
Definition CalculateMainPLLOutFrequency (pllconfig : PLLConfiguration_t)
  : option Z :=
  let clocksource := source pllconfig in
  let out (infreq : Z) : option Z :=
    match udiv (u64 (infreq * N pllconfig)) (M pllconfig) with
    | None => None
    | Some vco =>
        match udiv vco (P pllconfig) with
        | None => None
        | Some outfreq => Some (u32 outfreq)
        end
    end in
  if clocksource =? CLOCKSRC_HSI then out HSI_FREQ
  else if clocksource =? CLOCKSRC_HSE then out HSE_FREQ
  else Some 0.

Definition SystemGetSYSCLKFrequency : Sys Z :=
  rcc_cfgr <- load RCC_CFGR ;;
  rcc_pllcfgr <- load RCC_PLLCFGR ;;
  let src := Z.land rcc_cfgr RCC_CFGR_SWS in
  if src =? RCC_CFGR_SWS_HSI then ret HSI_FREQ
  else if src =? RCC_CFGR_SWS_HSE then ret HSE_FREQ
  else if src =? RCC_CFGR_SWS_PLL then
    let pllsrc := Z.land rcc_pllcfgr RCC_PLLCFGR_PLLSRC in
    let pllsrc :=
      if Z.land pllsrc RCC_PLLCFGR_PLLSRC =? RCC_PLLCFGR_PLLSRC_HSI
      then CLOCKSRC_HSI else CLOCKSRC_HSE in
    lift (CalculateMainPLLOutFrequency
      {| source := pllsrc;
         M := Z.shiftr (Z.land rcc_pllcfgr RCC_PLLCFGR_PLLM) RCC_PLLCFGR_PLLM_Pos;
         N := Z.shiftr (Z.land rcc_pllcfgr RCC_PLLCFGR_PLLN) RCC_PLLCFGR_PLLN_Pos;
         P := Z.shiftr (Z.land rcc_pllcfgr RCC_PLLCFGR_PLLP) RCC_PLLCFGR_PLLP_Pos;
         Q := 0;
         R := 0 |})
  else ret 0.

Definition SystemGetCoreClock : Sys Z :=
  sysclk_freq <- SystemGetSYSCLKFrequency ;;
  prescaler <- SystemGetAHBPrescaler ;;
  lift (udiv sysclk_freq prescaler).

Definition SystemCoreClockUpdate : Sys unit :=
  f <- SystemGetCoreClock ;;
  set_SystemCoreClock f.

(** *** Oscillators and PLL on/off (inline routines of the header) *)

Definition SystemEnableMainPLL : Sys unit :=
  cr <- load RCC_CR ;;
  store RCC_CR (Z.lor cr RCC_CR_PLLON) ;;
  wait_flag RCC_CR RCC_CR_PLLRDY.

Definition SystemDisableMainPLL : Sys unit :=
  cr <- load RCC_CR ;;
  store RCC_CR (Z.land cr (not32 RCC_CR_PLLON)).

Definition SystemEnableHSE : Sys unit :=
  cr <- load RCC_CR ;;
  store RCC_CR (Z.lor cr (Z.lor RCC_CR_HSEON RCC_CR_HSEBYP)) ;;
  wait_flag RCC_CR RCC_CR_HSERDY.

Definition SystemEnableHSI : Sys unit :=
  cr <- load RCC_CR ;;
  store RCC_CR (Z.lor cr RCC_CR_HSION) ;;
  wait_flag RCC_CR RCC_CR_HSIRDY.

(** *** PLL configuration *)

(** Clock configuration for 200 MHz (the default of [SystemSetCoreClock]) *)
Definition ClockConfiguration200MHz : PLLConfiguration_t :=
  {| source := CLOCKSRC_HSE;
     M := HSE_FREQ / 1000000;
     N := 400;
     P := 2;
     Q := 2;
     R := 2 |}.

Definition MainPLLConfiguration_200MHz : PLLConfiguration_t :=
  {| source := CLOCKSRC_HSE;
     M := HSE_OSCILLATOR_FREQ / 1000000;
     N := 400;
     P := 2;
     Q := 2;
     R := 2 |}.

Definition MainPLLConfiguration_216MHz : PLLConfiguration_t :=
  {| source := CLOCKSRC_HSE;
     M := HSE_OSCILLATOR_FREQ / 1000000;
     N := 432;
     P := 2;
     Q := 2;
     R := 2 |}.

Definition MainPLLConfiguration_Max : PLLConfiguration_t :=
  {| source := CLOCKSRC_HSE;
     M := HSE_OSCILLATOR_FREQ / 1000000;
     N := 432;
     P := 2;
     Q := 2;
     R := 2 |}.

(** SAI PLL configuration for 48 MHz *)
Definition PLLSAIConfiguration_48MHz : PLLConfiguration_t :=
  {| source := RCC_PLLCFGR_PLLSRC_HSI;
     M := HSE_FREQ / 1000;
     N := 144;
     P := 3;
     Q := 3;
     R := 2 |}.

(** The part of [SystemConfigMainPLL] after the [switch]: program PLLCFGR,
    start the PLL, set the flag and switch back if the PLL drove the core. *)
Definition SystemConfigMainPLL_program
  (pllconfig : PLLConfiguration_t) (src pllwascoreclock : Z) : Sys unit :=
  pllcfgr <- load RCC_PLLCFGR ;;
  let rcc_pllcfgr :=
    Z.land pllcfgr
      (not32 (Z.lor (Z.lor (Z.lor (Z.lor RCC_PLLCFGR_PLLM RCC_PLLCFGR_PLLN)
                RCC_PLLCFGR_PLLP) RCC_PLLCFGR_PLLQ) RCC_PLLCFGR_PLLSRC)) in
  let rcc_pllcfgr :=
    Z.lor rcc_pllcfgr
      (Z.lor (Z.lor (Z.lor (Z.lor
         (Z.land (shl32 (M pllconfig) RCC_PLLCFGR_PLLM_Pos) RCC_PLLCFGR_PLLM)
         (Z.land (shl32 (N pllconfig) RCC_PLLCFGR_PLLN_Pos) RCC_PLLCFGR_PLLN))
         (Z.land (shl32 (P pllconfig) RCC_PLLCFGR_PLLP_Pos) RCC_PLLCFGR_PLLP))
         (Z.land (shl32 (Q pllconfig) RCC_PLLCFGR_PLLQ_Pos) RCC_PLLCFGR_PLLQ))
         (Z.land (shl32 src RCC_PLLCFGR_PLLSRC_Pos) RCC_PLLCFGR_PLLSRC)) in
  store RCC_PLLCFGR rcc_pllcfgr ;;
  SystemEnableMainPLL ;;
  set_MainPLLConfigured 1 ;;
  if pllwascoreclock =? 0 then ret tt
  else
    cfgr <- load RCC_CFGR ;;
    store RCC_CFGR (Z.lor (Z.land cfgr RCC_CFGR_SW) RCC_CFGR_SW_PLL).

Definition SystemConfigMainPLL (pllconfig : PLLConfiguration_t) : Sys unit :=
  let clocksource := source pllconfig in
  cfgr <- load RCC_CFGR ;;
  pllwascoreclock <-
    (if Z.land cfgr RCC_CFGR_SWS =? RCC_CFGR_SWS_PLL then
       SystemEnableHSI ;;
       cfgr <- load RCC_CFGR ;;
       store RCC_CFGR (Z.lor (Z.land cfgr RCC_CFGR_SW) RCC_CFGR_SW_HSI) ;;
       ret 1
     else ret 0) ;;
  SystemDisableMainPLL ;;
  if clocksource =? CLOCKSRC_HSI then
    SystemEnableHSI ;;
    SystemConfigMainPLL_program pllconfig RCC_CFGR_SW_HSI pllwascoreclock
  else if clocksource =? CLOCKSRC_HSE then
    SystemEnableHSE ;;
    SystemConfigMainPLL_program pllconfig RCC_CFGR_SW_HSE pllwascoreclock
  else ret tt.

Definition SystemConfigPLLSAI (pllconfig : PLLConfiguration_t) : Sys unit :=
  configured <- get_MainPLLConfigured ;;
  if configured =? 0 then ret tt
  else
    cr <- load RCC_CR ;;
    store RCC_CR (Z.land cr (not32 RCC_CR_PLLSAION)) ;;
    saicfgr <- load RCC_PLLSAICFGR ;;
    let rcc_pllsaicfgr :=
      Z.land saicfgr
        (not32 (Z.lor (Z.lor (Z.lor RCC_PLLSAICFGR_PLLSAIN RCC_PLLSAICFGR_PLLSAIP)
                  RCC_PLLSAICFGR_PLLSAIQ) RCC_PLLSAICFGR_PLLSAIR)) in
    let rcc_pllsaicfgr :=
      Z.lor rcc_pllsaicfgr
        (Z.lor (Z.lor (Z.lor
           (Z.land (shl32 (N pllconfig) RCC_PLLSAICFGR_PLLSAIN_Pos) RCC_PLLSAICFGR_PLLSAIN)
           (Z.land (shl32 (P pllconfig) RCC_PLLSAICFGR_PLLSAIP_Pos) RCC_PLLSAICFGR_PLLSAIP))
           (Z.land (shl32 (Q pllconfig) RCC_PLLSAICFGR_PLLSAIQ_Pos) RCC_PLLSAICFGR_PLLSAIQ))
           (Z.land (shl32 (R pllconfig) RCC_PLLSAICFGR_PLLSAIR_Pos) RCC_PLLSAICFGR_PLLSAIR)) in
    store RCC_PLLSAICFGR rcc_pllsaicfgr ;;
    cr <- load RCC_CR ;;
    store RCC_CR (Z.lor cr RCC_CR_PLLSAION) ;;
    wait_flag RCC_CR RCC_CR_PLLSAIRDY.

Definition SystemConfigPLLI2S (pllconfig : PLLConfiguration_t) : Sys unit :=
  configured <- get_MainPLLConfigured ;;
  if configured =? 0 then ret tt
  else
    cr <- load RCC_CR ;;
    store RCC_CR (Z.land cr (not32 RCC_CR_PLLI2SON)) ;;
    i2scfgr <- load RCC_PLLI2SCFGR ;;
    let rcc_plli2scfgr :=
      Z.land i2scfgr
        (not32 (Z.lor (Z.lor (Z.lor RCC_PLLI2SCFGR_PLLI2SN RCC_PLLI2SCFGR_PLLI2SP)
                  RCC_PLLI2SCFGR_PLLI2SQ) RCC_PLLI2SCFGR_PLLI2SR)) in
    let rcc_plli2scfgr :=
      Z.lor rcc_plli2scfgr
        (Z.lor (Z.lor (Z.lor
           (Z.land (shl32 (N pllconfig) RCC_PLLI2SCFGR_PLLI2SN_Pos) RCC_PLLI2SCFGR_PLLI2SN)
           (Z.land (shl32 (P pllconfig) RCC_PLLI2SCFGR_PLLI2SP_Pos) RCC_PLLI2SCFGR_PLLI2SP))
           (Z.land (shl32 (Q pllconfig) RCC_PLLI2SCFGR_PLLI2SQ_Pos) RCC_PLLI2SCFGR_PLLI2SQ))
           (Z.land (shl32 (R pllconfig) RCC_PLLI2SCFGR_PLLI2SR_Pos) RCC_PLLI2SCFGR_PLLI2SR)) in
    store RCC_PLLI2SCFGR rcc_plli2scfgr ;;
    cr <- load RCC_CR ;;
    store RCC_CR (Z.lor cr RCC_CR_PLLI2SON) ;;
    wait_flag RCC_CR RCC_CR_PLLI2SRDY.

(** *** Switching the core clock *)

(** [RCC->CFGR = (RCC->CFGR&~RCC_CFGR_HPRE)|(newhpre<<RCC_CFGR_HPRE_Pos)] *)
Definition write_HPRE (newhpre : Z) : Sys unit :=
  cfgr <- load RCC_CFGR ;;
  store RCC_CFGR (Z.lor (Z.land cfgr (not32 RCC_CFGR_HPRE))
                        (shl32 newhpre RCC_CFGR_HPRE_Pos)).

(** [RCC->CFGR = (RCC->CFGR&~RCC_CFGR_SW)|sw] *)
Definition write_SW (sw : Z) : Sys unit :=
  cfgr <- load RCC_CFGR ;;
  store RCC_CFGR (Z.lor (Z.land cfgr (not32 RCC_CFGR_SW)) sw).

(** The worst-case settings taken before the frequency may rise *)
Definition worst_case : Sys unit :=
  SetFlashWaitStates MAXWAITSTATES ;;
  SystemSetAPB1Prescaler 4 ;;
  SystemSetAPB2Prescaler 2.

(** The tail of [SystemSetCoreClock], common to both branches *)
Definition SystemSetCoreClock_finish (ppre1 ppre2 : Z) : Sys Z :=
  SystemCoreClockUpdate ;;
  clk <- get_SystemCoreClock ;;
  ConfigureFlashWaitStates clk VSUPPLY ;;
  SystemSetAPB1Prescaler ppre1 ;;
  SystemSetAPB2Prescaler ppre2 ;;
  ret 0.

Definition SystemSetCoreClock (newsrc newdiv : Z) : Sys Z :=
  cfgr <- load RCC_CFGR ;;
  let src := Z.land cfgr RCC_CFGR_SW in
  ppre1 <- SystemGetAPB1Prescaler ;;
  ppre2 <- SystemGetAPB2Prescaler ;;
  (if newsrc =? src then
     cfgr <- load RCC_CFGR ;;
     let hpre := Z.shiftr (Z.land cfgr RCC_CFGR_HPRE_Msk) RCC_CFGR_HPRE_Pos in
     div <- lift (index hpre_table hpre) ;;
     let newhpre := FindHPRE newdiv in
     (if newdiv <? div then worst_case else ret tt) ;;
     write_HPRE newhpre
   else
     worst_case ;;
     let newhpre := FindHPRE newdiv in
     write_HPRE newhpre ;;
     if newsrc =? CLOCKSRC_HSI then
       SystemEnableHSI ;;
       write_SW RCC_CFGR_SW_HSI
     else if newsrc =? CLOCKSRC_HSE then
       SystemEnableHSE ;;
       write_SW RCC_CFGR_SW_HSE
     else if newsrc =? CLOCKSRC_PLL then
       configured <- get_MainPLLConfigured ;;
       (if configured =? 0 then
          SystemSetAPB1Prescaler 4 ;;
          SystemSetAPB2Prescaler 2 ;;
          SystemConfigMainPLL ClockConfiguration200MHz
        else ret tt) ;;
       write_SW RCC_CFGR_SW_PLL
     else ret tt) ;;
  SystemSetCoreClock_finish ppre1 ppre2.

(** The local [clockconf] that [SystemSetCoreClockFrequency] fills in,
    from the frequency already clamped *)
Definition clockconf (freq : Z) : PLLConfiguration_t :=
  {| source := CLOCKSRC_HSE;
     M := HSE_FREQ / 1000000;
     N := u32 (2 * freq);
     P := 2;
     Q := 2;
     R := 2 |}.

Definition SystemSetCoreClockFrequency (freq : Z) : Sys Z :=
  let freq := if freq >=? HCLKMAX then HCLKMAX else freq in
  SystemConfigMainPLL (clockconf freq) ;;
  SystemSetCoreClock CLOCKSRC_PLL 1 ;;
  ret freq.

(** The value [SetFlashWaitStates(MAXWAITSTATES)] writes to FLASH_ACR *)
Definition worst_case_latency (s : state) : Z :=
  Z.lor (Z.land (flash_cr s) (not32 FLASH_ACR_LATENCY))
        (shl32 MAXWAITSTATES FLASH_ACR_LATENCY_Pos).

End Routines.

(** ** The STM32F746 values of the device header *)

Definition stm32f746xx : DeviceHeader := {|
  FLASH_ACR_LATENCY := 0xF;
  FLASH_ACR_LATENCY_Pos := 0;
  RCC_CR_HSION := 0x1;
  RCC_CR_HSIRDY := 0x2;
  RCC_CR_HSEON := 0x10000;
  RCC_CR_HSERDY := 0x20000;
  RCC_CR_HSEBYP := 0x40000;
  RCC_CR_PLLON := 0x1000000;
  RCC_CR_PLLRDY := 0x2000000;
  RCC_CR_PLLI2SON := 0x4000000;
  RCC_CR_PLLI2SRDY := 0x8000000;
  RCC_CR_PLLSAION := 0x10000000;
  RCC_CR_PLLSAIRDY := 0x20000000;
  RCC_CFGR_SW := 0x3;
  RCC_CFGR_SW_HSI := 0x0;
  RCC_CFGR_SW_HSE := 0x1;
  RCC_CFGR_SW_PLL := 0x2;
  RCC_CFGR_SWS := 0xC;
  RCC_CFGR_SWS_HSI := 0x0;
  RCC_CFGR_SWS_HSE := 0x4;
  RCC_CFGR_SWS_PLL := 0x8;
  RCC_CFGR_HPRE_Msk := 0xF0;
  RCC_CFGR_HPRE_Pos := 4;
  RCC_CFGR_PPRE1_Msk := 0x1C00;
  RCC_CFGR_PPRE1_Pos := 10;
  RCC_CFGR_PPRE2_Msk := 0xE000;
  RCC_CFGR_PPRE2_Pos := 13;
  RCC_PLLCFGR_PLLM := 0x3F;
  RCC_PLLCFGR_PLLM_Pos := 0;
  RCC_PLLCFGR_PLLN := 0x7FC0;
  RCC_PLLCFGR_PLLN_Pos := 6;
  RCC_PLLCFGR_PLLP := 0x30000;
  RCC_PLLCFGR_PLLP_Pos := 16;
  RCC_PLLCFGR_PLLQ := 0xF000000;
  RCC_PLLCFGR_PLLQ_Pos := 24;
  RCC_PLLCFGR_PLLSRC := 0x400000;
  RCC_PLLCFGR_PLLSRC_Pos := 22;
  RCC_PLLCFGR_PLLSRC_HSI := 0x0;
  RCC_PLLSAICFGR_PLLSAIN := 0x7FC0;
  RCC_PLLSAICFGR_PLLSAIN_Pos := 6;
  RCC_PLLSAICFGR_PLLSAIP := 0x30000;
  RCC_PLLSAICFGR_PLLSAIP_Pos := 16;
  RCC_PLLSAICFGR_PLLSAIQ := 0xF000000;
  RCC_PLLSAICFGR_PLLSAIQ_Pos := 24;
  RCC_PLLSAICFGR_PLLSAIR := 0x70000000;
  RCC_PLLSAICFGR_PLLSAIR_Pos := 28;
  RCC_PLLI2SCFGR_PLLI2SN := 0x7FC0;
  RCC_PLLI2SCFGR_PLLI2SN_Pos := 6;
  RCC_PLLI2SCFGR_PLLI2SP := 0x30000;
  RCC_PLLI2SCFGR_PLLI2SP_Pos := 16;
  RCC_PLLI2SCFGR_PLLI2SQ := 0xF000000;
  RCC_PLLI2SCFGR_PLLI2SQ_Pos := 24;
  RCC_PLLI2SCFGR_PLLI2SR := 0x70000000;
  RCC_PLLI2SCFGR_PLLI2SR_Pos := 28
|}.

(** The state [SystemInit] leaves on the board: HSI drives the core at
    16 MHz, HSE is running, AHB/APB1/APB2 divide by 1, 4 and 2, the flash
    has zero wait states with the ART accelerator and prefetch on, and no
    PLL was configured. *)
Definition after_SystemInit : state := {|
  rcc_cr := 0x70083;
  rcc_cfgr := 0x9400;
  rcc_pllcfgr := 0x24003010;
  rcc_pllsaicfgr := 0x24003000;
  rcc_plli2scfgr := 0x24003000;
  flash_acr := 0xB00;
  flash_cr := 0x80000000;
  SystemCoreClock := 16000000;
  MainPLLConfigured := 0;
  writes := []
|}.

(** The state [SystemSetCoreClock(CLOCKSRC_PLL,1)] leaves when called after
    [SystemInit]: the PLL (HSE, M=25, N=400, P field 2) drives the core,
    the cached core clock is 200 MHz, AHB/APB1/APB2 divide by 1, 4 and 2. *)
Definition running_on_PLL : state := {|
  rcc_cr := 0x3070083;
  rcc_cfgr := 0x940A;
  rcc_pllcfgr := 0x22426419;
  rcc_pllsaicfgr := 0x24003000;
  rcc_plli2scfgr := 0x24003000;
  flash_acr := 0xFFFFFFFF;
  flash_cr := 0x80000000;
  SystemCoreClock := 200000000;
  MainPLLConfigured := 1;
  writes := []
|}.

(** ** The rest of the module *)

(** PLL frequencies calculated by [SystemCalcPLLFrequencies] *)
Record PLLOutputFrequencies_t : Type := {
  infreq : Z;
  pllinfreq : Z;
  vcofreq : Z;
  poutfreq : Z;
  qoutfreq : Z;
  routfreq : Z
}.

(** PLL units *)
Definition PLL_MAIN : Z := 0.
Definition PLL_SAI : Z := 1.
Definition PLL_I2S : Z := 2.

(** The bits of FLASH_ACR that [SystemInit] sets, from the device header
    like the fields of [DeviceHeader]. *)
Class DeviceHeaderART : Type := {
  FLASH_ACR_PRFTEN : Z;
  FLASH_ACR_ARTEN : Z;
  FLASH_ACR_ARTRST : Z
}.

Section MoreRoutines.

Context {hdr : DeviceHeader}.

(** [SystemCalcPLLFrequencies]: fills [*pllfreq] and returns the P output;
    for a source that is neither HSI nor HSE it returns 0 and leaves
    [*pllfreq] as it was.  The value returned and the new [*pllfreq]. *)
Definition SystemCalcPLLFrequencies
  (pllconfig : PLLConfiguration_t) (pllfreq : PLLOutputFrequencies_t)
  : option (Z * PLLOutputFrequencies_t) :=
  let clocksource := source pllconfig in
  let calc (f : Z) : option (Z * PLLOutputFrequencies_t) :=
    match udiv f (M pllconfig),
          udiv (u64 (f * N pllconfig)) (M pllconfig) with
    | Some pllin, Some vco =>
        let pout := if P pllconfig =? 0 then 0 else u32 (vco / P pllconfig) in
        let qout := if Q pllconfig =? 0 then 0 else u32 (vco / Q pllconfig) in
        let rout := if R pllconfig =? 0 then 0 else u32 (vco / R pllconfig) in
        Some (int pout,
              {| infreq := u32 f;
                 pllinfreq := u32 pllin;
                 vcofreq := u32 vco;
                 poutfreq := pout;
                 qoutfreq := qout;
                 routfreq := rout |})
    | _, _ => None
    end in
  if clocksource =? CLOCKSRC_HSI then calc HSI_FREQ
  else if clocksource =? CLOCKSRC_HSE then calc HSE_FREQ
  else Some (0, pllfreq).

(** [SystemGetPLLConfiguration]: fills [*pllconfig] from the registers;
    [old] is what [*pllconfig] held, which shows through when [whichone]
    names no PLL unit.  The masks [..._Msk] are the masks of the same name
    without the suffix. *)
Definition SystemGetPLLConfiguration
  (whichone : Z) (old : PLLConfiguration_t) : Sys (Z * PLLConfiguration_t) :=
  pllcfgr <- load RCC_PLLCFGR ;;
  let src := if Z.land pllcfgr RCC_PLLCFGR_PLLSRC =? 0
             then CLOCKSRC_HSI else CLOCKSRC_HSE in
  let m := Z.shiftr (Z.land pllcfgr RCC_PLLCFGR_PLLM) RCC_PLLCFGR_PLLM_Pos in
  c <- (if whichone =? PLL_MAIN then
          ret {| source := src; M := m;
                 N := Z.shiftr (Z.land pllcfgr RCC_PLLCFGR_PLLN) RCC_PLLCFGR_PLLN_Pos;
                 P := Z.shiftr (Z.land pllcfgr RCC_PLLCFGR_PLLP) RCC_PLLCFGR_PLLP_Pos;
                 Q := Z.shiftr (Z.land pllcfgr RCC_PLLCFGR_PLLP) RCC_PLLCFGR_PLLQ_Pos;
                 R := 0 |}
        else if whichone =? PLL_SAI then
          sai <- load RCC_PLLSAICFGR ;;
          ret {| source := src; M := m;
                 N := Z.shiftr (Z.land sai RCC_PLLSAICFGR_PLLSAIN) RCC_PLLSAICFGR_PLLSAIN_Pos;
                 P := Z.shiftr (Z.land sai RCC_PLLSAICFGR_PLLSAIP) RCC_PLLSAICFGR_PLLSAIP_Pos;
                 Q := Z.shiftr (Z.land sai RCC_PLLSAICFGR_PLLSAIR) RCC_PLLSAICFGR_PLLSAIQ_Pos;
                 R := Z.shiftr (Z.land sai RCC_PLLSAICFGR_PLLSAIR) RCC_PLLSAICFGR_PLLSAIR_Pos |}
        else if whichone =? PLL_I2S then
          i2s <- load RCC_PLLI2SCFGR ;;
          ret {| source := src; M := m;
                 N := Z.shiftr (Z.land i2s RCC_PLLI2SCFGR_PLLI2SN) RCC_PLLI2SCFGR_PLLI2SN_Pos;
                 P := Z.shiftr (Z.land i2s RCC_PLLI2SCFGR_PLLI2SP) RCC_PLLI2SCFGR_PLLI2SP_Pos;
                 Q := Z.shiftr (Z.land i2s RCC_PLLI2SCFGR_PLLI2SR) RCC_PLLI2SCFGR_PLLI2SQ_Pos;
                 R := Z.shiftr (Z.land i2s RCC_PLLI2SCFGR_PLLI2SR) RCC_PLLI2SCFGR_PLLI2SR_Pos |}
        else
          ret {| source := src; M := m;
                 N := N old; P := P old; Q := Q old; R := R old |}) ;;
  ret (0, {| source := source c; M := M c; N := N c;
             P := u32 (P c * 2 + 2);
             Q := Q c; R := R c |}).

(** [SystemGetPLLFrequencies]; [uninit] is what the local [pllconfig]
    holds before it is filled. *)
Definition SystemGetPLLFrequencies
  (whichone : Z) (uninit : PLLConfiguration_t)
  (pllfreq : PLLOutputFrequencies_t) : Sys (Z * PLLOutputFrequencies_t) :=
  c <- SystemGetPLLConfiguration whichone uninit ;;
  f <- lift (SystemCalcPLLFrequencies (snd c) pllfreq) ;;
  ret (0, snd f).

Definition SystemGetAPB1Frequency : Sys Z :=
  freq <- SystemGetCoreClock ;;
  ppre1 <- SystemGetAPB1Prescaler ;;
  lift (udiv freq ppre1).

Definition SystemGetAPB2Frequency : Sys Z :=
  freq <- SystemGetCoreClock ;;
  ppre2 <- SystemGetAPB2Prescaler ;;
  lift (udiv freq ppre2).

Definition SystemGetAHBFrequency : Sys Z := SystemGetCoreClock.

Definition SystemGetHCLKFrequency : Sys Z := SystemGetCoreClock.

(** *** The other on/off routines of the header *)

Definition SystemEnablePLLSAI : Sys unit :=
  cr <- load RCC_CR ;;
  store RCC_CR (Z.lor cr RCC_CR_PLLSAION) ;;
  wait_flag RCC_CR RCC_CR_PLLSAIRDY.

Definition SystemDisablePLLSAI : Sys unit :=
  cr <- load RCC_CR ;;
  store RCC_CR (Z.land cr (not32 RCC_CR_PLLSAION)).

Definition SystemEnablePLLI2S : Sys unit :=
  cr <- load RCC_CR ;;
  store RCC_CR (Z.lor cr RCC_CR_PLLI2SON) ;;
  wait_flag RCC_CR RCC_CR_PLLI2SRDY.

Definition SystemDisablePLLI2S : Sys unit :=
  cr <- load RCC_CR ;;
  store RCC_CR (Z.land cr (not32 RCC_CR_PLLI2SON)).

Definition SystemDisableHSE : Sys unit :=
  cr <- load RCC_CR ;;
  store RCC_CR (Z.land cr (not32 (Z.lor RCC_CR_HSEON RCC_CR_HSEBYP))).

Definition SystemDisableHSI : Sys unit :=
  cr <- load RCC_CR ;;
  store RCC_CR (Z.land cr (not32 RCC_CR_HSION)).

(** The start-up sequence of the [main] functions:
    [SystemConfigMainPLL(&MainPLLConfiguration_200MHz);
     SystemSetCoreClock(CLOCKSRC_PLL,1);], for any configuration *)
Definition main_clock_setup (pllconfig : PLLConfiguration_t) : Sys Z :=
  SystemConfigMainPLL pllconfig ;;
  SystemSetCoreClock CLOCKSRC_PLL 1.

Context {art : DeviceHeaderART}.

(** [SystemInit], as far as it acts on the registers of the state: the
    resets of RCC_CR, RCC_CFGR and RCC_PLLCFGR, the start of HSE, the three
    prescalers, the update of the cached core clock and the four
    read-modify-writes of FLASH_ACR, in the order of the source.  The FPU
    and cache set-up, the write to RCC_CIR and the writes that turn the
    display off act on other registers and are left out. *)
Definition SystemInit : Sys unit :=
  store RCC_CR 0x00000083 ;;
  store RCC_CFGR 0x00000000 ;;
  store RCC_PLLCFGR 0x24003010 ;;
  SystemEnableHSE ;;
  SystemSetAHBPrescaler 1 ;;
  SystemSetAPB1Prescaler 4 ;;
  SystemSetAPB2Prescaler 2 ;;
  SystemCoreClockUpdate ;;
  acr <- load FLASH_ACR ;;
  store FLASH_ACR (Z.land acr (not32 FLASH_ACR_ARTEN)) ;;
  acr <- load FLASH_ACR ;;
  store FLASH_ACR (Z.lor acr FLASH_ACR_ARTRST) ;;
  acr <- load FLASH_ACR ;;
  store FLASH_ACR (Z.lor acr FLASH_ACR_ARTEN) ;;
  acr <- load FLASH_ACR ;;
  store FLASH_ACR (Z.lor acr FLASH_ACR_PRFTEN).

End MoreRoutines.

(** The STM32F746 values of the three FLASH_ACR bits *)
Definition stm32f746xx_art : DeviceHeaderART := {|
  FLASH_ACR_PRFTEN := 0x100;
  FLASH_ACR_ARTEN := 0x200;
  FLASH_ACR_ARTRST := 0x800
|}.

(** ** Vocabulary of the properties *)

(** A field of [w] bits at position [pos] inside a 32-bit register *)
Record FieldLayout (msk pos w : Z) : Prop := {
  field_pos : 0 <= pos;
  field_width : 0 <= w;
  field_fits : pos + w <= 32;
  field_msk : msk = Z.shiftl (Z.ones w) pos
}.

(** What a header must provide for the APB prescaler fields of RCC_CFGR:
    two 3-bit fields inside the register, clear of the SWS status bits, and
    status values that lie inside the SWS mask. *)
Record CFGR_layout (hdr : DeviceHeader) : Prop := {
  sws_hsi_sub : Z.land RCC_CFGR_SWS_HSI RCC_CFGR_SWS = RCC_CFGR_SWS_HSI;
  sws_hse_sub : Z.land RCC_CFGR_SWS_HSE RCC_CFGR_SWS = RCC_CFGR_SWS_HSE;
  sws_pll_sub : Z.land RCC_CFGR_SWS_PLL RCC_CFGR_SWS = RCC_CFGR_SWS_PLL;
  ppre1_field : FieldLayout RCC_CFGR_PPRE1_Msk RCC_CFGR_PPRE1_Pos 3;
  ppre2_field : FieldLayout RCC_CFGR_PPRE2_Msk RCC_CFGR_PPRE2_Pos 3;
  ppre1_sws : Z.land RCC_CFGR_PPRE1_Msk RCC_CFGR_SWS = 0;
  ppre2_sws : Z.land RCC_CFGR_PPRE2_Msk RCC_CFGR_SWS = 0
}.

(** [d] is the smallest power of two that is at least [div]. *)
Definition smallest_pow2_geq (div d : Z) : Prop :=
  exists e, 0 <= e /\ d = 2 ^ e /\ div <= d /\
            forall e', 0 <= e' -> div <= 2 ^ e' -> d <= 2 ^ e'.

(** Row [ra] allows at least the frequencies of row [rb], column by column,
    wherever both have an entry. *)
Definition dominates (ra rb : FlashWaitStates_Type) : Prop :=
  Forall2 (fun a b => a <> 0 -> b <> 0 -> b <= a) (freqmax ra) (freqmax rb).

(** The record of writes of [s'] continues the one of [s]. *)
Definition extends (s s' : state) : Prop :=
  exists l, writes s' = writes s ++ l.

(** A routine that only ever adds to the record of writes. *)
Definition appends {A : Type} (c : Sys A) : Prop :=
  forall s a s', c s = Some (a, s') -> extends s s'.

(** A routine that reads and leaves the state as it is. *)
Definition reads {A : Type} (c : Sys A) : Prop :=
  forall s a s', c s = Some (a, s') -> s' = s.

(** A routine that leaves register [r] as it is. *)
Definition keeps {A : Type} (r : reg) (c : Sys A) : Prop :=
  forall s a s', c s = Some (a, s') -> get r s' = get r s.

(** What a header must provide for the three prescaler fields of
    RCC_CFGR together: HPRE is a 4-bit field clear of the SWS status, and
    HPRE, PPRE1 and PPRE2 follow one another without overlap. *)
Record CFGR_fields (hdr : DeviceHeader) : Prop := {
  cf_apb : CFGR_layout hdr;
  cf_hpre : FieldLayout RCC_CFGR_HPRE_Msk RCC_CFGR_HPRE_Pos 4;
  cf_hpre_sws : Z.land RCC_CFGR_HPRE_Msk RCC_CFGR_SWS = 0;
  cf_hpre_ppre1 : RCC_CFGR_HPRE_Pos + 4 <= RCC_CFGR_PPRE1_Pos;
  cf_ppre1_ppre2 : RCC_CFGR_PPRE1_Pos + 3 <= RCC_CFGR_PPRE2_Pos
}.

(** [Q] holds of the result and the state in which [c] returns, whenever
    it does. *)
Definition after {A : Type} (c : Sys A) (s : state)
  (Q : A -> state -> Prop) : Prop :=
  match c s with
  | Some (a, s') => Q a s'
  | None => True
  end.

(** What a header must provide for the clock mux: the SW selection is a
    2-bit field below the prescaler fields and clear of the SWS status,
    the code and the status of the PLL lie inside their masks and differ
    from those of HSI and HSE, and the status of the PLL is no value of
    the SW field. *)
Record MUX_layout (hdr : DeviceHeader) : Prop := {
  mux_fields : CFGR_fields hdr;
  mux_sw : exists p, FieldLayout RCC_CFGR_SW p 2 /\ p + 2 <= RCC_CFGR_HPRE_Pos;
  mux_sw_sws : Z.land RCC_CFGR_SW RCC_CFGR_SWS = 0;
  mux_pll_sub : Z.land RCC_CFGR_SW_PLL RCC_CFGR_SW = RCC_CFGR_SW_PLL;
  mux_pll_hsi : RCC_CFGR_SW_PLL <> RCC_CFGR_SW_HSI;
  mux_pll_hse : RCC_CFGR_SW_PLL <> RCC_CFGR_SW_HSE;
  mux_src_hsi : RCC_CFGR_SWS_PLL <> RCC_CFGR_SWS_HSI;
  mux_src_hse : RCC_CFGR_SWS_PLL <> RCC_CFGR_SWS_HSE;
  mux_src_sw : Z.land RCC_CFGR_SWS_PLL RCC_CFGR_SW <> RCC_CFGR_SWS_PLL
}.

(** A routine that keeps [I] once it holds. *)
Definition preserves {A : Type} (I : state -> Prop) (c : Sys A) : Prop :=
  forall s a s', I s -> c s = Some (a, s') -> I s'.

(** The flag [MainPLLConfigured] satisfies [P]. *)
Definition flag_is (P : Z -> Prop) (s : state) : Prop :=
  P (MainPLLConfigured s).

(** The clock mux selects the PLL and reports it as the source in use. *)
Definition core_on_PLL {hdr : DeviceHeader} (s : state) : Prop :=
  Z.land (rcc_cfgr s) RCC_CFGR_SW = RCC_CFGR_SW_PLL /\
  Z.land (rcc_cfgr s) RCC_CFGR_SWS = RCC_CFGR_SWS_PLL.

(** What a header must provide for the read-back of the PLL registers:
    PLLP is a 2-bit field that ends below PLLQ, and in the SAI and I2S
    registers R is a 3-bit field that starts no lower than Q. *)
Record PLL_layout (hdr : DeviceHeader) : Prop := {
  pl_p : FieldLayout RCC_PLLCFGR_PLLP RCC_PLLCFGR_PLLP_Pos 2;
  pl_pq : RCC_PLLCFGR_PLLP_Pos + 2 <= RCC_PLLCFGR_PLLQ_Pos;
  pl_sai_r : FieldLayout RCC_PLLSAICFGR_PLLSAIR RCC_PLLSAICFGR_PLLSAIR_Pos 3;
  pl_sai_qr : 0 <= RCC_PLLSAICFGR_PLLSAIQ_Pos <= RCC_PLLSAICFGR_PLLSAIR_Pos;
  pl_i2s_r : FieldLayout RCC_PLLI2SCFGR_PLLI2SR RCC_PLLI2SCFGR_PLLI2SR_Pos 3;
  pl_i2s_qr : 0 <= RCC_PLLI2SCFGR_PLLI2SQ_Pos <= RCC_PLLI2SCFGR_PLLI2SR_Pos
}.

(** The status the hardware reports after [v] is written to RCC_CFGR
    holding [old] (the choice made inside [cfgr_status]). *)
Definition status_of {hdr : DeviceHeader} (old v : Z) : Z :=
  let sw := Z.land v RCC_CFGR_SW in
  if sw =? RCC_CFGR_SW_HSI then RCC_CFGR_SWS_HSI
  else if sw =? RCC_CFGR_SW_HSE then RCC_CFGR_SWS_HSE
  else if sw =? RCC_CFGR_SW_PLL then RCC_CFGR_SWS_PLL
  else Z.land old RCC_CFGR_SWS.

(** The SWS status of RCC_CFGR is the one that belongs to its SW field. *)
Definition settled {hdr : DeviceHeader} (s : state) : Prop :=
  Z.land (rcc_cfgr s) RCC_CFGR_SWS = status_of (rcc_cfgr s) (rcc_cfgr s).

(** What [SystemGetCoreClock] reads, and the cached core clock. *)
Definition clock_view {hdr : DeviceHeader}
  (clk sws hpre pllcfgr : Z) (s : state) : Prop :=
  settled s /\
  SystemCoreClock s = clk /\
  Z.land (rcc_cfgr s) RCC_CFGR_SWS = sws /\
  Z.land (rcc_cfgr s) RCC_CFGR_HPRE_Msk = hpre /\
  rcc_pllcfgr s = pllcfgr.

(** What a header must provide for RCC_PLLCFGR: the fields M, N, P, the
    source bit and Q, of 6, 9, 2, 1 and 4 bits, in this order from bit 0
    up and without overlap; and the SW codes of HSI and HSE, written to
    the source bit, select HSI by an even and HSE by an odd value. *)
Record PLLCFGR_layout (hdr : DeviceHeader) : Prop := {
  pc_m : FieldLayout RCC_PLLCFGR_PLLM RCC_PLLCFGR_PLLM_Pos 6;
  pc_n : FieldLayout RCC_PLLCFGR_PLLN RCC_PLLCFGR_PLLN_Pos 9;
  pc_p : FieldLayout RCC_PLLCFGR_PLLP RCC_PLLCFGR_PLLP_Pos 2;
  pc_src : FieldLayout RCC_PLLCFGR_PLLSRC RCC_PLLCFGR_PLLSRC_Pos 1;
  pc_q : FieldLayout RCC_PLLCFGR_PLLQ RCC_PLLCFGR_PLLQ_Pos 4;
  pc_m_n : RCC_PLLCFGR_PLLM_Pos + 6 <= RCC_PLLCFGR_PLLN_Pos;
  pc_n_p : RCC_PLLCFGR_PLLN_Pos + 9 <= RCC_PLLCFGR_PLLP_Pos;
  pc_p_src : RCC_PLLCFGR_PLLP_Pos + 2 <= RCC_PLLCFGR_PLLSRC_Pos;
  pc_src_q : RCC_PLLCFGR_PLLSRC_Pos + 1 <= RCC_PLLCFGR_PLLQ_Pos;
  pc_hsi : Z.odd RCC_CFGR_SW_HSI = false;
  pc_hse : Z.odd RCC_CFGR_SW_HSE = true
}.

(** From [s] to [s'] a unit of RCC_CR was switched on and has become
    ready, and nothing else has changed. *)
Definition switched_on (on rdy : Z) (s s' : state) : Prop :=
  Z.land (rcc_cr s') on = on /\
  Z.land (rcc_cr s') rdy = rdy /\
  Z.land (rcc_cr s') (not32 (Z.lor on rdy))
  = Z.land (rcc_cr s) (not32 (Z.lor on rdy)) /\
  (forall r, r <> RCC_CR -> get r s' = get r s) /\
  SystemCoreClock s' = SystemCoreClock s /\
  MainPLLConfigured s' = MainPLLConfigured s.

(** From [s] to [s'] the bits [on] of RCC_CR were cleared, and nothing
    else has changed. *)
Definition switched_off (on : Z) (s s' : state) : Prop :=
  Z.land (rcc_cr s') on = 0 /\
  Z.land (rcc_cr s') (not32 on) = Z.land (rcc_cr s) (not32 on) /\
  (forall r, r <> RCC_CR -> get r s' = get r s) /\
  SystemCoreClock s' = SystemCoreClock s /\
  MainPLLConfigured s' = MainPLLConfigured s.

(** * Properties *)

(** ** Bits of the C conversions *)

Lemma u32_testbit (x n : Z) :
  0 <= n -> Z.testbit (u32 x) n = (n <? 32) && Z.testbit x n.
Proof.
  intros Hn. unfold u32.
  destruct (Z.ltb_spec n 32) as [Hlt | Hge]; cbn [andb].
  - apply Z.mod_pow2_bits_low. lia.
  - apply Z.mod_pow2_bits_high. lia.
Qed.

Lemma not32_testbit (x n : Z) :
  0 <= n -> Z.testbit (not32 x) n = (n <? 32) && negb (Z.testbit x n).
Proof.
  intros Hn. unfold not32. rewrite u32_testbit by assumption.
  now rewrite Z.lnot_spec by assumption.
Qed.

Lemma shl32_testbit (x p n : Z) :
  0 <= p -> 0 <= n ->
  Z.testbit (shl32 x p) n = (n <? 32) && Z.testbit x (n - p).
Proof.
  intros Hp Hn. unfold shl32. rewrite u32_testbit by assumption.
  now rewrite Z.shiftl_spec by assumption.
Qed.

(** A value below [2^w] has no bit at [w] or above. *)
Lemma small_testbit (p w n : Z) :
  0 <= p < 2 ^ w -> w <= n -> Z.testbit p n = false.
Proof.
  intros Hp Hn.
  destruct (Z.eq_dec p 0) as [-> | Hnz]; [apply Z.bits_0 |].
  apply Z.bits_above_log2; [lia |].
  assert (Z.log2 p < w); [| lia].
  apply Z.log2_lt_pow2; lia.
Qed.

(** The mask with [w] ones has exactly the bits below [w]. *)
Lemma ones_testbit (w n : Z) :
  0 <= w -> 0 <= n -> Z.testbit (Z.ones w) n = (n <? w).
Proof.
  intros Hw Hn. destruct (Z.ltb_spec n w).
  - apply Z.ones_spec_low. lia.
  - apply Z.ones_spec_high. lia.
Qed.

(** ** Register fields *)

Lemma field_mask_testbit (msk pos w n : Z) :
  FieldLayout msk pos w -> 0 <= n ->
  Z.testbit msk n = (pos <=? n) && (n <? pos + w).
Proof.
  intros [Hpos Hw _ ->] Hn.
  rewrite Z.shiftl_spec by assumption.
  destruct (Z.leb_spec pos n) as [Hle | Hlt]; cbn [andb].
  - rewrite ones_testbit by lia.
    destruct (Z.ltb_spec (n - pos) w), (Z.ltb_spec n (pos + w)); lia || reflexivity.
  - apply Z.testbit_neg_r. lia.
Qed.

(** Writing [p] into a field by [(reg & ~msk) | (p << pos)] and reading it
    back by [(reg & msk) >> pos] gives [p], when [p] fits the field. *)
Lemma field_readback (msk pos w cfgr p : Z) :
  FieldLayout msk pos w -> 0 <= p < 2 ^ w ->
  Z.shiftr (Z.land (Z.lor (Z.land cfgr (not32 msk)) (shl32 p pos)) msk) pos = p.
Proof.
  intros L Hp. pose proof (field_pos _ _ _ L) as Hpos.
  pose proof (field_fits _ _ _ L) as Hfit.
  apply Z.bits_inj'. intros n Hn.
  rewrite Z.shiftr_spec, Z.land_spec, Z.lor_spec, Z.land_spec by assumption.
  rewrite not32_testbit, shl32_testbit by lia.
  rewrite (field_mask_testbit msk pos w) by (assumption || lia).
  replace (n + pos - pos) with n by lia.
  destruct (Z.leb_spec pos (n + pos)); [| lia].
  destruct (Z.ltb_spec (n + pos) (pos + w)) as [Hin | Hout]; cbn [andb negb].
  - destruct (Z.ltb_spec (n + pos) 32); [| lia].
    cbn [andb]. now rewrite !andb_false_r, andb_true_r.
  - rewrite andb_false_r. symmetry. apply (small_testbit p w); lia.
Qed.

Lemma stm32f746xx_layout : CFGR_layout stm32f746xx.
Proof.
  constructor; try reflexivity; constructor; cbn; try lia; reflexivity.
Qed.

Section StatusBits.

Context {hdr : DeviceHeader}.
Hypothesis L : CFGR_layout hdr.

(** The status the hardware reports lies inside the SWS mask. *)
Lemma status_inside (x n : Z) :
  Z.land x RCC_CFGR_SWS = x -> Z.testbit RCC_CFGR_SWS n = false ->
  Z.testbit x n = false.
Proof.
  intros Hsub Hbit. rewrite <- Hsub, Z.land_spec, Hbit. apply andb_false_r.
Qed.

(** A field clear of the SWS bits reads what the software wrote. *)
Lemma cfgr_status_field (msk pos w old v : Z) :
  FieldLayout msk pos w -> Z.land msk RCC_CFGR_SWS = 0 ->
  Z.land (cfgr_status old v) msk = Z.land v msk.
Proof.
  intros F Hdisj. apply Z.bits_inj'. intros n Hn.
  rewrite !Z.land_spec.
  destruct (Z.testbit msk n) eqn:Hm; [| now rewrite !andb_false_r].
  rewrite !andb_true_r.
  assert (Hsws : Z.testbit RCC_CFGR_SWS n = false).
  { assert (Hb : Z.testbit (Z.land msk RCC_CFGR_SWS) n = false)
      by (rewrite Hdisj; apply Z.bits_0).
    rewrite Z.land_spec, Hm in Hb. exact Hb. }
  assert (Hlt : n < 32).
  { rewrite (field_mask_testbit msk pos w) in Hm by assumption.
    pose proof (field_fits _ _ _ F).
    destruct (Z.ltb_spec n (pos + w)); [lia |].
    rewrite andb_false_r in Hm. discriminate. }
  unfold cfgr_status. rewrite Z.lor_spec, Z.land_spec, not32_testbit by assumption.
  rewrite Hsws. destruct (Z.ltb_spec n 32); [| lia]. cbn [andb negb].
  rewrite andb_true_r.
  match goal with
  | |- _ || Z.testbit ?sws n = _ => assert (Hs : Z.testbit sws n = false)
  end.
  { repeat match goal with
           | |- context [if ?c then _ else _] => destruct c
           end.
    - apply (status_inside _ _ (sws_hsi_sub _ L) Hsws).
    - apply (status_inside _ _ (sws_hse_sub _ L) Hsws).
    - apply (status_inside _ _ (sws_pll_sub _ L) Hsws).
    - rewrite Z.land_spec, Hsws. apply andb_false_r. }
  rewrite Hs. apply orb_false_r.
Qed.

End StatusBits.

(** ** APB prescalers *)

Lemma smallest_pow2_geq_intro (div e : Z) :
  0 <= e -> div <= 2 ^ e -> (e = 0 \/ 2 ^ (e - 1) < div) ->
  smallest_pow2_geq div (2 ^ e).
Proof.
  intros He Hle Hmin. exists e. repeat split; try assumption.
  intros e' He' Hle'.
  destruct (Z.le_gt_cases e e') as [Hee | Hee].
  - apply Z.pow_le_mono_r; lia.
  - destruct Hmin as [-> | Hlt]; [lia |].
    assert (2 ^ e' <= 2 ^ (e - 1)) by (apply Z.pow_le_mono_r; lia).
    lia.
Qed.

(** The exponent found for a divisor in 1..16 and the 3-bit code made of it *)
Lemma ppre_encoding (div : Z) :
  1 <= div <= 16 ->
  let p2 := SystemFindLargestPower2Exp div in
  let ppre := if p2 =? 0 then 0 else u32 (4 + p2 - 1) in
  0 <= ppre < 2 ^ 3 /\ index ppre_table ppre = Some (2 ^ p2) /\
  0 <= p2 /\ div <= 2 ^ p2 /\ (p2 = 0 \/ 2 ^ (p2 - 1) < div).
Proof.
  intros Hdiv.
  assert (Hcases : In div [1; 2; 3; 4; 5; 6; 7; 8; 9; 10; 11; 12; 13; 14; 15; 16])
    by (cbn [In]; lia).
  cbn [In] in Hcases.
  repeat (destruct Hcases as [<- | Hcases]);
    try contradiction;
    vm_compute; repeat split; try discriminate; auto;
    right; reflexivity.
Qed.

Section APB.

Context {hdr : DeviceHeader}.
Hypothesis L : CFGR_layout hdr.

(** Reading back one APB field after the write of a 3-bit code *)
Lemma ppre_write_read (msk pos cfgr p : Z) :
  FieldLayout msk pos 3 -> Z.land msk RCC_CFGR_SWS = 0 -> 0 <= p < 2 ^ 3 ->
  Z.shiftr
    (Z.land (cfgr_status cfgr (Z.lor (Z.land cfgr (not32 msk)) (shl32 p pos))) msk)
    pos = p.
Proof.
  intros F Hdisj Hp.
  rewrite (cfgr_status_field L msk pos 3) by assumption.
  now apply (field_readback msk pos 3).
Qed.

End APB.

(** C10.  For every divisor in 1..16 that passes the frequency guard,
    [SystemSetAPB1Prescaler] and [SystemSetAPB2Prescaler] program their
    3-bit field so that the divisor read back through [ppre_table] is the
    smallest power of two that is at least the requested divisor; the bus
    frequency that results is therefore at most the one the requested
    divisor implied. *)
Theorem APB_prescaler_rounds_up (hdr : DeviceHeader) (div : Z) (s : state) :
  CFGR_layout hdr ->
  1 <= div <= 16 ->
  0 <= SystemCoreClock s ->
  SystemCoreClock s / div <= 54000000 ->
  (exists s1 d,
      SystemSetAPB1Prescaler div s = Some (tt, s1) /\
      SystemGetAPB1Prescaler s1 = Some (d, s1) /\
      smallest_pow2_geq div d /\
      SystemCoreClock s1 / d <= SystemCoreClock s / div) /\
  (exists s2 d,
      SystemSetAPB2Prescaler div s = Some (tt, s2) /\
      SystemGetAPB2Prescaler s2 = Some (d, s2) /\
      smallest_pow2_geq div d /\
      SystemCoreClock s2 / d <= SystemCoreClock s / div).
Proof.
  intros L Hdiv Hclk Hguard.
  pose proof (ppre_encoding div Hdiv) as E. cbv zeta in E.
  destruct E as (Hp & Hidx & Hp2 & Hle & Hmin).
  assert (Hnz : (div =? 0) = false) by (apply Z.eqb_neq; lia).
  assert (Hg : (SystemCoreClock s / div >? 54000000) = false)
    by (rewrite Z.gtb_ltb; apply Z.ltb_ge; exact Hguard).
  assert (Hfreq : SystemCoreClock s / 2 ^ SystemFindLargestPower2Exp div
                  <= SystemCoreClock s / div)
    by (apply Z.div_le_compat_l; lia).
  split.
  - eexists. exists (2 ^ SystemFindLargestPower2Exp div).
    unfold SystemSetAPB1Prescaler, SystemGetAPB1Prescaler, bind,
      get_SystemCoreClock, lift, udiv, load, store.
    rewrite Hnz, Hg. split; [reflexivity |].
    cbn [get set log rcc_cfgr SystemCoreClock].
    rewrite (ppre_write_read L) by (assumption || apply L).
    rewrite Hidx. repeat split; try assumption.
    now apply smallest_pow2_geq_intro.
  - eexists. exists (2 ^ SystemFindLargestPower2Exp div).
    unfold SystemSetAPB2Prescaler, SystemGetAPB2Prescaler, bind,
      get_SystemCoreClock, lift, udiv, load, store.
    rewrite Hnz, Hg. split; [reflexivity |].
    cbn [get set log rcc_cfgr SystemCoreClock].
    rewrite (ppre_write_read L) by (assumption || apply L).
    rewrite Hidx. repeat split; try assumption.
    now apply smallest_pow2_geq_intro.
Qed.

Lemma APB_prescaler_rounds_up_witness :
  (exists s1 d,
      @SystemSetAPB1Prescaler stm32f746xx 3 after_SystemInit = Some (tt, s1) /\
      @SystemGetAPB1Prescaler stm32f746xx s1 = Some (d, s1) /\
      smallest_pow2_geq 3 d /\
      SystemCoreClock s1 / d <= SystemCoreClock after_SystemInit / 3) /\
  (exists s2 d,
      @SystemSetAPB2Prescaler stm32f746xx 3 after_SystemInit = Some (tt, s2) /\
      @SystemGetAPB2Prescaler stm32f746xx s2 = Some (d, s2) /\
      smallest_pow2_geq 3 d /\
      SystemCoreClock s2 / d <= SystemCoreClock after_SystemInit / 3).
Proof.
  apply (APB_prescaler_rounds_up stm32f746xx 3 after_SystemInit).
  - constructor; try reflexivity; constructor; cbn; try lia; reflexivity.
  - lia.
  - vm_compute. discriminate.
  - vm_compute. discriminate.
Defined.

(** ** Flash wait-state lookup *)

Lemma scan_freqmax_index (row : list Z) (freq j j' e : Z) :
  scan_freqmax row freq j = Some (j', e) -> j <= j'.
Proof.
  revert j. induction row as [| f rest IH]; intros j H; cbn in H.
  - discriminate.
  - destruct (negb (f =? 0) && (freq >? f)).
    + apply IH in H. lia.
    + injection H as <- _. lia.
Qed.

(** Within one row, a higher frequency stops the walk no earlier. *)
Lemma scan_freqmax_mono (row : list Z) (f1 f2 j j1 e1 j2 e2 : Z) :
  f1 <= f2 ->
  scan_freqmax row f1 j = Some (j1, e1) ->
  scan_freqmax row f2 j = Some (j2, e2) ->
  j1 <= j2.
Proof.
  intros Hf. revert j.
  induction row as [| f rest IH]; intros j H1 H2; cbn in H1, H2.
  - discriminate.
  - destruct (Z.eqb_spec f 0) as [Hz | Hnz]; cbn [negb andb] in H1, H2.
    + injection H1 as <- _. injection H2 as <- _. lia.
    + rewrite Z.gtb_ltb in H1, H2.
      destruct (Z.ltb_spec f f1) as [Hlt1 | Hge1].
      * destruct (Z.ltb_spec f f2); [| lia]. eauto.
      * injection H1 as <- _.
        destruct (Z.ltb_spec f f2).
        -- apply scan_freqmax_index in H2. lia.
        -- injection H2 as <- _. lia.
Qed.

(** For one frequency, the walk of a dominated row that ends on an entry
    stops no earlier than the walk of the dominating row. *)
Lemma scan_freqmax_dominated (ra rb : list Z) (freq j ja ea jb eb : Z) :
  Forall2 (fun a b => a <> 0 -> b <> 0 -> b <= a) ra rb ->
  scan_freqmax ra freq j = Some (ja, ea) ->
  scan_freqmax rb freq j = Some (jb, eb) ->
  eb <> 0 ->
  ja <= jb.
Proof.
  intros D. revert j.
  induction D as [| a b ra' rb' Hab D IH]; intros j Ha Hb Heb; cbn in Ha, Hb.
  - discriminate.
  - rewrite Z.gtb_ltb in Ha, Hb.
    destruct (Z.eqb_spec a 0) as [Ha0 | Ha0]; cbn [negb andb] in Ha.
    + injection Ha as <- _. 
      destruct (negb (b =? 0) && (b <? freq)).
      * apply scan_freqmax_index in Hb. lia.
      * injection Hb as <- _. lia.
    + destruct (Z.ltb_spec a freq) as [Hlt | Hge].
      * destruct (Z.eqb_spec b 0) as [Hb0 | Hb0]; cbn [negb andb] in Hb.
        -- injection Hb as _ <-. contradiction.
        -- destruct (Z.ltb_spec b freq).
           ++ eauto.
           ++ specialize (Hab Ha0 Hb0). lia.
      * injection Ha as <- _.
        destruct (negb (b =? 0) && (b <? freq)).
        -- apply scan_freqmax_index in Hb. lia.
        -- injection Hb as <- _. lia.
Qed.

Lemma scan_vmin_In (tab : list FlashWaitStates_Type) (voltage : Z)
      (r : FlashWaitStates_Type) :
  scan_vmin tab voltage = Some r -> In r tab.
Proof.
  induction tab as [| x rest IH]; cbn; intros H.
  - discriminate.
  - destruct (negb (vmin x =? 0) && (voltage <? vmin x)).
    + right. auto.
    + left. now injection H.
Qed.

(** With more voltage the walk over the rows stops no later. *)
Lemma scan_vmin_mono (tab : list FlashWaitStates_Type) (v1 v2 : Z)
      (r1 r2 : FlashWaitStates_Type) :
  ForallOrdPairs dominates tab ->
  v1 <= v2 ->
  scan_vmin tab v1 = Some r1 ->
  scan_vmin tab v2 = Some r2 ->
  r1 = r2 \/ dominates r2 r1.
Proof.
  intros D Hv. induction D as [| x rest Hx D IH]; cbn; intros H1 H2.
  - discriminate.
  - destruct (Z.eqb_spec (vmin x) 0) as [Hz | Hnz]; cbn [negb andb] in H1, H2.
    + left. congruence.
    + destruct (Z.ltb_spec v2 (vmin x)) as [Hlt2 | Hge2].
      * destruct (Z.ltb_spec v1 (vmin x)); [| lia]. auto.
      * injection H2 as <-.
        destruct (Z.ltb_spec v1 (vmin x)).
        -- right. apply scan_vmin_In in H1.
           rewrite Forall_forall in Hx. auto.
        -- left. now injection H1.
Qed.

Lemma flashwaitstates_tab_ordered : ForallOrdPairs dominates flashwaitstates_tab.
Proof.
  unfold flashwaitstates_tab, dominates.
  repeat (constructor; cbn [freqmax]); intros; lia.
Qed.

(** The lookup always returns: the sentinels end both walks. *)
Lemma FindFlashWaitStates_total (freq voltage : Z) :
  exists ws, FindFlashWaitStates freq voltage = Some ws /\ -1 <= ws <= 9.
Proof.
  unfold FindFlashWaitStates, flashwaitstates_tab.
  cbn [scan_vmin vmin freqmax].
  repeat match goal with
         | |- context [negb (?a =? 0) && (voltage <? ?a)] =>
             change (negb (a =? 0)) with true; cbn [andb];
             destruct (voltage <? a)
         end;
    cbn [vmin freqmax]; cbn -[Z.gtb];
    repeat match goal with
           | |- context [freq >? ?a] => destruct (freq >? a); cbn -[Z.gtb]
           end;
    eexists; (split; [reflexivity | lia]).
Qed.

(** C8.  Where the lookups succeed, [FindFlashWaitStates] is non-decreasing
    in the frequency for a fixed voltage, and non-increasing in the voltage
    for a fixed frequency. *)
Theorem FindFlashWaitStates_monotone (freq1 freq2 voltage1 voltage2 : Z) :
  freq1 <= freq2 ->
  voltage1 <= voltage2 ->
  (forall ws1 ws2,
      FindFlashWaitStates freq1 voltage1 = Some ws1 ->
      FindFlashWaitStates freq2 voltage1 = Some ws2 ->
      0 <= ws1 -> 0 <= ws2 -> ws1 <= ws2) /\
  (forall wslow wshigh,
      FindFlashWaitStates freq1 voltage1 = Some wslow ->
      FindFlashWaitStates freq1 voltage2 = Some wshigh ->
      0 <= wslow -> 0 <= wshigh -> wshigh <= wslow).
Proof.
  intros Hf Hv. split.
  - intros ws1 ws2. unfold FindFlashWaitStates.
    destruct (scan_vmin flashwaitstates_tab voltage1) as [r |]; [| discriminate].
    destruct (vmin r =? 0); [intros [= <-]; lia |].
    destruct (scan_freqmax (freqmax r) freq1 0) as [[j1 e1] |] eqn:E1;
      [| discriminate].
    destruct (scan_freqmax (freqmax r) freq2 0) as [[j2 e2] |] eqn:E2;
      [| discriminate].
    destruct (e1 =? 0); [intros [= <-]; lia |].
    destruct (e2 =? 0); [intros _ [= <-]; lia |].
    intros [= <-] [= <-] _ _.
    exact (scan_freqmax_mono _ _ _ _ _ _ _ _ Hf E1 E2).
  - intros wslow wshigh. unfold FindFlashWaitStates.
    destruct (scan_vmin flashwaitstates_tab voltage1) as [r1 |] eqn:R1;
      [| discriminate].
    destruct (scan_vmin flashwaitstates_tab voltage2) as [r2 |] eqn:R2;
      [| discriminate].
    destruct (vmin r1 =? 0); [intros [= <-]; lia |].
    destruct (vmin r2 =? 0); [intros _ [= <-]; lia |].
    destruct (scan_freqmax (freqmax r1) freq1 0) as [[j1 e1] |] eqn:E1;
      [| discriminate].
    destruct (scan_freqmax (freqmax r2) freq1 0) as [[j2 e2] |] eqn:E2;
      [| discriminate].
    destruct (Z.eqb_spec e1 0) as [| He1]; [intros [= <-]; lia |].
    destruct (e2 =? 0); [intros _ [= <-]; lia |].
    intros [= <-] [= <-] _ _.
    destruct (scan_vmin_mono _ _ _ _ _ flashwaitstates_tab_ordered Hv R1 R2)
      as [<- | D].
    + rewrite E1 in E2. injection E2 as -> _. lia.
    + exact (scan_freqmax_dominated _ _ _ _ _ _ _ _ D E2 E1 He1).
Qed.

Lemma FindFlashWaitStates_monotone_witness :
  (FindFlashWaitStates 100 2500 = Some 4 /\
   FindFlashWaitStates 200 2500 = Some 8 /\
   FindFlashWaitStates 100 3300 = Some 3) /\
  4 <= 8 /\ 3 <= 4.
Proof.
  destruct (FindFlashWaitStates_monotone 100 200 2500 3300) as [Hfreq Hvolt].
  - lia.
  - lia.
  - split; [repeat split |].
    split.
    + apply (Hfreq 4 8); (reflexivity || lia).
    + apply (Hvolt 4 3); (reflexivity || lia).
Defined.

(** ** Auxiliary PLLs *)

(** C9.  While the main-PLL-configured flag is still clear,
    [SystemConfigPLLSAI] and [SystemConfigPLLI2S] return at once: no
    register is written and the whole state, registers, globals and the
    record of writes, is the one before the call. *)
Theorem auxiliary_PLL_before_main_PLL
        (hdr : DeviceHeader) (pllconfig : PLLConfiguration_t) (s : state) :
  MainPLLConfigured s = 0 ->
  SystemConfigPLLSAI pllconfig s = Some (tt, s) /\
  SystemConfigPLLI2S pllconfig s = Some (tt, s).
Proof.
  intros Hflag.
  unfold SystemConfigPLLSAI, SystemConfigPLLI2S, bind, get_MainPLLConfigured.
  rewrite Hflag. split; reflexivity.
Qed.

Lemma auxiliary_PLL_before_main_PLL_witness :
  @SystemConfigPLLSAI stm32f746xx (@PLLSAIConfiguration_48MHz stm32f746xx)
     after_SystemInit = Some (tt, after_SystemInit) /\
  @SystemConfigPLLI2S stm32f746xx (@PLLSAIConfiguration_48MHz stm32f746xx)
     after_SystemInit = Some (tt, after_SystemInit).
Proof.
  apply (auxiliary_PLL_before_main_PLL stm32f746xx). reflexivity.
Defined.

(** Once the flag is set the SAI PLL is programmed: the guard is what
    keeps the registers untouched above. *)
Example SystemConfigPLLSAI_after_main_PLL :
  option_map (fun r => writes (snd r))
    (@SystemConfigPLLSAI stm32f746xx (@PLLSAIConfiguration_48MHz stm32f746xx)
       running_on_PLL)
  = Some [(RCC_CR, 0x3070083); (RCC_PLLSAICFGR, 0x23032400);
          (RCC_CR, 0x13070083)].
Proof. vm_compute. reflexivity. Qed.

(** ** Behaviour at particular inputs *)

(** [ConfigureFlashWaitStates] has no path that returns without a write:
    [ws] is unsigned and the test [ws < 0] never holds. *)
Lemma ConfigureFlashWaitStates_always_writes
      (hdr : DeviceHeader) (freq voltage : Z) (s : state) :
  exists ws s',
    FindFlashWaitStates freq voltage = Some ws /\
    ConfigureFlashWaitStates freq voltage s = Some (tt, s') /\
    writes s' =
      writes s ++ [(FLASH_ACR,
                    Z.lor (Z.land (flash_cr s) (not32 FLASH_ACR_LATENCY))
                          (shl32 (int (u32 ws)) FLASH_ACR_LATENCY_Pos))].
Proof.
  destruct (FindFlashWaitStates_total freq voltage) as (ws & Hws & _).
  exists ws. eexists. split; [exact Hws |].
  unfold ConfigureFlashWaitStates, bind, lift. rewrite Hws.
  assert (Hnn : (u32 ws <? 0) = false).
  { apply Z.ltb_ge. unfold u32. apply Z.mod_pos_bound. lia. }
  rewrite Hnn. unfold SetFlashWaitStates, bind, load, store.
  split; reflexivity.
Qed.

(** C1.  At 217 MHz and 3300 mV the lookup fails with -1 (as it does at
    16 MHz and 1000 mV, where no voltage row matches), and
    [ConfigureFlashWaitStates] then still writes FLASH_ACR: the register
    goes from 0xB00 to 0xFFFFFFFF, the failure code taken as a count. *)
Theorem ConfigureFlashWaitStates_after_failed_lookup :
  FindFlashWaitStates 217 3300 = Some (-1) /\
  FindFlashWaitStates 16 1000 = Some (-1) /\
  @ConfigureFlashWaitStates stm32f746xx 217 3300 after_SystemInit
  = Some (tt, {| rcc_cr := 0x70083;
                 rcc_cfgr := 0x9400;
                 rcc_pllcfgr := 0x24003010;
                 rcc_pllsaicfgr := 0x24003000;
                 rcc_plli2scfgr := 0x24003000;
                 flash_acr := 0xFFFFFFFF;
                 flash_cr := 0x80000000;
                 SystemCoreClock := 16000000;
                 MainPLLConfigured := 0;
                 writes := [(FLASH_ACR, 0xFFFFFFFF)] |}).
Proof. vm_compute. repeat split. Qed.

(** C2.  [SystemSetCoreClock(CLOCKSRC_PLL,1)] called after [SystemInit]:
    the worst-case latency 9 is the first write and the switch of the mux
    to the PLL comes later, but the write to FLASH_ACR that follows the
    switch is 0xFFFFFFFF, not the count for the resulting 200 MHz: the
    lookup is made with 200000000 and fails, whereas the table gives 6 wait
    states for 200 MHz at 3300 mV. *)
Theorem SystemSetCoreClock_from_reset_to_PLL :
  @SystemSetCoreClock stm32f746xx (@CLOCKSRC_PLL stm32f746xx) 1 after_SystemInit
  = Some (0, {| rcc_cr := 0x3070083;
                rcc_cfgr := 0x940A;
                rcc_pllcfgr := 0x22426419;
                rcc_pllsaicfgr := 0x24003000;
                rcc_plli2scfgr := 0x24003000;
                flash_acr := 0xFFFFFFFF;
                flash_cr := 0x80000000;
                SystemCoreClock := 200000000;
                MainPLLConfigured := 1;
                writes := [(FLASH_ACR, 0x80000009);
                           (RCC_CFGR, 0x9400); (RCC_CFGR, 0x9400);
                           (RCC_CFGR, 0x9400);
                           (RCC_CFGR, 0x9400); (RCC_CFGR, 0x9400);
                           (RCC_CR, 0x70083); (RCC_CR, 0x70083);
                           (RCC_PLLCFGR, 0x22426419); (RCC_CR, 0x1070083);
                           (RCC_CFGR, 0x9402);
                           (FLASH_ACR, 0xFFFFFFFF);
                           (RCC_CFGR, 0x940A)] |}) /\
  FindFlashWaitStates 200000000 VSUPPLY = Some (-1) /\
  FindFlashWaitStates 200 VSUPPLY = Some 6.
Proof. vm_compute. repeat split. Qed.

(** C3.  [FindHPRE] returns 0 up to 1 and 15 from 512 on, but in between it
    uses the power of two itself where its exponent is meant: divisor 2
    gives code 9, which [hpre_table] decodes to 4, and divisors from 9 on
    give values that are no 4-bit code (22 for 9, 38 for 32, 518 for 511). *)
Theorem FindHPRE_between_the_extremes :
  map FindHPRE [0; 1; 512; 600] = [0; 0; 15; 15] /\
  FindHPRE 2 = 9 /\ index hpre_table (FindHPRE 2) = Some 4 /\
  FindHPRE 9 = 22 /\ index hpre_table (FindHPRE 9) = None /\
  FindHPRE 32 = 38 /\ FindHPRE 511 = 518.
Proof. vm_compute. repeat split. Qed.

(** C4.  With the core at 200 MHz, [SystemSetAPB2Prescaler(2)] would put
    APB2 at 100 MHz, under its 108 MHz ceiling, and yet leaves the field as
    it was (divide by 4): APB2 is tested against the 54 MHz of APB1.  In
    [SystemSetCoreClock] an APB2 divisor of 1, legal at the resulting
    100 MHz, is for the same reason not restored: the bus stays at the
    override 2. *)
Theorem SystemSetAPB2Prescaler_ceiling :
  200000000 / 2 <= 108000000 /\
  @SystemGetAPB2Prescaler stm32f746xx (set RCC_CFGR 0xB40A running_on_PLL)
  = Some (4, set RCC_CFGR 0xB40A running_on_PLL) /\
  @SystemSetAPB2Prescaler stm32f746xx 2 (set RCC_CFGR 0xB40A running_on_PLL)
  = Some (tt, set RCC_CFGR 0xB40A running_on_PLL) /\
  option_map (fun r => (fst r, SystemCoreClock (snd r)))
    ((@SystemConfigMainPLL stm32f746xx
        {| source := @CLOCKSRC_HSE stm32f746xx;
           M := 25; N := 200; P := 2; Q := 2; R := 2 |} ;;
      @SystemSetAPB2Prescaler stm32f746xx 1 ;;
      before <- @SystemGetAPB2Prescaler stm32f746xx ;;
      @SystemSetCoreClock stm32f746xx (@CLOCKSRC_PLL stm32f746xx) 1 ;;
      after <- @SystemGetAPB2Prescaler stm32f746xx ;;
      ret (before, after)) after_SystemInit)
  = Some ((1, 2), 100000000).
Proof. vm_compute. repeat split. discriminate. Qed.

(** C5.  [SystemConfigMainPLL] called while the PLL drives the core: the
    two writes to RCC_CFGR keep only the SW bits, so HPRE, PPRE1 and PPRE2
    are cleared; RCC_CFGR goes from 0x940A to 0xA and the APB1 and APB2
    divisors from 4 and 2 to 1.  The state is the one reached from
    [SystemInit] by [SystemSetCoreClock(CLOCKSRC_PLL,1)]. *)
Theorem SystemConfigMainPLL_while_PLL_drives_core :
  @SystemConfigMainPLL stm32f746xx (@MainPLLConfiguration_216MHz stm32f746xx)
     running_on_PLL
  = Some (tt, {| rcc_cr := 0x3070083;
                 rcc_cfgr := 0xA;
                 rcc_pllcfgr := 0x22426C19;
                 rcc_pllsaicfgr := 0x24003000;
                 rcc_plli2scfgr := 0x24003000;
                 flash_acr := 0xFFFFFFFF;
                 flash_cr := 0x80000000;
                 SystemCoreClock := 200000000;
                 MainPLLConfigured := 1;
                 writes := [(RCC_CR, 0x3070083); (RCC_CFGR, 0x2);
                            (RCC_CR, 0x2070083); (RCC_CR, 0x2070083);
                            (RCC_PLLCFGR, 0x22426C19); (RCC_CR, 0x3070083);
                            (RCC_CFGR, 0x2)] |}) /\
  option_map fst
    ((a <- @SystemGetAPB1Prescaler stm32f746xx ;;
      b <- @SystemGetAPB2Prescaler stm32f746xx ;;
      @SystemConfigMainPLL stm32f746xx (@MainPLLConfiguration_216MHz stm32f746xx) ;;
      c <- @SystemGetAPB1Prescaler stm32f746xx ;;
      d <- @SystemGetAPB2Prescaler stm32f746xx ;;
      ret (a, b, c, d)) running_on_PLL)
  = Some (4, 2, 1, 1) /\
  option_map fst
    ((@SystemSetCoreClock stm32f746xx (@CLOCKSRC_PLL stm32f746xx) 1 ;;
      before <- load RCC_CFGR ;;
      @SystemConfigMainPLL stm32f746xx (@MainPLLConfiguration_216MHz stm32f746xx) ;;
      after <- load RCC_CFGR ;;
      ret (before, after)) after_SystemInit)
  = Some (0x940A, 0xA).
Proof. vm_compute. repeat split. Qed.

(** C6.  [SystemCheckPLLConfiguration] accepts N = 1000, far above 432
    (the upper bound is tested on M), and answers -4 both for a Q and for
    an R out of range. *)
Theorem SystemCheckPLLConfiguration_cases :
  SystemCheckPLLConfiguration
    {| source := 4; M := 25; N := 1000; P := 2; Q := 2; R := 2 |} = 0 /\
  SystemCheckPLLConfiguration
    {| source := 4; M := 25; N := 400; P := 2; Q := 1; R := 2 |} = -4 /\
  SystemCheckPLLConfiguration
    {| source := 4; M := 25; N := 400; P := 2; Q := 2; R := 1 |} = -4.
Proof. vm_compute. repeat split. Qed.

(** C7.  For 200000000 Hz the derived configuration has N = 400000000,
    outside 50..432; its computed output is 552894464 Hz and not the
    requested frequency; the call returns 200000000 and leaves a cached
    core clock of 0.  Read in MHz the argument fares no better: 200 gives
    N = 400 and an output of 200000000, not 200, and 300 is not clamped
    and gives N = 600. *)
Theorem SystemSetCoreClockFrequency_200MHz :
  @clockconf stm32f746xx 200000000
  = {| source := 4; M := 25; N := 400000000; P := 2; Q := 2; R := 2 |} /\
  @CalculateMainPLLOutFrequency stm32f746xx (@clockconf stm32f746xx 200000000)
  = Some 552894464 /\
  option_map (fun r => (fst r, SystemCoreClock (snd r)))
    (@SystemSetCoreClockFrequency stm32f746xx 200000000 after_SystemInit)
  = Some (200000000, 0) /\
  @CalculateMainPLLOutFrequency stm32f746xx (@clockconf stm32f746xx 200)
  = Some 200000000 /\
  option_map (fun r => (fst r, Z.shiftr (Z.land (rcc_pllcfgr (snd r)) 0x7FC0) 6))
    (@SystemSetCoreClockFrequency stm32f746xx 300 after_SystemInit)
  = Some (300, 88).
Proof. vm_compute. repeat split. Qed.

(** ** Order of the register writes *)

Lemma extends_refl (s : state) : extends s s.
Proof. exists []. now rewrite app_nil_r. Qed.

Lemma extends_trans (s1 s2 s3 : state) :
  extends s1 s2 -> extends s2 s3 -> extends s1 s3.
Proof.
  intros [l1 H1] [l2 H2]. exists (l1 ++ l2). now rewrite H2, H1, app_assoc.
Qed.

Lemma bind_Some {A B : Type} (c : Sys A) (k : A -> Sys B) s b s'' :
  bind c k s = Some (b, s'') ->
  exists a s', c s = Some (a, s') /\ k a s' = Some (b, s'').
Proof.
  unfold bind. destruct (c s) as [[a s'] |]; [| discriminate]. eauto.
Qed.

Lemma reads_appends {A : Type} (c : Sys A) : reads c -> appends c.
Proof. intros H s a s' E. rewrite (H _ _ _ E). apply extends_refl. Qed.

Lemma appends_bind {A B : Type} (c : Sys A) (k : A -> Sys B) :
  appends c -> (forall a, appends (k a)) -> appends (bind c k).
Proof.
  intros Hc Hk s b s'' E. apply bind_Some in E as (a & s' & E1 & E2).
  apply (extends_trans s s' s'').
  - exact (Hc _ _ _ E1).
  - exact (Hk _ _ _ _ E2).
Qed.

Lemma appends_if {A : Type} (b : bool) (c1 c2 : Sys A) :
  appends c1 -> appends c2 -> appends (if b then c1 else c2).
Proof. now destruct b. Qed.

Lemma reads_bind {A B : Type} (c : Sys A) (k : A -> Sys B) :
  reads c -> (forall a, reads (k a)) -> reads (bind c k).
Proof.
  intros Hc Hk s b s'' E. apply bind_Some in E as (a & s' & E1 & E2).
  rewrite (Hk _ _ _ _ E2). eauto.
Qed.

Lemma reads_ret {A : Type} (a : A) : reads (ret a).
Proof. intros s x s' [= _ <-]. reflexivity. Qed.

Lemma reads_lift {A : Type} (o : option A) : reads (lift o).
Proof. intros s x s'. unfold lift. destruct o; [intros [= _ <-] | ]; easy. Qed.

Lemma reads_load (r : reg) : reads (load r).
Proof. intros s x s' [= _ <-]. reflexivity. Qed.

Lemma reads_get_SystemCoreClock : reads get_SystemCoreClock.
Proof. intros s x s' [= _ <-]. reflexivity. Qed.

Lemma reads_get_MainPLLConfigured : reads get_MainPLLConfigured.
Proof. intros s x s' [= _ <-]. reflexivity. Qed.

Lemma appends_set_SystemCoreClock (v : Z) : appends (set_SystemCoreClock v).
Proof. intros s x s' [= _ <-]. exists []. cbn. now rewrite app_nil_r. Qed.

Lemma appends_set_MainPLLConfigured (v : Z) : appends (set_MainPLLConfigured v).
Proof. intros s x s' [= _ <-]. exists []. cbn. now rewrite app_nil_r. Qed.

Lemma writes_set (r : reg) (v : Z) (s : state) : writes (set r v s) = writes s.
Proof. now destruct r. Qed.

Create HintDb appends.

#[local] Hint Resolve reads_ret reads_lift reads_load
  reads_get_SystemCoreClock reads_get_MainPLLConfigured
  appends_set_SystemCoreClock appends_set_MainPLLConfigured : appends.

(** Walk a routine statement by statement. *)
Ltac step_reads :=
  repeat first
    [ solve [auto 1 with appends]
    | apply reads_bind; [| intros ?] ].

Ltac step_appends :=
  repeat first
    [ solve [auto 1 with appends]
    | solve [apply reads_appends; auto 1 with appends]
    | apply appends_bind; [| intros ?]
    | apply appends_if ].

Section WriteOrder.

Context {hdr : DeviceHeader}.

Lemma appends_store (r : reg) (v : Z) : appends (store r v).
Proof.
  intros s x s' [= _ <-]. exists [(r, v)]. now rewrite writes_set.
Qed.

Lemma appends_wait_flag (r : reg) (flag : Z) : appends (wait_flag r flag).
Proof.
  intros s x s' [= _ <-]. exists []. now rewrite writes_set, app_nil_r.
Qed.

#[local] Hint Resolve appends_store appends_wait_flag : appends.

Lemma reads_SystemGetAPB1Prescaler : reads SystemGetAPB1Prescaler.
Proof. unfold SystemGetAPB1Prescaler. step_reads. Qed.

Lemma reads_SystemGetAPB2Prescaler : reads SystemGetAPB2Prescaler.
Proof. unfold SystemGetAPB2Prescaler. step_reads. Qed.

Lemma reads_SystemGetAHBPrescaler : reads SystemGetAHBPrescaler.
Proof. unfold SystemGetAHBPrescaler. cbv zeta. step_reads. Qed.

Lemma reads_SystemGetSYSCLKFrequency : reads SystemGetSYSCLKFrequency.
Proof.
  unfold SystemGetSYSCLKFrequency.
  apply reads_bind; [auto with appends | intros cfgr].
  apply reads_bind; [auto with appends | intros pllcfgr]. cbv zeta.
  repeat match goal with
         | |- reads (if ?c then _ else _) => destruct c
         end; auto with appends.
Qed.

#[local] Hint Resolve reads_SystemGetAPB1Prescaler reads_SystemGetAPB2Prescaler
  reads_SystemGetAHBPrescaler reads_SystemGetSYSCLKFrequency : appends.

Lemma appends_SetFlashWaitStates (n : Z) : appends (SetFlashWaitStates n).
Proof. unfold SetFlashWaitStates. step_appends. Qed.

Lemma appends_SystemSetAPB1Prescaler (div : Z) :
  appends (SystemSetAPB1Prescaler div).
Proof. unfold SystemSetAPB1Prescaler. cbv zeta. step_appends. Qed.

Lemma appends_SystemSetAPB2Prescaler (div : Z) :
  appends (SystemSetAPB2Prescaler div).
Proof. unfold SystemSetAPB2Prescaler. cbv zeta. step_appends. Qed.

Lemma appends_write_HPRE (h : Z) : appends (write_HPRE h).
Proof. unfold write_HPRE. step_appends. Qed.

Lemma appends_write_SW (sw : Z) : appends (write_SW sw).
Proof. unfold write_SW. step_appends. Qed.

Lemma appends_SystemEnableHSI : appends SystemEnableHSI.
Proof. unfold SystemEnableHSI. step_appends. Qed.

Lemma appends_SystemEnableHSE : appends SystemEnableHSE.
Proof. unfold SystemEnableHSE. step_appends. Qed.

Lemma appends_SystemEnableMainPLL : appends SystemEnableMainPLL.
Proof. unfold SystemEnableMainPLL. step_appends. Qed.

Lemma appends_SystemDisableMainPLL : appends SystemDisableMainPLL.
Proof. unfold SystemDisableMainPLL. step_appends. Qed.

#[local] Hint Resolve appends_SetFlashWaitStates appends_SystemSetAPB1Prescaler
  appends_SystemSetAPB2Prescaler appends_write_HPRE appends_write_SW
  appends_SystemEnableHSI appends_SystemEnableHSE appends_SystemEnableMainPLL
  appends_SystemDisableMainPLL : appends.

Lemma appends_SystemConfigMainPLL (c : PLLConfiguration_t) :
  appends (SystemConfigMainPLL c).
Proof.
  unfold SystemConfigMainPLL, SystemConfigMainPLL_program. cbv zeta.
  step_appends.
Qed.

Lemma appends_SystemCoreClockUpdate : appends SystemCoreClockUpdate.
Proof. unfold SystemCoreClockUpdate, SystemGetCoreClock. step_appends. Qed.

Lemma appends_ConfigureFlashWaitStates (freq voltage : Z) :
  appends (ConfigureFlashWaitStates freq voltage).
Proof. unfold ConfigureFlashWaitStates. cbv zeta. step_appends. Qed.

#[local] Hint Resolve appends_SystemConfigMainPLL appends_SystemCoreClockUpdate
  appends_ConfigureFlashWaitStates : appends.

Lemma appends_SystemSetCoreClock_finish (ppre1 ppre2 : Z) :
  appends (SystemSetCoreClock_finish ppre1 ppre2).
Proof. unfold SystemSetCoreClock_finish. step_appends. Qed.

(** The worst-case settings start with the latency write. *)
Lemma worst_case_first (s : state) (a : unit) (s' : state) :
  worst_case s = Some (a, s') ->
  exists l, writes s' = writes s ++ (FLASH_ACR, worst_case_latency s) :: l.
Proof.
  unfold worst_case. intros E.
  apply bind_Some in E as (x & s1 & E1 & E).
  assert (Happ : appends (SystemSetAPB1Prescaler 4 ;; SystemSetAPB2Prescaler 2))
    by step_appends.
  destruct (Happ _ _ _ E) as [l Hl]. exists l.
  unfold SetFlashWaitStates, bind, load, store in E1.
  injection E1 as _ <-. rewrite Hl. cbn [set log writes get].
  now rewrite <- app_assoc.
Qed.

(** In a call of [SystemSetCoreClock] that changes the source, or keeps it
    and lowers the divisor, the first register write is the worst-case
    latency: every write to RCC_CFGR, the one to HPRE and the one to SW
    among them, comes after it. *)
Lemma SystemSetCoreClock_worst_case_first
      (newsrc newdiv : Z) (s : state) (r : Z) (s' : state) :
  SystemSetCoreClock newsrc newdiv s = Some (r, s') ->
  newsrc <> Z.land (rcc_cfgr s) RCC_CFGR_SW \/
  (exists div,
      index hpre_table
        (Z.shiftr (Z.land (rcc_cfgr s) RCC_CFGR_HPRE_Msk) RCC_CFGR_HPRE_Pos)
      = Some div /\ newdiv < div) ->
  exists l, writes s' = writes s ++ (FLASH_ACR, worst_case_latency s) :: l.
Proof.
  intros E Hcase. unfold SystemSetCoreClock in E.
  apply bind_Some in E as (cfgr & s0 & E0 & E).
  unfold load in E0. injection E0 as <- <-. cbv zeta in E.
  apply bind_Some in E as (ppre1 & s1 & E1 & E).
  apply reads_SystemGetAPB1Prescaler in E1 as ->.
  apply bind_Some in E as (ppre2 & s2 & E2 & E).
  apply reads_SystemGetAPB2Prescaler in E2 as ->.
  apply bind_Some in E as (u & s3 & Ebranch & Efinish).
  apply appends_SystemSetCoreClock_finish in Efinish as [lf Hlf].
  assert (Hfirst : exists l,
             writes s3 = writes s ++ (FLASH_ACR, worst_case_latency s) :: l).
  { cbn [get] in Ebranch.
    destruct (Z.eqb_spec newsrc (Z.land (rcc_cfgr s) RCC_CFGR_SW)) as [Heq | Hne].
    - destruct Hcase as [Hne | (div & Hdiv & Hlt)]; [contradiction |].
      apply bind_Some in Ebranch as (cfgr & s0 & E0 & E).
      unfold load in E0. injection E0 as <- <-. cbn [get] in E.
      rewrite Hdiv in E.
      apply bind_Some in E as (d & s0 & E0 & E).
      injection E0 as <- <-.
      apply bind_Some in E as (x & s4 & Ewc & Ehpre).
      destruct (Z.ltb_spec newdiv div); [| lia].
      apply worst_case_first in Ewc as [l Hl].
      apply appends_write_HPRE in Ehpre as [l' Hl'].
      exists (l ++ l'). rewrite Hl', Hl, <- app_assoc. reflexivity.
    - apply bind_Some in Ebranch as (x & s4 & Ewc & Erest).
      apply worst_case_first in Ewc as [l Hl].
      assert (Happ : extends s4 s3).
      { revert Erest. generalize s4, u, s3.
        change (appends
          (write_HPRE (FindHPRE newdiv) ;;
           (if newsrc =? CLOCKSRC_HSI
            then SystemEnableHSI ;; write_SW RCC_CFGR_SW_HSI
            else if newsrc =? CLOCKSRC_HSE
            then SystemEnableHSE ;; write_SW RCC_CFGR_SW_HSE
            else if newsrc =? CLOCKSRC_PLL
            then
              configured <- get_MainPLLConfigured ;;
              (if configured =? 0
               then SystemSetAPB1Prescaler 4 ;;
                    SystemSetAPB2Prescaler 2 ;;
                    SystemConfigMainPLL ClockConfiguration200MHz
               else ret tt) ;;
              write_SW RCC_CFGR_SW_PLL
            else ret tt))).
        step_appends. }
      destruct Happ as [l' Hl'].
      exists (l ++ l'). rewrite Hl', Hl, <- app_assoc. reflexivity. }
  destruct Hfirst as [l Hl]. exists (l ++ lf).
  rewrite Hlf, Hl, <- app_assoc. reflexivity.
Qed.

End WriteOrder.

(** ** PLL presets *)

(** The 200 MHz and 216 MHz presets compute to exactly these frequencies. *)
Example CalculateMainPLLOutFrequency_presets :
  @CalculateMainPLLOutFrequency stm32f746xx
     (@MainPLLConfiguration_200MHz stm32f746xx) = Some 200000000 /\
  @CalculateMainPLLOutFrequency stm32f746xx
     (@MainPLLConfiguration_216MHz stm32f746xx) = Some 216000000 /\
  @CalculateMainPLLOutFrequency stm32f746xx
     (@MainPLLConfiguration_Max stm32f746xx) = Some 216000000.
Proof. vm_compute. repeat split. Qed.

(** ** What holds of the routines around the failing inputs *)

(** [FindHPRE] at the two extremes *)
Lemma FindHPRE_extremes (divisor : Z) :
  (divisor <= 1 -> FindHPRE divisor = 0) /\
  (512 <= divisor -> FindHPRE divisor = 15).
Proof.
  unfold FindHPRE. split; intros H.
  - destruct (Z.leb_spec divisor 1); [reflexivity | lia].
  - destruct (Z.leb_spec divisor 1); [lia |].
    rewrite Z.geb_leb. destruct (Z.leb_spec 512 divisor); [reflexivity | lia].
Qed.

(** The configurations [SystemCheckPLLConfiguration] accepts: N has no
    upper bound. *)
Lemma SystemCheckPLLConfiguration_accepts (c : PLLConfiguration_t) :
  SystemCheckPLLConfiguration c = 0 <->
  2 <= M c <= 63 /\ 50 <= N c /\
  (P c = 2 \/ P c = 4 \/ P c = 6 \/ P c = 8) /\
  2 <= Q c <= 15 /\ (R c = 0 \/ 2 <= R c <= 7).
Proof.
  unfold SystemCheckPLLConfiguration. rewrite !Z.gtb_ltb.
  destruct (Z.ltb_spec (M c) 2); cbn [orb]; [split; [discriminate | lia] |].
  destruct (Z.ltb_spec 63 (M c)); [split; [discriminate | lia] |].
  destruct (Z.ltb_spec (N c) 50); cbn [orb]; [split; [discriminate | lia] |].
  destruct (Z.ltb_spec 432 (M c)); [lia |].
  destruct (Z.eqb_spec (P c) 2), (Z.eqb_spec (P c) 4),
    (Z.eqb_spec (P c) 6), (Z.eqb_spec (P c) 8); cbn [negb andb];
    try (split; [discriminate | lia]);
    (destruct (Z.ltb_spec (Q c) 2); cbn [orb]; [split; [discriminate | lia] |];
     destruct (Z.ltb_spec 15 (Q c)); [split; [discriminate | lia] |];
     destruct (Z.eqb_spec (R c) 0); cbn [negb andb]; [split; [lia | reflexivity] |];
     destruct (Z.ltb_spec (R c) 2); cbn [orb]; [split; [discriminate | lia] |];
     destruct (Z.ltb_spec 7 (R c)); split; (discriminate || lia || reflexivity)).
Qed.

Lemma get_set_other (r r' : reg) (v : Z) (s : state) :
  r <> r' -> get r (set r' v s) = get r s.
Proof. destruct r, r'; intros H; try reflexivity; contradiction. Qed.

Lemma get_log (r r' : reg) (v : Z) (s : state) : get r (log r' v s) = get r s.
Proof. now destruct r. Qed.

Lemma keeps_reads {A : Type} (r : reg) (c : Sys A) : reads c -> keeps r c.
Proof. intros H s a s' E. now rewrite (H _ _ _ E). Qed.

Lemma keeps_bind {A B : Type} (r : reg) (c : Sys A) (k : A -> Sys B) :
  keeps r c -> (forall a, keeps r (k a)) -> keeps r (bind c k).
Proof.
  intros Hc Hk s b s'' E. apply bind_Some in E as (a & s' & E1 & E2).
  rewrite (Hk _ _ _ _ E2). exact (Hc _ _ _ E1).
Qed.

Lemma keeps_if {A : Type} (r : reg) (b : bool) (c1 c2 : Sys A) :
  keeps r c1 -> keeps r c2 -> keeps r (if b then c1 else c2).
Proof. now destruct b. Qed.

Lemma keeps_set_MainPLLConfigured (r : reg) (v : Z) :
  keeps r (set_MainPLLConfigured v).
Proof. intros s a s' [= _ <-]. now destruct r. Qed.

Section Frame.

Context {hdr : DeviceHeader}.

Lemma keeps_store (r r' : reg) (v : Z) : r <> r' -> keeps r (store r' v).
Proof.
  intros Hne s a s' [= _ <-]. rewrite get_set_other by assumption.
  apply get_log.
Qed.

Lemma keeps_wait_flag (r r' : reg) (flag : Z) :
  r <> r' -> keeps r (wait_flag r' flag).
Proof. intros Hne s a s' [= _ <-]. now apply get_set_other. Qed.

(** Walk a routine that writes only RCC_CR and RCC_PLLCFGR. *)
Ltac step_keeps :=
  repeat first
    [ solve [apply keeps_reads; auto 1 with appends]
    | solve [apply keeps_store; assumption]
    | solve [apply keeps_wait_flag; assumption]
    | apply keeps_set_MainPLLConfigured
    | apply keeps_bind; [| intros ?]
    | apply keeps_if ].

(** As long as the PLL does not drive the core, [SystemConfigMainPLL]
    writes RCC_CR and RCC_PLLCFGR only; RCC_CFGR with its prescaler fields,
    the SAI and I2S PLL registers and the flash registers keep their
    values. *)
Lemma SystemConfigMainPLL_keeps_CFGR
      (pllconfig : PLLConfiguration_t) (r : reg) (s : state) (s' : state) :
  r <> RCC_CR -> r <> RCC_PLLCFGR ->
  Z.land (rcc_cfgr s) RCC_CFGR_SWS <> RCC_CFGR_SWS_PLL ->
  SystemConfigMainPLL pllconfig s = Some (tt, s') ->
  get r s' = get r s.
Proof.
  intros Hcr Hpll Hsws E. unfold SystemConfigMainPLL in E. cbv zeta in E.
  apply bind_Some in E as (cfgr & s0 & E0 & E).
  unfold load in E0. injection E0 as <- <-. cbn [get] in E.
  destruct (Z.eqb_spec (Z.land (rcc_cfgr s) RCC_CFGR_SWS) RCC_CFGR_SWS_PLL);
    [contradiction |].
  apply bind_Some in E as (w & s0 & E0 & E).
  injection E0 as <- <-.
  assert (K : keeps r
    (SystemDisableMainPLL ;;
     (if source pllconfig =? CLOCKSRC_HSI
      then SystemEnableHSI ;;
           SystemConfigMainPLL_program pllconfig RCC_CFGR_SW_HSI 0
      else if source pllconfig =? CLOCKSRC_HSE
      then SystemEnableHSE ;;
           SystemConfigMainPLL_program pllconfig RCC_CFGR_SW_HSE 0
      else ret tt))); [| exact (K _ _ _ E)].
  unfold SystemDisableMainPLL, SystemEnableHSI, SystemEnableHSE,
    SystemConfigMainPLL_program, SystemEnableMainPLL.
  cbv zeta. change (0 =? 0) with true. cbv iota.
  step_keeps.
Qed.

(** Both APB routines refuse a divisor that would put the bus above
    54 MHz and leave the state as it is; below that they issue one write to
    RCC_CFGR; a zero divisor is a division by zero. *)
Lemma SystemSetAPB_guard (div : Z) (s : state) :
  (div = 0 ->
   SystemSetAPB1Prescaler div s = None /\ SystemSetAPB2Prescaler div s = None) /\
  (div <> 0 -> 54000000 < SystemCoreClock s / div ->
   SystemSetAPB1Prescaler div s = Some (tt, s) /\
   SystemSetAPB2Prescaler div s = Some (tt, s)) /\
  (div <> 0 -> SystemCoreClock s / div <= 54000000 ->
   exists v1 s1 v2 s2,
     SystemSetAPB1Prescaler div s = Some (tt, s1) /\
     writes s1 = writes s ++ [(RCC_CFGR, v1)] /\
     SystemSetAPB2Prescaler div s = Some (tt, s2) /\
     writes s2 = writes s ++ [(RCC_CFGR, v2)]).
Proof.
  unfold SystemSetAPB1Prescaler, SystemSetAPB2Prescaler, bind,
    get_SystemCoreClock, lift, udiv.
  repeat split.
  - subst. reflexivity.
  - subst. reflexivity.
  - destruct (Z.eqb_spec div 0); [contradiction |].
    rewrite Z.gtb_ltb.
    destruct (Z.ltb_spec 54000000 (SystemCoreClock s / div)); [reflexivity | lia].
  - destruct (Z.eqb_spec div 0); [contradiction |].
    rewrite Z.gtb_ltb.
    destruct (Z.ltb_spec 54000000 (SystemCoreClock s / div)); [reflexivity | lia].
  - intros Hnz Hle. destruct (Z.eqb_spec div 0); [contradiction |].
    rewrite Z.gtb_ltb.
    destruct (Z.ltb_spec 54000000 (SystemCoreClock s / div)); [lia |].
    cbv zeta. unfold load, store. do 4 eexists.
    repeat split; reflexivity.
Qed.

(** The value [SystemSetCoreClockFrequency] returns is the frequency
    clamped to [HCLKMAX]. *)
Lemma SystemSetCoreClockFrequency_returns_clamped
      (freq : Z) (s : state) (r : Z) (s' : state) :
  SystemSetCoreClockFrequency freq s = Some (r, s') ->
  r = Z.min freq HCLKMAX.
Proof.
  unfold SystemSetCoreClockFrequency. cbv zeta. intros E.
  apply bind_Some in E as (x & s1 & _ & E).
  apply bind_Some in E as (y & s2 & _ & E).
  injection E as <- _. rewrite Z.geb_leb.
  destruct (Z.leb_spec HCLKMAX freq); lia.
Qed.

End Frame.

Section LastLatencyWrite.

Context {hdr : DeviceHeader}.

#[local] Hint Resolve appends_store appends_wait_flag
  reads_SystemGetAPB1Prescaler reads_SystemGetAPB2Prescaler
  reads_SystemGetAHBPrescaler reads_SystemGetSYSCLKFrequency
  appends_SetFlashWaitStates appends_SystemSetAPB1Prescaler
  appends_SystemSetAPB2Prescaler appends_write_HPRE appends_write_SW
  appends_SystemEnableHSI appends_SystemEnableHSE
  appends_SystemConfigMainPLL : appends.

Lemma SystemSetAPB_effect (div : Z) (s s' : state) :
  SystemSetAPB1Prescaler div s = Some (tt, s') \/
  SystemSetAPB2Prescaler div s = Some (tt, s') ->
  SystemCoreClock s' = SystemCoreClock s /\
  exists l, writes s' = writes s ++ l /\ Forall (fun e => fst e = RCC_CFGR) l.
Proof.
  unfold SystemSetAPB1Prescaler, SystemSetAPB2Prescaler, bind,
    get_SystemCoreClock, lift, udiv, load, store.
  destruct (div =? 0); [intros [E | E]; discriminate |].
  destruct (SystemCoreClock s / div >? 54000000).
  - intros [[= <-] | [= <-]]; (split; [reflexivity |]);
      exists []; (split; [now rewrite app_nil_r | constructor]).
  - cbv zeta.
    intros [[= <-] | [= <-]]; (split; [reflexivity |]);
      eexists; (split; [reflexivity | repeat constructor]).
Qed.

Lemma SystemCoreClockUpdate_effect (s s' : state) :
  SystemCoreClockUpdate s = Some (tt, s') ->
  writes s' = writes s /\ flash_cr s' = flash_cr s.
Proof.
  unfold SystemCoreClockUpdate, SystemGetCoreClock. intros E.
  apply bind_Some in E as (f & s1 & E1 & E).
  assert (Hr : reads (sysclk_freq <- SystemGetSYSCLKFrequency ;;
                      prescaler <- SystemGetAHBPrescaler ;;
                      lift (udiv sysclk_freq prescaler))) by step_reads.
  apply Hr in E1 as ->. injection E as <-. split; reflexivity.
Qed.

(** In every call of [SystemSetCoreClock] that returns, the last write to
    FLASH_ACR is the one of [ConfigureFlashWaitStates], made from the
    result [ws] of the lookup for the cached core clock in Hz, [-1]
    included; it comes after the writes of the branch taken and only
    writes to RCC_CFGR (the APB restores) follow it. *)
Lemma SystemSetCoreClock_last_latency_write
      (newsrc newdiv : Z) (s : state) (r : Z) (s' : state) :
  SystemSetCoreClock newsrc newdiv s = Some (r, s') ->
  exists ws l1 l2,
    FindFlashWaitStates (SystemCoreClock s') VSUPPLY = Some ws /\
    writes s' =
      writes s ++ l1 ++
      (FLASH_ACR,
       Z.lor (Z.land (flash_cr s') (not32 FLASH_ACR_LATENCY))
             (shl32 (int (u32 ws)) FLASH_ACR_LATENCY_Pos)) :: l2 /\
    Forall (fun e => fst e = RCC_CFGR) l2.
Proof.
  intros E. unfold SystemSetCoreClock in E.
  apply bind_Some in E as (cfgr & s0 & E0 & E).
  unfold load in E0. injection E0 as <- <-. cbv zeta in E.
  apply bind_Some in E as (ppre1 & s1 & E1 & E).
  apply reads_SystemGetAPB1Prescaler in E1 as ->.
  apply bind_Some in E as (ppre2 & s2 & E2 & E).
  apply reads_SystemGetAPB2Prescaler in E2 as ->.
  apply bind_Some in E as (u & s3 & Ebranch & E).
  assert (Hbranch : extends s s3).
  { eapply (fun c (H : @appends unit c) => H s u s3); [| exact Ebranch].
    apply appends_if.
    - apply appends_bind; [apply reads_appends, reads_load | intros ?].
      cbv zeta. step_appends.
    - step_appends. }
  destruct Hbranch as [l1 Hl1].
  unfold SystemSetCoreClock_finish in E.
  apply bind_Some in E as ([] & s4 & Eupd & E).
  apply SystemCoreClockUpdate_effect in Eupd as [Hw4 Hcr4].
  apply bind_Some in E as (clk & s5 & E5 & E).
  injection E5 as <- <-.
  apply bind_Some in E as ([] & s6 & Econf & E).
  destruct (ConfigureFlashWaitStates_always_writes hdr (SystemCoreClock s4)
              VSUPPLY s4) as (ws & s6' & Hws & Econf' & Hw6).
  rewrite Econf in Econf'. injection Econf' as <-.
  assert (Hkeep6 : SystemCoreClock s6 = SystemCoreClock s4 /\
                   flash_cr s6 = flash_cr s4).
  { revert Econf. unfold ConfigureFlashWaitStates, bind, lift. rewrite Hws.
    destruct (u32 ws <? 0); [intros [= <-]; split; reflexivity |].
    unfold SetFlashWaitStates, bind, load, store. intros [= <-].
    split; reflexivity. }
  destruct Hkeep6 as [Hclk6 Hcr6].
  apply bind_Some in E as ([] & s7 & Eapb1 & E).
  apply bind_Some in E as ([] & s8 & Eapb2 & E).
  injection E as _ <-.
  assert (Hcr7 : flash_cr s7 = flash_cr s6).
  { revert Eapb1. unfold SystemSetAPB1Prescaler, bind, get_SystemCoreClock,
      lift, udiv, load, store.
    destruct (ppre1 =? 0); [discriminate |].
    destruct (_ >? _); intros [= <-]; reflexivity. }
  assert (Hcr8 : flash_cr s8 = flash_cr s7).
  { revert Eapb2. unfold SystemSetAPB2Prescaler, bind, get_SystemCoreClock,
      lift, udiv, load, store.
    destruct (ppre2 =? 0); [discriminate |].
    destruct (_ >? _); intros [= <-]; reflexivity. }
  destruct (SystemSetAPB_effect ppre1 s6 s7 (or_introl Eapb1))
    as (Hclk7 & la & Hla & Fa).
  destruct (SystemSetAPB_effect ppre2 s7 s8 (or_intror Eapb2))
    as (Hclk8 & lb & Hlb & Fb).
  exists ws, l1, (la ++ lb).
  split; [now rewrite Hclk8, Hclk7, Hclk6 |].
  split; [| now apply Forall_app].
  rewrite Hlb, Hla, Hw6, Hw4, Hl1, Hcr8, Hcr7, Hcr6.
  now rewrite <- !app_assoc.
Qed.

End LastLatencyWrite.

(** * Further properties of the module *)

(** ** The power-of-two search *)

Lemma int_small (x : Z) : - 2 ^ 31 <= x < 2 ^ 31 -> int x = x.
Proof.
  intros H. unfold int, u32.
  destruct (Z.le_gt_cases 0 x) as [Hnn | Hneg].
  - rewrite Z.mod_small by lia.
    destruct (Z.ltb_spec x (2 ^ 31)); lia.
  - replace (x mod 2 ^ 32) with (x + 2 ^ 32).
    + destruct (Z.ltb_spec (x + 2 ^ 32) (2 ^ 31)); lia.
    + apply (Z.mod_unique_pos x (2 ^ 32) (-1)); lia.
Qed.

Lemma iabs_small (x : Z) : - 2 ^ 31 < x < 2 ^ 31 -> iabs x = Z.abs x.
Proof.
  intros H. unfold iabs. destruct (Z.ltb_spec x 0).
  - rewrite int_small by lia. lia.
  - lia.
Qed.

Lemma pow2_bounds (i : Z) : 0 <= i <= 20 -> 1 <= 2 ^ i <= 2 ^ 20.
Proof.
  intros H. split.
  - apply (Z.pow_le_mono_r 2 0 i); lia.
  - apply Z.pow_le_mono_r; lia.
Qed.

(** One turn of the loop, with the C arithmetic resolved. *)
Lemma power2_loop_turn (dec : bool) (fuel : nat) (d i n err : Z) :
  0 <= d < 2 ^ 31 -> 0 <= i <= 20 ->
  power2_loop dec (S fuel) d i n err =
  if Z.abs (d - 2 ^ i) >=? err
  then ((if dec then i - 1 else i), n)
  else power2_loop dec fuel d (i + 1) (2 ^ i) (Z.abs (d - 2 ^ i)).
Proof.
  intros Hd Hi. cbn [power2_loop]. cbv zeta.
  pose proof (pow2_bounds i Hi) as Hp.
  assert (H20 : 2 ^ 20 = 1048576) by reflexivity.
  assert (H31 : 2 ^ 31 = 2147483648) by reflexivity.
  rewrite Z.shiftl_1_l.
  rewrite (int_small (2 ^ i)) by lia.
  rewrite (int_small d) by lia.
  rewrite (int_small (d - 2 ^ i)) by lia.
  rewrite iabs_small by lia.
  reflexivity.
Qed.

Lemma pow2_double (i : Z) : 1 <= i -> 2 ^ i = 2 * 2 ^ (i - 1).
Proof.
  intros H. replace i with (Z.succ (i - 1)) at 1 by lia.
  apply Z.pow_succ_r. lia.
Qed.

(** The loop from turn [i] on, while the powers tried so far were below
    [d]: it stops at the power of two nearest to [d], the smaller one on a
    tie. *)
Lemma power2_loop_ascending (dec : bool) (d : Z) (fuel : nat) (i : Z) :
  2 <= d <= 393216 -> 1 <= i -> Z.of_nat fuel = 20 - i -> 2 ^ (i - 1) < d ->
  power2_loop dec fuel d i (2 ^ (i - 1)) (d - 2 ^ (i - 1)) =
  if 2 ^ Z.log2_up d - d <? d - 2 ^ (Z.log2_up d - 1)
  then ((if dec then Z.log2_up d else Z.log2_up d + 1), 2 ^ Z.log2_up d)
  else ((if dec then Z.log2_up d - 1 else Z.log2_up d), 2 ^ (Z.log2_up d - 1)).
Proof.
  intros Hd. revert i.
  assert (H19 : 2 ^ 19 = 524288) by reflexivity.
  assert (H18 : 2 ^ 18 = 262144) by reflexivity.
  induction fuel as [| f IH]; intros i Hi Hfuel Hlow.
  - replace i with 20 in Hlow by lia. change (20 - 1) with 19 in Hlow. lia.
  - rewrite power2_loop_turn by (change (2 ^ 31) with 2147483648; lia).
    pose proof (pow2_double i Hi) as Hdbl.
    destruct (Z.lt_ge_cases (2 ^ i) d) as [Hbelow | Habove].
    + rewrite Z.abs_eq by lia. rewrite Z.geb_leb.
      destruct (Z.leb_spec (d - 2 ^ (i - 1)) (d - 2 ^ i)); [lia |].
      specialize (IH (i + 1)). replace (i + 1 - 1) with i in IH by lia.
      apply IH; lia.
    + assert (Hk : Z.log2_up d = i).
      { apply Z.log2_up_unique; [lia |]. replace (Z.pred i) with (i - 1) by lia. lia. }
      rewrite Hk. rewrite Z.abs_neq by lia.
      replace (- (d - 2 ^ i)) with (2 ^ i - d) by lia.
      rewrite Z.geb_leb.
      destruct (Z.leb_spec (d - 2 ^ (i - 1)) (2 ^ i - d)) as [Hstop | Hgo];
        destruct (Z.ltb_spec (2 ^ i - d) (d - 2 ^ (i - 1))); try lia.
      * reflexivity.
      * destruct f as [| f'].
        -- replace i with 19 in * by lia. change (19 - 1) with 18 in *. lia.
        -- rewrite power2_loop_turn by (change (2 ^ 31) with 2147483648; lia).
           assert (Hnext : 2 ^ (i + 1) = 2 * 2 ^ i).
           { replace (i + 1) with (Z.succ i) by lia. apply Z.pow_succ_r. lia. }
           rewrite Z.abs_neq by lia. rewrite Z.geb_leb.
           destruct (Z.leb_spec (2 ^ i - d) (- (d - 2 ^ (i + 1)))); [| lia].
           replace (i + 1 - 1) with i by lia. reflexivity.
Qed.

(** The whole search for a divisor up to 393216, the last value whose
    nearest power of two is found within the 20 turns. *)
Lemma power2_loop_result (dec : bool) (d : Z) :
  2 <= d <= 393216 ->
  power2_loop dec 20 d 0 1 10000000 =
  if 2 ^ Z.log2_up d - d <? d - 2 ^ (Z.log2_up d - 1)
  then ((if dec then Z.log2_up d else Z.log2_up d + 1), 2 ^ Z.log2_up d)
  else ((if dec then Z.log2_up d - 1 else Z.log2_up d), 2 ^ (Z.log2_up d - 1)).
Proof.
  intros Hd.
  rewrite power2_loop_turn by (change (2 ^ 31) with 2147483648; lia).
  change (2 ^ 0) with 1. rewrite Z.abs_eq by lia. rewrite Z.geb_leb.
  destruct (Z.leb_spec 10000000 (d - 1)); [lia |].
  change (0 + 1) with 1.
  exact (power2_loop_ascending dec d 19 1 Hd ltac:(lia) ltac:(reflexivity) ltac:(cbn; lia)).
Qed.

Lemma log2_up_range (d : Z) :
  2 <= d <= 393216 ->
  1 <= Z.log2_up d <= 19 /\
  2 ^ (Z.log2_up d - 1) < d <= 2 ^ Z.log2_up d.
Proof.
  intros Hd.
  pose proof (Z.log2_up_spec d ltac:(lia)) as Hs.
  replace (Z.pred (Z.log2_up d)) with (Z.log2_up d - 1) in Hs by lia.
  pose proof (Z.log2_up_nonneg d) as Hnn.
  split; [| exact Hs]. split.
  - destruct (Z.eq_dec (Z.log2_up d) 0) as [E | E]; [| lia].
    rewrite E in Hs. cbn in Hs. lia.
  - destruct (Z.le_gt_cases (Z.log2_up d) 19) as [| Hbig]; [assumption |].
    assert (2 ^ 19 <= 2 ^ (Z.log2_up d - 1)) by (apply Z.pow_le_mono_r; lia).
    change (2 ^ 19) with 524288 in *. lia.
Qed.

Lemma u32_pow2 (k : Z) : 0 <= k <= 20 -> u32 (2 ^ k) = 2 ^ k.
Proof.
  intros H. pose proof (pow2_bounds k H).
  unfold u32. apply Z.mod_small.
  change (2 ^ 20) with 1048576 in *. change (2 ^ 32) with 4294967296. lia.
Qed.

(** From 2 to 393216 the two largest-power routines return the power
    of two of the rounded-up binary logarithm and that logarithm. *)
Lemma SystemFindLargestPower2_log2_up (d : Z) :
  2 <= d <= 393216 ->
  SystemFindLargestPower2 d = 2 ^ Z.log2_up d /\
  SystemFindLargestPower2Exp d = Z.log2_up d.
Proof.
  intros Hd2.
  destruct (log2_up_range d Hd2) as [Hk Hs].
  pose proof (pow2_double _ (proj1 Hk)) as Hdbl.
  unfold SystemFindLargestPower2, SystemFindLargestPower2Exp.
  rewrite (power2_loop_result true d Hd2).
  destruct (2 ^ Z.log2_up d - d <? d - 2 ^ (Z.log2_up d - 1)).
  - rewrite u32_pow2 by lia.
    destruct (Z.ltb_spec (2 ^ Z.log2_up d) d); [lia |].
    rewrite u32_pow2 by lia. split; [reflexivity |].
    unfold u32. apply Z.mod_small. change (2 ^ 32) with 4294967296. lia.
  - rewrite u32_pow2 by lia.
    destruct (Z.ltb_spec (2 ^ (Z.log2_up d - 1)) d); [| lia].
    rewrite Z.shiftl_mul_pow2 by lia. change (2 ^ 1) with 2.
    rewrite Z.mul_comm, <- Hdbl.
    pose proof (pow2_bounds (Z.log2_up d) ltac:(lia)).
    rewrite int_small
      by (change (2 ^ 20) with 1048576 in *; change (2 ^ 31) with 2147483648; lia).
    rewrite u32_pow2 by lia. split; [reflexivity |].
    replace (Z.log2_up d - 1 + 1) with (Z.log2_up d) by lia.
    unfold u32. apply Z.mod_small. change (2 ^ 32) with 4294967296. lia.
Qed.

(** X1.  For a divisor from 1 to 393216, [SystemFindLargestPower2] returns
    the smallest power of two that is not below the divisor, and
    [SystemFindLargestPower2Exp] returns its exponent. *)
Theorem SystemFindLargestPower2_smallest (d : Z) :
  1 <= d <= 393216 ->
  smallest_pow2_geq d (SystemFindLargestPower2 d) /\
  SystemFindLargestPower2 d = 2 ^ SystemFindLargestPower2Exp d /\
  SystemFindLargestPower2Exp d = Z.log2_up d.
Proof.
  intros Hd.
  destruct (Z.eq_dec d 1) as [-> | Hne].
  { split; [| split; reflexivity].
    change (SystemFindLargestPower2 1) with (2 ^ 0).
    apply smallest_pow2_geq_intro; cbn; lia. }
  assert (Hd2 : 2 <= d <= 393216) by lia.
  destruct (log2_up_range d Hd2) as [Hk Hs].
  destruct (SystemFindLargestPower2_log2_up d Hd2) as [Hv He].
  rewrite Hv, He.
  split; [| split; reflexivity].
  apply smallest_pow2_geq_intro; lia.
Qed.

Lemma SystemFindLargestPower2_smallest_witness :
  smallest_pow2_geq 100 (SystemFindLargestPower2 100) /\
  SystemFindLargestPower2 100 = 2 ^ SystemFindLargestPower2Exp 100 /\
  SystemFindLargestPower2Exp 100 = Z.log2_up 100.
Proof. apply SystemFindLargestPower2_smallest. lia. Defined.

(** X2.  For a divisor from 1 to 393216, [SystemFindNearestPower2] returns
    the power of two nearest to the divisor, the smaller one when two are
    equally near, and [SystemFindNearestPower2Exp] returns its exponent. *)
Theorem SystemFindNearestPower2_nearest (d : Z) :
  1 <= d <= 393216 ->
  SystemFindNearestPower2 d = 2 ^ SystemFindNearestPower2Exp d /\
  0 <= SystemFindNearestPower2Exp d /\
  forall j, 0 <= j ->
    Z.abs (d - SystemFindNearestPower2 d) <= Z.abs (d - 2 ^ j) /\
    (Z.abs (d - 2 ^ j) = Z.abs (d - SystemFindNearestPower2 d) ->
     SystemFindNearestPower2 d <= 2 ^ j).
Proof.
  intros Hd.
  destruct (Z.eq_dec d 1) as [-> | Hne].
  { change (SystemFindNearestPower2 1) with 1.
    change (SystemFindNearestPower2Exp 1) with 0.
    split; [reflexivity |]. split; [lia |]. intros j Hj.
    assert (1 <= 2 ^ j) by (apply (Z.pow_le_mono_r 2 0 j); lia). lia. }
  assert (Hd2 : 2 <= d <= 393216) by lia.
  destruct (log2_up_range d Hd2) as [Hk Hs].
  pose proof (pow2_double _ (proj1 Hk)) as Hdbl.
  assert (Hother : forall j, 0 <= j ->
            2 ^ j <= 2 ^ (Z.log2_up d - 1) \/ 2 ^ Z.log2_up d <= 2 ^ j).
  { intros j Hj. destruct (Z.le_gt_cases (Z.log2_up d) j).
    - right. apply Z.pow_le_mono_r; lia.
    - left. apply Z.pow_le_mono_r; lia. }
  unfold SystemFindNearestPower2, SystemFindNearestPower2Exp.
  rewrite (power2_loop_result false d Hd2), (power2_loop_result true d Hd2).
  destruct (Z.ltb_spec (2 ^ Z.log2_up d - d) (d - 2 ^ (Z.log2_up d - 1))).
  - rewrite u32_pow2 by lia.
    assert (Hu : u32 (Z.log2_up d) = Z.log2_up d)
      by (unfold u32; apply Z.mod_small; change (2 ^ 32) with 4294967296; lia).
    rewrite Hu. split; [reflexivity |]. split; [lia |].
    intros j Hj. destruct (Hother j Hj); lia.
  - rewrite u32_pow2 by lia.
    assert (Hu : u32 (Z.log2_up d - 1) = Z.log2_up d - 1)
      by (unfold u32; apply Z.mod_small; change (2 ^ 32) with 4294967296; lia).
    rewrite Hu. split; [reflexivity |]. split; [lia |].
    intros j Hj. destruct (Hother j Hj); lia.
Qed.

Lemma SystemFindNearestPower2_nearest_witness :
  SystemFindNearestPower2 5 = 2 ^ SystemFindNearestPower2Exp 5 /\
  0 <= SystemFindNearestPower2Exp 5 /\
  forall j, 0 <= j ->
    Z.abs (5 - SystemFindNearestPower2 5) <= Z.abs (5 - 2 ^ j) /\
    (Z.abs (5 - 2 ^ j) = Z.abs (5 - SystemFindNearestPower2 5) ->
     SystemFindNearestPower2 5 <= 2 ^ j).
Proof. apply SystemFindNearestPower2_nearest. lia. Defined.

(** Above 393216 no turn stops the loop: it runs through its 20 turns. *)
Lemma power2_loop_runs_out (dec : bool) (d : Z) (fuel : nat) (i : Z) :
  393216 < d <= 10000000 -> 1 <= i -> Z.of_nat fuel = 20 - i ->
  power2_loop dec fuel d i (2 ^ (i - 1)) (d - 2 ^ (i - 1)) = (20, 524288).
Proof.
  intros Hd. revert i.
  assert (H19 : 2 ^ 19 = 524288) by reflexivity.
  assert (H18 : 2 ^ 18 = 262144) by reflexivity.
  induction fuel as [| f IH]; intros i Hi Hfuel.
  - replace i with 20 by lia. reflexivity.
  - rewrite power2_loop_turn by (change (2 ^ 31) with 2147483648; lia).
    pose proof (pow2_double i Hi) as Hdbl.
    assert (Hprev : 2 ^ (i - 1) <= 2 ^ 18) by (apply Z.pow_le_mono_r; lia).
    assert (Hcur : 2 ^ i <= 2 ^ 19) by (apply Z.pow_le_mono_r; lia).
    rewrite Z.geb_leb.
    destruct (Z.leb_spec (d - 2 ^ (i - 1)) (Z.abs (d - 2 ^ i))) as [Hstop | Hgo].
    + lia.
    + destruct (Z.le_gt_cases (2 ^ i) d).
      * rewrite Z.abs_eq by lia.
        specialize (IH (i + 1)). replace (i + 1 - 1) with i in IH by lia.
        apply IH; lia.
      * assert (Hi19 : i = 19).
        { destruct (Z.eq_dec i 19); [assumption |].
          assert (2 ^ i <= 2 ^ 18) by (apply Z.pow_le_mono_r; lia). lia. }
        subst i. assert (Hf : f = 0%nat) by lia. subst f.
        reflexivity.
Qed.

(** X3.  From 393217 to 10000000 the search runs out of turns: the value
    routines stay at 2^19 (2^20 for the largest power once the divisor
    exceeds 2^19), and the exponent routines return 20 or 21, one more
    than the exponent of the value returned. *)
Theorem power2_search_runs_out (d : Z) :
  393216 < d <= 10000000 ->
  SystemFindNearestPower2 d = 524288 /\
  SystemFindNearestPower2Exp d = 20 /\
  SystemFindLargestPower2 d = (if d <=? 524288 then 524288 else 1048576) /\
  SystemFindLargestPower2Exp d = (if d <=? 524288 then 20 else 21).
Proof.
  intros Hd.
  assert (Hrun : forall dec, power2_loop dec 20 d 0 1 10000000 = (20, 524288)).
  { intros dec.
    rewrite power2_loop_turn by (change (2 ^ 31) with 2147483648; lia).
    change (2 ^ 0) with 1. rewrite Z.abs_eq by lia. rewrite Z.geb_leb.
    destruct (Z.leb_spec 10000000 (d - 1)); [lia |].
    exact (power2_loop_runs_out dec d 19 1 Hd ltac:(lia) ltac:(reflexivity)). }
  unfold SystemFindNearestPower2, SystemFindNearestPower2Exp,
    SystemFindLargestPower2, SystemFindLargestPower2Exp.
  rewrite !Hrun. change (u32 524288) with 524288.
  repeat split; try reflexivity;
    destruct (Z.ltb_spec 524288 d), (Z.leb_spec d 524288); try lia; reflexivity.
Qed.

Lemma power2_search_runs_out_witness :
  SystemFindNearestPower2 500000 = 524288 /\
  SystemFindNearestPower2Exp 500000 = 20 /\
  SystemFindLargestPower2 500000 = (if 500000 <=? 524288 then 524288 else 1048576) /\
  SystemFindLargestPower2Exp 500000 = (if 500000 <=? 524288 then 20 else 21).
Proof. apply power2_search_runs_out. lia. Defined.

(** X4.  Above 10000000 (the initial error bound) the search stops in its
    first turn: the nearest power is reported as 1 with exponent -1, that
    is 4294967295 as [uint32_t], and the largest power as 2 with exponent
    0, far below the divisor. *)
Theorem power2_search_above_bound (d : Z) :
  10000000 < d < 2 ^ 31 ->
  SystemFindNearestPower2 d = 1 /\
  SystemFindNearestPower2Exp d = 4294967295 /\
  SystemFindLargestPower2 d = 2 /\
  SystemFindLargestPower2Exp d = 0.
Proof.
  intros Hd.
  assert (Hstop : forall dec,
             power2_loop dec 20 d 0 1 10000000 = ((if dec then -1 else 0), 1)).
  { intros dec. rewrite power2_loop_turn by lia.
    change (2 ^ 0) with 1. rewrite Z.abs_eq by lia. rewrite Z.geb_leb.
    destruct (Z.leb_spec 10000000 (d - 1)); [| lia].
    destruct dec; reflexivity. }
  unfold SystemFindNearestPower2, SystemFindNearestPower2Exp,
    SystemFindLargestPower2, SystemFindLargestPower2Exp.
  rewrite !Hstop. change (u32 1) with 1.
  destruct (Z.ltb_spec 1 d); [| lia].
  repeat split; reflexivity.
Qed.

Lemma power2_search_above_bound_witness :
  SystemFindNearestPower2 20000000 = 1 /\
  SystemFindNearestPower2Exp 20000000 = 4294967295 /\
  SystemFindLargestPower2 20000000 = 2 /\
  SystemFindLargestPower2Exp 20000000 = 0.
Proof.
  apply power2_search_above_bound. split; [lia | reflexivity].
Defined.

(** ** The flash wait-state table, continued *)

(** Settle one comparison of a walk; the branch that leaves the walk is
    closed at once. *)
Ltac walk_leaf :=
  split; intros ?; solve [discriminate | reflexivity | lia | exfalso; lia].

Ltac walk_freq f c :=
  rewrite ?(Z.gtb_ltb f c);
  destruct (Z.ltb_spec c f); cbn -[Z.ltb Z.gtb]; try walk_leaf.

(** X5.  The lookup fails, with -1, exactly when the voltage is below
    1800 mV, or the frequency is above 216 MHz, or above 180 MHz with a
    voltage below 2100 mV. *)
Theorem FindFlashWaitStates_fails_iff (freq voltage : Z) :
  FindFlashWaitStates freq voltage = Some (-1) <->
  voltage < 1800 \/ 216 < freq \/ (voltage < 2100 /\ 180 < freq).
Proof.
  unfold FindFlashWaitStates, flashwaitstates_tab.
  cbn -[Z.gtb Z.ltb]. rewrite ?Z.gtb_ltb.
  destruct (Z.ltb_spec voltage 2700); cbn -[Z.ltb Z.gtb];
    [destruct (Z.ltb_spec voltage 2400); cbn -[Z.ltb Z.gtb];
      [destruct (Z.ltb_spec voltage 2100); cbn -[Z.ltb Z.gtb];
        [destruct (Z.ltb_spec voltage 1800); cbn -[Z.ltb Z.gtb] | ] | ] | ].
  - walk_leaf.
  - walk_freq freq 20. walk_freq freq 40. walk_freq freq 60. walk_freq freq 80.
    walk_freq freq 100. walk_freq freq 120. walk_freq freq 140.
    walk_freq freq 160. walk_freq freq 180.
  - walk_freq freq 22. walk_freq freq 44. walk_freq freq 66. walk_freq freq 88.
    walk_freq freq 110. walk_freq freq 132. walk_freq freq 154.
    walk_freq freq 176. walk_freq freq 198. walk_freq freq 216.
  - walk_freq freq 24. walk_freq freq 48. walk_freq freq 72. walk_freq freq 96.
    walk_freq freq 120. walk_freq freq 144. walk_freq freq 168.
    walk_freq freq 192. walk_freq freq 216.
  - walk_freq freq 30. walk_freq freq 60. walk_freq freq 90. walk_freq freq 120.
    walk_freq freq 150. walk_freq freq 180. walk_freq freq 210.
    walk_freq freq 216.
Qed.

(** Where the walk of a row stops: on the entry at the index returned,
    which is zero or admits [freq], after entries that are all nonzero and
    below [freq]. *)
Lemma scan_freqmax_stop (row : list Z) (freq j0 j e : Z) :
  scan_freqmax row freq j0 = Some (j, e) ->
  j0 <= j /\
  nth_error row (Z.to_nat (j - j0)) = Some e /\
  (e = 0 \/ freq <= e) /\
  forall i c, (i < Z.to_nat (j - j0))%nat -> nth_error row i = Some c ->
              c <> 0 /\ c < freq.
Proof.
  revert j0. induction row as [| f rest IH]; intros j0 H; cbn in H.
  - discriminate.
  - rewrite Z.gtb_ltb in H.
    destruct (Z.eqb_spec f 0) as [Hz | Hnz]; cbn [negb andb] in H.
    + injection H as <- <-. replace (j0 - j0) with 0 by lia.
      split; [lia |]. split; [reflexivity |]. split; [now left |].
      intros i c Hi. cbn in Hi. lia.
    + destruct (Z.ltb_spec f freq) as [Hlt | Hge].
      * apply IH in H as (Hle & Hnth & Hstop & Hbefore).
        assert (Hs : Z.to_nat (j - j0) = S (Z.to_nat (j - (j0 + 1)))) by lia.
        rewrite Hs. split; [lia |]. split; [exact Hnth |].
        split; [exact Hstop |].
        intros i c Hi Hc. destruct i as [| i'].
        -- injection Hc as <-. split; assumption.
        -- apply (Hbefore i' c); [lia | exact Hc].
      * injection H as <- <-. replace (j0 - j0) with 0 by lia.
        split; [lia |]. split; [reflexivity |]. split; [now right |].
        intros i c Hi. cbn in Hi. lia.
Qed.

(** The row the first walk selects has the highest threshold that the
    voltage meets. *)
Lemma scan_vmin_best (voltage : Z) (r : FlashWaitStates_Type) :
  scan_vmin flashwaitstates_tab voltage = Some r -> vmin r <> 0 ->
  In r flashwaitstates_tab /\ vmin r <= voltage /\
  forall r', In r' flashwaitstates_tab -> vmin r' <= voltage ->
             vmin r' <= vmin r.
Proof.
  intros H Hnz. split; [exact (scan_vmin_In _ _ _ H) |].
  revert H Hnz. unfold flashwaitstates_tab. cbn -[Z.ltb].
  repeat match goal with
         | |- context [voltage <? ?c] => destruct (Z.ltb_spec voltage c)
         end;
    intros [= <-] Hnz; cbn [vmin] in *; try lia;
    (split; [lia |]);
    intros r' Hin Hv; cbn [In] in Hin;
    repeat (destruct Hin as [<- | Hin]; [cbn [vmin] in *; lia |]);
    contradiction.
Qed.

(** X6.  A successful lookup returns the least wait-state count that
    admits the frequency in the row with the highest voltage threshold the
    supply meets: the entry at the returned index is at least the
    frequency, and every entry before it is below the frequency. *)
Theorem FindFlashWaitStates_least (freq voltage ws : Z) :
  FindFlashWaitStates freq voltage = Some ws -> 0 <= ws ->
  exists r c,
    In r flashwaitstates_tab /\ vmin r <= voltage /\
    (forall r', In r' flashwaitstates_tab -> vmin r' <= voltage ->
                vmin r' <= vmin r) /\
    nth_error (freqmax r) (Z.to_nat ws) = Some c /\ freq <= c /\
    forall j c', (j < Z.to_nat ws)%nat -> nth_error (freqmax r) j = Some c' ->
                 c' < freq.
Proof.
  unfold FindFlashWaitStates. intros H Hws.
  destruct (scan_vmin flashwaitstates_tab voltage) as [r |] eqn:Hr;
    [| discriminate].
  destruct (Z.eqb_spec (vmin r) 0) as [| Hnz]; [injection H as <-; lia |].
  destruct (scan_freqmax (freqmax r) freq 0) as [[j e] |] eqn:Hscan;
    [| discriminate].
  destruct (Z.eqb_spec e 0) as [| He]; [injection H as <-; lia |].
  injection H as <-.
  destruct (scan_vmin_best voltage r Hr Hnz) as (Hin & Hv & Hbest).
  destruct (scan_freqmax_stop _ _ _ _ _ Hscan) as (_ & Hnth & Hstop & Hbefore).
  replace (j - 0) with j in * by lia.
  exists r, e. repeat split; try assumption.
  - destruct Hstop; [contradiction | assumption].
  - intros i c' Hi Hc. apply (Hbefore i c' Hi Hc).
Qed.

Lemma FindFlashWaitStates_least_witness :
  exists r c,
    In r flashwaitstates_tab /\ vmin r <= 3300 /\
    (forall r', In r' flashwaitstates_tab -> vmin r' <= 3300 ->
                vmin r' <= vmin r) /\
    nth_error (freqmax r) (Z.to_nat 6) = Some c /\ 200 <= c /\
    forall j c', (j < Z.to_nat 6)%nat -> nth_error (freqmax r) j = Some c' ->
                 c' < 200.
Proof.
  apply (FindFlashWaitStates_least 200 3300 6); [reflexivity | lia].
Defined.

(** ** The PLL frequency model *)

(** X7.  For a configuration with M in 2..63, N up to 432 and P from 2 on,
    on HSI or HSE, [CalculateMainPLLOutFrequency] neither divides by zero
    nor wraps around in 64 or 32 bits: it returns the exact quotient of
    the input frequency times N by M times P. *)
Theorem CalculateMainPLLOutFrequency_exact
        (hdr : DeviceHeader) (c : PLLConfiguration_t) :
  2 <= M c <= 63 -> 0 <= N c <= 432 -> 2 <= P c ->
  source c = CLOCKSRC_HSI \/ source c = CLOCKSRC_HSE ->
  CalculateMainPLLOutFrequency c =
  Some ((if source c =? CLOCKSRC_HSI then HSI_FREQ else HSE_FREQ) * N c
        / (M c * P c)).
Proof.
  intros HM HN HP Hsrc.
  assert (Hcalc : forall f, 0 <= f <= 25000000 ->
            match udiv (u64 (f * N c)) (M c) with
            | Some vco =>
                match udiv vco (P c) with
                | Some outfreq => Some (u32 outfreq)
                | None => None
                end
            | None => None
            end = Some (f * N c / (M c * P c))).
  { intros f Hf. unfold udiv.
    destruct (Z.eqb_spec (M c) 0); [lia |].
    destruct (Z.eqb_spec (P c) 0); [lia |].
    assert (Hprod : 0 <= f * N c <= 25000000 * 432) by nia.
    unfold u64. rewrite (Z.mod_small (f * N c))
      by (change (2 ^ 64) with 18446744073709551616; lia).
    rewrite Z.div_div by lia.
    assert (Hq : 0 <= f * N c / (M c * P c) <= 2700000000).
    { assert (Hmp : 4 <= M c * P c) by nia.
      split; [apply Z.div_pos; lia |].
      apply Z.div_le_upper_bound; [lia |].
      apply Z.le_trans with (4 * 2700000000); [lia |].
      apply Z.mul_le_mono_nonneg_r; lia. }
    unfold u32. rewrite Z.mod_small
      by (change (2 ^ 32) with 4294967296; lia).
    reflexivity. }
  unfold CalculateMainPLLOutFrequency. cbv zeta.
  destruct (Z.eqb_spec (source c) CLOCKSRC_HSI).
  - apply Hcalc. unfold HSI_FREQ. lia.
  - destruct (Z.eqb_spec (source c) CLOCKSRC_HSE).
    + apply Hcalc. unfold HSE_FREQ, HSE_OSCILLATOR_FREQ. lia.
    + destruct Hsrc; contradiction.
Qed.

Lemma CalculateMainPLLOutFrequency_exact_witness :
  @CalculateMainPLLOutFrequency stm32f746xx
     {| source := 4; M := 25; N := 432; P := 2; Q := 2; R := 2 |} =
  Some ((if 4 =? @CLOCKSRC_HSI stm32f746xx then HSI_FREQ else HSE_FREQ) * 432
        / (25 * 2)).
Proof.
  apply (CalculateMainPLLOutFrequency_exact stm32f746xx
           {| source := 4; M := 25; N := 432; P := 2; Q := 2; R := 2 |});
    cbn; lia.
Defined.

(** X8.  [SystemCalcPLLFrequencies] faults only on M = 0.  With M nonzero,
    on HSI or HSE, a zero P, Q or R gives a zero output for that tap; a
    nonzero P gives the frequency of [CalculateMainPLLOutFrequency], which
    is also the value returned. *)
Theorem SystemCalcPLLFrequencies_taps
        (hdr : DeviceHeader) (c : PLLConfiguration_t)
        (old : PLLOutputFrequencies_t) :
  source c = CLOCKSRC_HSI \/ source c = CLOCKSRC_HSE ->
  (M c = 0 -> SystemCalcPLLFrequencies c old = None) /\
  (M c <> 0 ->
   exists fr,
     SystemCalcPLLFrequencies c old = Some (int (poutfreq fr), fr) /\
     (P c = 0 -> poutfreq fr = 0) /\
     (Q c = 0 -> qoutfreq fr = 0) /\
     (R c = 0 -> routfreq fr = 0) /\
     (P c <> 0 -> CalculateMainPLLOutFrequency c = Some (poutfreq fr))).
Proof.
  intros Hsrc.
  unfold SystemCalcPLLFrequencies, CalculateMainPLLOutFrequency, udiv.
  cbv zeta.
  split.
  - intros ->. change (0 =? 0) with true. cbv iota.
    destruct (Z.eqb_spec (source c) CLOCKSRC_HSI); [reflexivity |].
    destruct (Z.eqb_spec (source c) CLOCKSRC_HSE); [reflexivity |].
    destruct Hsrc; contradiction.
  - intros HM. destruct (Z.eqb_spec (M c) 0); [contradiction |].
    assert (Hcase : (source c =? CLOCKSRC_HSI) = true \/
                    ((source c =? CLOCKSRC_HSI) = false /\
                     (source c =? CLOCKSRC_HSE) = true)).
    { destruct (Z.eqb_spec (source c) CLOCKSRC_HSI); [now left | right].
      split; [reflexivity |]. apply Z.eqb_eq. destruct Hsrc; [contradiction | assumption]. }
    destruct Hcase as [-> | [-> ->]];
      (match goal with
       | |- exists fr, Some (_, ?r) = _ /\ _ => exists r
       end;
       split; [reflexivity |]; cbn [poutfreq qoutfreq routfreq];
       repeat split;
       [ intros ->; reflexivity | intros ->; reflexivity | intros ->; reflexivity
       | intros HP; destruct (Z.eqb_spec (P c) 0); [contradiction | reflexivity] ]).
Qed.

Lemma SystemCalcPLLFrequencies_taps_witness :
  let c := {| source := 4; M := 25; N := 400; P := 2; Q := 0; R := 0 |} in
  let old := {| infreq := 0; pllinfreq := 0; vcofreq := 0;
                poutfreq := 0; qoutfreq := 0; routfreq := 0 |} in
  (M c = 0 -> @SystemCalcPLLFrequencies stm32f746xx c old = None) /\
  (M c <> 0 ->
   exists fr,
     @SystemCalcPLLFrequencies stm32f746xx c old = Some (int (poutfreq fr), fr) /\
     (P c = 0 -> poutfreq fr = 0) /\
     (Q c = 0 -> qoutfreq fr = 0) /\
     (R c = 0 -> routfreq fr = 0) /\
     (P c <> 0 ->
      @CalculateMainPLLOutFrequency stm32f746xx c = Some (poutfreq fr))).
Proof.
  cbv zeta. apply (SystemCalcPLLFrequencies_taps stm32f746xx).
  right. reflexivity.
Defined.

(** ** Reading the prescalers *)

(** A field read by [(reg & msk) >> pos] is below [2^w]. *)
Lemma field_get_range (msk pos w x : Z) :
  FieldLayout msk pos w -> 0 <= Z.shiftr (Z.land x msk) pos < 2 ^ w.
Proof.
  intros L. pose proof (field_pos _ _ _ L) as Hpos.
  pose proof (field_width _ _ _ L) as Hw.
  assert (E : Z.shiftr (Z.land x msk) pos = Z.land (Z.shiftr x pos) (Z.ones w)).
  { apply Z.bits_inj'. intros n Hn.
    rewrite Z.shiftr_spec, !Z.land_spec, Z.shiftr_spec by assumption.
    rewrite (field_mask_testbit msk pos w) by (assumption || lia).
    rewrite ones_testbit by assumption.
    destruct (Z.leb_spec pos (n + pos)); [| lia]. cbn [andb].
    destruct (Z.ltb_spec (n + pos) (pos + w)), (Z.ltb_spec n w);
      lia || reflexivity. }
  rewrite E, Z.land_ones by assumption.
  apply Z.mod_pos_bound. apply Z.pow_pos_nonneg; lia.
Qed.

Lemma hpre_table_entries (i : Z) :
  0 <= i < 2 ^ 4 ->
  exists d, index hpre_table i = Some d /\
            In d [1; 2; 4; 8; 16; 64; 128; 256; 512].
Proof.
  intros Hi. change (2 ^ 4) with 16 in Hi.
  assert (Hc : In i [0; 1; 2; 3; 4; 5; 6; 7; 8; 9; 10; 11; 12; 13; 14; 15])
    by (cbn [In]; lia).
  cbn [In] in Hc.
  repeat (destruct Hc as [<- | Hc]; [eexists; split; [reflexivity | cbn; tauto] |]).
  contradiction.
Qed.

Lemma ppre_table_entries (i : Z) :
  0 <= i < 2 ^ 3 ->
  exists d, index ppre_table i = Some d /\ In d [1; 2; 4; 8; 16].
Proof.
  intros Hi. change (2 ^ 3) with 8 in Hi.
  assert (Hc : In i [0; 1; 2; 3; 4; 5; 6; 7]) by (cbn [In]; lia).
  cbn [In] in Hc.
  repeat (destruct Hc as [<- | Hc]; [eexists; split; [reflexivity | cbn; tauto] |]).
  contradiction.
Qed.

(** X9.  Whatever RCC_CFGR holds, the three prescaler reads stay inside
    their tables: [SystemGetAHBPrescaler] returns 1, 2, 4, 8, 16, 64, 128,
    256 or 512, never 0 and never 32, and the two APB reads return 1, 2, 4,
    8 or 16; none changes the state. *)
Theorem prescaler_reads_in_table (hdr : DeviceHeader) (s : state) :
  FieldLayout RCC_CFGR_HPRE_Msk RCC_CFGR_HPRE_Pos 4 ->
  CFGR_layout hdr ->
  exists h a b,
    SystemGetAHBPrescaler s = Some (h, s) /\
    SystemGetAPB1Prescaler s = Some (a, s) /\
    SystemGetAPB2Prescaler s = Some (b, s) /\
    In h [1; 2; 4; 8; 16; 64; 128; 256; 512] /\
    In a [1; 2; 4; 8; 16] /\ In b [1; 2; 4; 8; 16].
Proof.
  intros LH L.
  destruct (hpre_table_entries _ (field_get_range _ _ _ (rcc_cfgr s) LH))
    as (h & Hh & Hin).
  destruct (ppre_table_entries _
              (field_get_range _ _ _ (rcc_cfgr s) (ppre1_field _ L)))
    as (a & Ha & Hina).
  destruct (ppre_table_entries _
              (field_get_range _ _ _ (rcc_cfgr s) (ppre2_field _ L)))
    as (b & Hb & Hinb).
  exists h, a, b.
  unfold SystemGetAHBPrescaler, SystemGetAPB1Prescaler, SystemGetAPB2Prescaler,
    bind, load, lift. cbn [get]. cbv zeta.
  rewrite Hh, Ha, Hb. repeat split; assumption.
Qed.

Lemma prescaler_reads_in_table_witness :
  exists h a b,
    @SystemGetAHBPrescaler stm32f746xx running_on_PLL = Some (h, running_on_PLL) /\
    @SystemGetAPB1Prescaler stm32f746xx running_on_PLL = Some (a, running_on_PLL) /\
    @SystemGetAPB2Prescaler stm32f746xx running_on_PLL = Some (b, running_on_PLL) /\
    In h [1; 2; 4; 8; 16; 64; 128; 256; 512] /\
    In a [1; 2; 4; 8; 16] /\ In b [1; 2; 4; 8; 16].
Proof.
  apply (prescaler_reads_in_table stm32f746xx).
  - constructor; cbn; try lia; reflexivity.
  - constructor; try reflexivity; constructor; cbn; try lia; reflexivity.
Defined.

Lemma SystemGetSYSCLKFrequency_nonneg
      (hdr : DeviceHeader) (s : state) (f : Z) (s' : state) :
  SystemGetSYSCLKFrequency s = Some (f, s') -> 0 <= f.
Proof.
  unfold SystemGetSYSCLKFrequency, bind, load, lift, ret. cbv zeta.
  destruct (_ =? RCC_CFGR_SWS_HSI); [intros [= <- _]; unfold HSI_FREQ; lia |].
  destruct (_ =? RCC_CFGR_SWS_HSE);
    [intros [= <- _]; unfold HSE_FREQ, HSE_OSCILLATOR_FREQ; lia |].
  destruct (_ =? RCC_CFGR_SWS_PLL); [| intros [= <- _]; lia].
  match goal with
  | |- match ?o with _ => _ end = _ -> _ =>
      destruct o as [v |] eqn:E; [| discriminate]
  end.
  intros [= <- _].
  revert E. unfold CalculateMainPLLOutFrequency, udiv. cbv zeta.
  assert (Hu : forall x, 0 <= u32 x)
    by (intros x; unfold u32; apply Z.mod_pos_bound; reflexivity).
  repeat match goal with
         | |- context [if ?b then _ else _] => destruct b
         end; intros [= <-]; try discriminate; try apply Hu; lia.
Qed.

(** X10.  Whenever the system clock frequency can be computed, so can the
    core and the two APB frequencies, and they are ordered: each APB
    frequency is at most the core frequency, which is at most the system
    clock frequency; [SystemGetAHBFrequency] and [SystemGetHCLKFrequency]
    are the core frequency. *)
Theorem bus_frequencies_ordered
        (hdr : DeviceHeader) (s : state) (f : Z) (s0 : state) :
  FieldLayout RCC_CFGR_HPRE_Msk RCC_CFGR_HPRE_Pos 4 ->
  CFGR_layout hdr ->
  SystemGetSYSCLKFrequency s = Some (f, s0) ->
  exists c a b,
    SystemGetCoreClock s = Some (c, s) /\
    SystemGetAHBFrequency s = Some (c, s) /\
    SystemGetHCLKFrequency s = Some (c, s) /\
    SystemGetAPB1Frequency s = Some (a, s) /\
    SystemGetAPB2Frequency s = Some (b, s) /\
    0 <= a <= c /\ 0 <= b <= c /\ c <= f.
Proof.
  intros LH L Hsys.
  pose proof (SystemGetSYSCLKFrequency_nonneg hdr s f s0 Hsys) as Hf.
  assert (Hs0 : s0 = s) by (exact (reads_SystemGetSYSCLKFrequency _ _ _ Hsys)).
  subst s0.
  destruct (prescaler_reads_in_table hdr s LH L)
    as (h & a & b & Hh & Ha & Hb & Hinh & Hina & Hinb).
  assert (Hhpos : 1 <= h) by (cbn [In] in Hinh; lia).
  assert (Hapos : 1 <= a) by (cbn [In] in Hina; lia).
  assert (Hbpos : 1 <= b) by (cbn [In] in Hinb; lia).
  assert (Hcore : SystemGetCoreClock s = Some (f / h, s)).
  { unfold SystemGetCoreClock, bind. rewrite Hsys, Hh. unfold lift, udiv.
    destruct (Z.eqb_spec h 0); [lia | reflexivity]. }
  assert (Hc : 0 <= f / h <= f).
  { split; [apply Z.div_pos; lia |]. apply Z.div_le_upper_bound; nia. }
  exists (f / h), (f / h / a), (f / h / b).
  unfold SystemGetAHBFrequency, SystemGetHCLKFrequency,
    SystemGetAPB1Frequency, SystemGetAPB2Frequency, bind.
  rewrite Hcore, Ha, Hb. unfold lift, udiv.
  destruct (Z.eqb_spec a 0); [lia |]. destruct (Z.eqb_spec b 0); [lia |].
  repeat split; try reflexivity.
  - apply Z.div_pos; lia.
  - apply Z.div_le_upper_bound; nia.
  - apply Z.div_pos; lia.
  - apply Z.div_le_upper_bound; nia.
  - lia.
Qed.

Lemma bus_frequencies_ordered_witness :
  exists c a b,
    @SystemGetCoreClock stm32f746xx running_on_PLL = Some (c, running_on_PLL) /\
    @SystemGetAHBFrequency stm32f746xx running_on_PLL = Some (c, running_on_PLL) /\
    @SystemGetHCLKFrequency stm32f746xx running_on_PLL = Some (c, running_on_PLL) /\
    @SystemGetAPB1Frequency stm32f746xx running_on_PLL = Some (a, running_on_PLL) /\
    @SystemGetAPB2Frequency stm32f746xx running_on_PLL = Some (b, running_on_PLL) /\
    0 <= a <= c /\ 0 <= b <= c /\ c <= 200000000.
Proof.
  apply (bus_frequencies_ordered stm32f746xx running_on_PLL 200000000
           running_on_PLL).
  - constructor; cbn; try lia; reflexivity.
  - constructor; try reflexivity; constructor; cbn; try lia; reflexivity.
  - reflexivity.
Defined.

(** ** Programming the flash latency *)

(** X11.  [SetFlashWaitStates(n)], for n from 0 to 15, leaves n in the
    latency field of FLASH_ACR; every other bit of FLASH_ACR is replaced by
    the bit of FLASH_CR at the same position, whatever FLASH_ACR held. *)
Theorem SetFlashWaitStates_effect (hdr : DeviceHeader) (n : Z) (s : state) :
  FieldLayout FLASH_ACR_LATENCY FLASH_ACR_LATENCY_Pos 4 ->
  0 <= n < 16 ->
  exists s',
    SetFlashWaitStates n s = Some (tt, s') /\
    Z.shiftr (Z.land (flash_acr s') FLASH_ACR_LATENCY) FLASH_ACR_LATENCY_Pos = n /\
    Z.land (flash_acr s') (not32 FLASH_ACR_LATENCY)
    = Z.land (flash_cr s) (not32 FLASH_ACR_LATENCY) /\
    flash_cr s' = flash_cr s.
Proof.
  intros L Hn. eexists.
  unfold SetFlashWaitStates, bind, load, store.
  split; [reflexivity |]. cbn [get set log flash_acr flash_cr].
  split; [apply (field_readback _ _ 4); [exact L | cbn; lia] |].
  split; [| reflexivity].
  pose proof (field_pos _ _ _ L) as Hpos.
  apply Z.bits_inj'. intros m Hm.
  rewrite !Z.land_spec, Z.lor_spec, Z.land_spec.
  rewrite not32_testbit, shl32_testbit by lia.
  rewrite (field_mask_testbit _ _ 4 m L Hm).
  destruct (Z.ltb_spec m 32); cbn [andb]; [| now rewrite !andb_false_r].
  destruct (Z.leb_spec FLASH_ACR_LATENCY_Pos m); cbn [andb negb].
  - destruct (Z.ltb_spec m (FLASH_ACR_LATENCY_Pos + 4)); cbn [negb].
    + now rewrite !andb_false_r.
    + rewrite (small_testbit n 4) by (cbn; lia).
      now rewrite orb_false_r, !andb_true_r.
  - rewrite (Z.testbit_neg_r n) by lia.
    now rewrite orb_false_r, !andb_true_r.
Qed.

Lemma SetFlashWaitStates_effect_witness :
  exists s',
    @SetFlashWaitStates stm32f746xx 9 after_SystemInit = Some (tt, s') /\
    Z.shiftr (Z.land (flash_acr s') 0xF) 0 = 9 /\
    Z.land (flash_acr s') (not32 0xF)
    = Z.land (flash_cr after_SystemInit) (not32 0xF) /\
    flash_cr s' = flash_cr after_SystemInit.
Proof.
  apply (SetFlashWaitStates_effect stm32f746xx 9 after_SystemInit).
  - constructor; cbn; try lia; reflexivity.
  - lia.
Defined.

(** X12.  When the lookup succeeds, [ConfigureFlashWaitStates] programs
    the count it found: the latency field of FLASH_ACR then reads the
    number of wait states returned by [FindFlashWaitStates]. *)
Theorem ConfigureFlashWaitStates_programs_lookup
        (hdr : DeviceHeader) (freq voltage ws : Z) (s : state) :
  FieldLayout FLASH_ACR_LATENCY FLASH_ACR_LATENCY_Pos 4 ->
  FindFlashWaitStates freq voltage = Some ws -> 0 <= ws ->
  exists s',
    ConfigureFlashWaitStates freq voltage s = Some (tt, s') /\
    Z.shiftr (Z.land (flash_acr s') FLASH_ACR_LATENCY) FLASH_ACR_LATENCY_Pos = ws.
Proof.
  intros L Hws Hnn.
  destruct (FindFlashWaitStates_total freq voltage) as (ws' & Hws' & Hb).
  rewrite Hws in Hws'. injection Hws' as <-.
  assert (Hu : u32 ws = ws)
    by (unfold u32; apply Z.mod_small; change (2 ^ 32) with 4294967296; lia).
  destruct (SetFlashWaitStates_effect hdr ws s L ltac:(lia))
    as (s' & Hset & Hfield & _).
  exists s'. split; [| exact Hfield].
  unfold ConfigureFlashWaitStates, bind, lift. rewrite Hws. cbv zeta.
  rewrite Hu. destruct (Z.ltb_spec ws 0); [lia |].
  rewrite int_small by (change (2 ^ 31) with 2147483648; lia).
  exact Hset.
Qed.

Lemma ConfigureFlashWaitStates_programs_lookup_witness :
  exists s',
    @ConfigureFlashWaitStates stm32f746xx 200 3300 after_SystemInit
    = Some (tt, s') /\
    Z.shiftr (Z.land (flash_acr s') 0xF) 0 = 6.
Proof.
  apply (ConfigureFlashWaitStates_programs_lookup stm32f746xx 200 3300 6
           after_SystemInit).
  - constructor; cbn; try lia; reflexivity.
  - reflexivity.
  - lia.
Defined.

(** ** Writing one field of RCC_CFGR *)

(** Whatever is written into a field, it reads back modulo the width. *)
Lemma field_readback_mod (msk pos w x v : Z) :
  FieldLayout msk pos w ->
  Z.shiftr (Z.land (Z.lor (Z.land x (not32 msk)) (shl32 v pos)) msk) pos
  = v mod 2 ^ w.
Proof.
  intros L. pose proof (field_pos _ _ _ L) as Hpos.
  pose proof (field_width _ _ _ L) as Hw.
  pose proof (field_fits _ _ _ L) as Hfit.
  apply Z.bits_inj'. intros n Hn.
  rewrite Z.shiftr_spec, Z.land_spec, Z.lor_spec, Z.land_spec by assumption.
  rewrite not32_testbit, shl32_testbit by lia.
  rewrite (field_mask_testbit msk pos w) by (assumption || lia).
  replace (n + pos - pos) with n by lia.
  destruct (Z.leb_spec pos (n + pos)); [| lia].
  destruct (Z.ltb_spec (n + pos) (pos + w)) as [Hin | Hout]; cbn [andb negb].
  - destruct (Z.ltb_spec (n + pos) 32); [| lia]. cbn [andb].
    rewrite !andb_false_r, andb_true_r. cbn [orb].
    symmetry. apply Z.mod_pow2_bits_low. lia.
  - rewrite andb_false_r. symmetry. apply Z.mod_pow2_bits_high. lia.
Qed.

(** Writing a value that fits one field leaves a field that does not
    overlap it as it was. *)
Lemma field_write_other (m1 p1 w1 m2 p2 w2 x v : Z) :
  FieldLayout m1 p1 w1 -> FieldLayout m2 p2 w2 ->
  p1 + w1 <= p2 \/ p2 + w2 <= p1 ->
  0 <= v < 2 ^ w1 ->
  Z.land (Z.lor (Z.land x (not32 m1)) (shl32 v p1)) m2 = Z.land x m2.
Proof.
  intros L1 L2 Hdisj Hv.
  pose proof (field_pos _ _ _ L1). pose proof (field_pos _ _ _ L2).
  pose proof (field_fits _ _ _ L2).
  apply Z.bits_inj'. intros k Hk.
  rewrite !Z.land_spec, Z.lor_spec, Z.land_spec.
  rewrite not32_testbit, shl32_testbit by lia.
  rewrite (field_mask_testbit m1 p1 w1 k L1 Hk).
  rewrite (field_mask_testbit m2 p2 w2 k L2 Hk).
  destruct (Z.leb_spec p2 k); cbn [andb]; [| now rewrite !andb_false_r].
  destruct (Z.ltb_spec k (p2 + w2)); [| now rewrite !andb_false_r].
  rewrite !andb_true_r.
  destruct (Z.ltb_spec k 32); [| lia]. cbn [andb].
  assert (Hsh : Z.testbit v (k - p1) = false).
  { destruct (Z.le_gt_cases p1 k).
    - apply (small_testbit v w1); lia.
    - apply Z.testbit_neg_r. lia. }
  rewrite Hsh, orb_false_r.
  destruct (Z.leb_spec p1 k), (Z.ltb_spec k (p1 + w1)); cbn [andb negb];
    try lia; apply andb_true_r.
Qed.

Section PrescalerFields.

Context {hdr : DeviceHeader}.
Hypothesis F : CFGR_fields hdr.

(** The three prescaler fields as [FieldLayout]s clear of SWS *)
Let LA : CFGR_layout hdr := cf_apb hdr F.
Let LH := cf_hpre hdr F.
Let L1 := ppre1_field hdr LA.
Let L2 := ppre2_field hdr LA.

(** A write to RCC_CFGR that replaces one prescaler field by a value that
    fits it: that field reads the value, the other two read as before. *)
Lemma write_HPRE_fields (cfgr h : Z) :
  0 <= h < 2 ^ 4 ->
  let c' := cfgr_status cfgr
              (Z.lor (Z.land cfgr (not32 RCC_CFGR_HPRE_Msk))
                     (shl32 h RCC_CFGR_HPRE_Pos)) in
  Z.shiftr (Z.land c' RCC_CFGR_HPRE_Msk) RCC_CFGR_HPRE_Pos = h /\
  Z.land c' RCC_CFGR_PPRE1_Msk = Z.land cfgr RCC_CFGR_PPRE1_Msk /\
  Z.land c' RCC_CFGR_PPRE2_Msk = Z.land cfgr RCC_CFGR_PPRE2_Msk.
Proof.
  intros Hh c'. subst c'.
  pose proof (cf_hpre_ppre1 hdr F). pose proof (cf_ppre1_ppre2 hdr F).
  rewrite (fun o v => cfgr_status_field LA _ _ 4 o v LH (cf_hpre_sws hdr F)).
  rewrite (fun o v => cfgr_status_field LA _ _ 3 o v L1 (ppre1_sws hdr LA)).
  rewrite (fun o v => cfgr_status_field LA _ _ 3 o v L2 (ppre2_sws hdr LA)).
  split; [now apply (field_readback _ _ 4) |].
  split.
  - apply (field_write_other _ _ 4 _ _ 3 _ _ LH L1); lia.
  - apply (field_write_other _ _ 4 _ _ 3 _ _ LH L2); lia.
Qed.

Lemma write_PPRE1_fields (cfgr p : Z) :
  0 <= p < 2 ^ 3 ->
  let c' := cfgr_status cfgr
              (Z.lor (Z.land cfgr (not32 RCC_CFGR_PPRE1_Msk))
                     (shl32 p RCC_CFGR_PPRE1_Pos)) in
  Z.land c' RCC_CFGR_HPRE_Msk = Z.land cfgr RCC_CFGR_HPRE_Msk /\
  Z.land c' RCC_CFGR_PPRE2_Msk = Z.land cfgr RCC_CFGR_PPRE2_Msk.
Proof.
  intros Hp c'. subst c'.
  pose proof (cf_hpre_ppre1 hdr F). pose proof (cf_ppre1_ppre2 hdr F).
  rewrite (fun o v => cfgr_status_field LA _ _ 4 o v LH (cf_hpre_sws hdr F)).
  rewrite (fun o v => cfgr_status_field LA _ _ 3 o v L2 (ppre2_sws hdr LA)).
  split.
  - apply (field_write_other _ _ 3 _ _ 4 _ _ L1 LH); lia.
  - apply (field_write_other _ _ 3 _ _ 3 _ _ L1 L2); lia.
Qed.

Lemma write_PPRE2_fields (cfgr p : Z) :
  0 <= p < 2 ^ 3 ->
  let c' := cfgr_status cfgr
              (Z.lor (Z.land cfgr (not32 RCC_CFGR_PPRE2_Msk))
                     (shl32 p RCC_CFGR_PPRE2_Pos)) in
  Z.land c' RCC_CFGR_HPRE_Msk = Z.land cfgr RCC_CFGR_HPRE_Msk /\
  Z.land c' RCC_CFGR_PPRE1_Msk = Z.land cfgr RCC_CFGR_PPRE1_Msk.
Proof.
  intros Hp c'. subst c'.
  pose proof (cf_hpre_ppre1 hdr F). pose proof (cf_ppre1_ppre2 hdr F).
  rewrite (fun o v => cfgr_status_field LA _ _ 4 o v LH (cf_hpre_sws hdr F)).
  rewrite (fun o v => cfgr_status_field LA _ _ 3 o v L1 (ppre1_sws hdr LA)).
  split.
  - apply (field_write_other _ _ 3 _ _ 4 _ _ L2 LH); lia.
  - apply (field_write_other _ _ 3 _ _ 3 _ _ L2 L1); lia.
Qed.

End PrescalerFields.

(** ** Prescaler writes and the other fields *)

(** X13.  [SystemSetHPRE] with a code from 0 to 15 and [SystemGetHPRE]
    round-trip, and the write leaves the APB1 and APB2 prescalers as they
    were. *)
Theorem SystemSetHPRE_roundtrip (hdr : DeviceHeader) (h : Z) (s : state) :
  CFGR_fields hdr -> 0 <= h < 16 ->
  exists s',
    SystemSetHPRE h s = Some (0, s') /\
    SystemGetHPRE s' = Some (h, s') /\
    option_map fst (SystemGetAHBPrescaler s') = index hpre_table h /\
    option_map fst (SystemGetAPB1Prescaler s')
    = option_map fst (SystemGetAPB1Prescaler s) /\
    option_map fst (SystemGetAPB2Prescaler s')
    = option_map fst (SystemGetAPB2Prescaler s).
Proof.
  intros F Hh.
  destruct (write_HPRE_fields F (rcc_cfgr s) h Hh) as (Hf & H1 & H2).
  eexists. unfold SystemSetHPRE, SystemGetHPRE, SystemGetAHBPrescaler,
    SystemGetAPB1Prescaler, SystemGetAPB2Prescaler, bind, load, store, ret, lift.
  split; [reflexivity |]. cbn [get set log rcc_cfgr]. cbv zeta.
  unfold RCC_CFGR_HPRE. rewrite Hf, H1, H2.
  repeat split; try reflexivity;
    match goal with
    | |- option_map fst (match ?o with _ => _ end) = _ => destruct o; reflexivity
    end.
Qed.

Lemma SystemSetHPRE_roundtrip_witness :
  exists s',
    @SystemSetHPRE stm32f746xx 9 after_SystemInit = Some (0, s') /\
    @SystemGetHPRE stm32f746xx s' = Some (9, s') /\
    option_map fst (@SystemGetAHBPrescaler stm32f746xx s') = index hpre_table 9 /\
    option_map fst (@SystemGetAPB1Prescaler stm32f746xx s')
    = option_map fst (@SystemGetAPB1Prescaler stm32f746xx after_SystemInit) /\
    option_map fst (@SystemGetAPB2Prescaler stm32f746xx s')
    = option_map fst (@SystemGetAPB2Prescaler stm32f746xx after_SystemInit).
Proof.
  apply (SystemSetHPRE_roundtrip stm32f746xx 9 after_SystemInit).
  - constructor;
      [ constructor; try reflexivity; constructor; cbn; try lia; reflexivity
      | constructor; cbn; try lia; reflexivity
      | reflexivity | cbn; lia | cbn; lia ].
  - lia.
Defined.

(** X14.  For a divisor from 1 to 16, [SystemSetAPB1Prescaler] leaves the
    AHB and APB2 prescalers as they were, and [SystemSetAPB2Prescaler]
    leaves the AHB and APB1 prescalers as they were, whether the guard
    lets the write through or not. *)
Theorem SystemSetAPB_independent (hdr : DeviceHeader) (div : Z) (s : state) :
  CFGR_fields hdr -> 1 <= div <= 16 ->
  exists s1 s2,
    SystemSetAPB1Prescaler div s = Some (tt, s1) /\
    SystemSetAPB2Prescaler div s = Some (tt, s2) /\
    option_map fst (SystemGetAHBPrescaler s1)
    = option_map fst (SystemGetAHBPrescaler s) /\
    option_map fst (SystemGetAPB2Prescaler s1)
    = option_map fst (SystemGetAPB2Prescaler s) /\
    option_map fst (SystemGetAHBPrescaler s2)
    = option_map fst (SystemGetAHBPrescaler s) /\
    option_map fst (SystemGetAPB1Prescaler s2)
    = option_map fst (SystemGetAPB1Prescaler s).
Proof.
  intros F Hdiv.
  pose proof (ppre_encoding div Hdiv) as E. cbv zeta in E.
  destruct E as (Hp & _).
  destruct (write_PPRE1_fields F (rcc_cfgr s) _ Hp) as (H1h & H12).
  destruct (write_PPRE2_fields F (rcc_cfgr s) _ Hp) as (H2h & H21).
  assert (Hread : forall (t : list Z) (x y : Z) (a b : state),
            x = y ->
            option_map fst (lift (index t x) a)
            = option_map fst (lift (index t y) b)).
  { intros t x y a b ->. unfold lift. destruct (index t y); reflexivity. }
  assert (Hnz : (div =? 0) = false) by (apply Z.eqb_neq; lia).
  unfold SystemSetAPB1Prescaler, SystemSetAPB2Prescaler,
    SystemGetAHBPrescaler, SystemGetAPB1Prescaler, SystemGetAPB2Prescaler.
  unfold bind, get_SystemCoreClock, load, udiv. cbn [get]. cbv zeta.
  rewrite Hnz. cbn [lift].
  destruct (SystemCoreClock s / div >? 54000000).
  - exists s, s. repeat split; reflexivity.
  - unfold store. do 2 eexists.
    split; [reflexivity |]. split; [reflexivity |].
    cbn [set log rcc_cfgr].
    repeat split; apply Hread; f_equal; assumption.
Qed.

Lemma SystemSetAPB_independent_witness :
  exists s1 s2,
    @SystemSetAPB1Prescaler stm32f746xx 8 after_SystemInit = Some (tt, s1) /\
    @SystemSetAPB2Prescaler stm32f746xx 8 after_SystemInit = Some (tt, s2) /\
    option_map fst (@SystemGetAHBPrescaler stm32f746xx s1)
    = option_map fst (@SystemGetAHBPrescaler stm32f746xx after_SystemInit) /\
    option_map fst (@SystemGetAPB2Prescaler stm32f746xx s1)
    = option_map fst (@SystemGetAPB2Prescaler stm32f746xx after_SystemInit) /\
    option_map fst (@SystemGetAHBPrescaler stm32f746xx s2)
    = option_map fst (@SystemGetAHBPrescaler stm32f746xx after_SystemInit) /\
    option_map fst (@SystemGetAPB1Prescaler stm32f746xx s2)
    = option_map fst (@SystemGetAPB1Prescaler stm32f746xx after_SystemInit).
Proof.
  apply (SystemSetAPB_independent stm32f746xx 8 after_SystemInit).
  - constructor;
      [ constructor; try reflexivity; constructor; cbn; try lia; reflexivity
      | constructor; cbn; try lia; reflexivity
      | reflexivity | cbn; lia | cbn; lia ].
  - lia.
Defined.

(** X15.  A divisor from 17 to 256 does not saturate at the largest
    divisor 16: the code computed no longer fits the 3-bit field, its low
    bits are below 4, and the APB divisor read back is 1, no division at
    all. *)
Theorem SystemSetAPB_large_divisor (hdr : DeviceHeader) (div : Z) (s : state) :
  CFGR_layout hdr ->
  17 <= div <= 256 ->
  SystemCoreClock s / div <= 54000000 ->
  (exists s1,
      SystemSetAPB1Prescaler div s = Some (tt, s1) /\
      SystemGetAPB1Prescaler s1 = Some (1, s1)) /\
  (exists s2,
      SystemSetAPB2Prescaler div s = Some (tt, s2) /\
      SystemGetAPB2Prescaler s2 = Some (1, s2)).
Proof.
  intros L Hdiv Hguard.
  assert (Hd2 : 2 <= div <= 393216) by lia.
  destruct (SystemFindLargestPower2_log2_up div Hd2) as [_ He].
  destruct (log2_up_range div Hd2) as [Hk Hs].
  assert (Hk58 : 5 <= Z.log2_up div <= 8).
  { split.
    - destruct (Z.le_gt_cases 5 (Z.log2_up div)); [assumption |].
      assert (2 ^ Z.log2_up div <= 2 ^ 4) by (apply Z.pow_le_mono_r; lia).
      change (2 ^ 4) with 16 in *. lia.
    - destruct (Z.le_gt_cases (Z.log2_up div) 8); [assumption |].
      assert (2 ^ 8 <= 2 ^ (Z.log2_up div - 1)) by (apply Z.pow_le_mono_r; lia).
      change (2 ^ 8) with 256 in *. lia. }
  assert (Hidx : index ppre_table
                   ((if SystemFindLargestPower2Exp div =? 0 then 0
                     else u32 (4 + SystemFindLargestPower2Exp div - 1))
                    mod 2 ^ 3) = Some 1).
  { rewrite He.
    assert (Hc : In (Z.log2_up div) [5; 6; 7; 8]) by (cbn [In]; lia).
    cbn [In] in Hc.
    repeat (destruct Hc as [<- | Hc]; [reflexivity |]). contradiction. }
  assert (Hnz : (div =? 0) = false) by (apply Z.eqb_neq; lia).
  assert (Hg : (SystemCoreClock s / div >? 54000000) = false)
    by (rewrite Z.gtb_ltb; apply Z.ltb_ge; exact Hguard).
  split; eexists.
  - unfold SystemSetAPB1Prescaler, SystemGetAPB1Prescaler, bind,
      get_SystemCoreClock, lift, udiv, load, store.
    rewrite Hnz, Hg. split; [reflexivity |].
    cbn [get set log rcc_cfgr]. cbv zeta.
    rewrite (fun o v => cfgr_status_field L _ _ 3 o v (ppre1_field _ L)
                          (ppre1_sws _ L)).
    rewrite (field_readback_mod _ _ 3) by apply L.
    rewrite Hidx. reflexivity.
  - unfold SystemSetAPB2Prescaler, SystemGetAPB2Prescaler, bind,
      get_SystemCoreClock, lift, udiv, load, store.
    rewrite Hnz, Hg. split; [reflexivity |].
    cbn [get set log rcc_cfgr]. cbv zeta.
    rewrite (fun o v => cfgr_status_field L _ _ 3 o v (ppre2_field _ L)
                          (ppre2_sws _ L)).
    rewrite (field_readback_mod _ _ 3) by apply L.
    rewrite Hidx. reflexivity.
Qed.

Lemma SystemSetAPB_large_divisor_witness :
  (exists s1,
      @SystemSetAPB1Prescaler stm32f746xx 32 after_SystemInit = Some (tt, s1) /\
      @SystemGetAPB1Prescaler stm32f746xx s1 = Some (1, s1)) /\
  (exists s2,
      @SystemSetAPB2Prescaler stm32f746xx 32 after_SystemInit = Some (tt, s2) /\
      @SystemGetAPB2Prescaler stm32f746xx s2 = Some (1, s2)).
Proof.
  apply (SystemSetAPB_large_divisor stm32f746xx 32 after_SystemInit).
  - constructor; try reflexivity; constructor; cbn; try lia; reflexivity.
  - lia.
  - vm_compute. discriminate.
Defined.

(** ** The auxiliary PLLs once the main PLL is configured *)

(** Settle an equation between bitwise combinations bit by bit. *)
Ltac bitwise :=
  apply Z.bits_inj'; intros ?k ?Hk;
  repeat (first [ rewrite Z.land_spec | rewrite Z.lor_spec
                 | rewrite not32_testbit by assumption
                 | rewrite Z.bits_0 ]);
  repeat match goal with
         | |- context [Z.testbit ?a ?n] => destruct (Z.testbit a n)
         end;
  repeat match goal with
         | |- context [?a <? ?b] => destruct (a <? b)
         end;
  reflexivity.

(** Replacing the fields under four masks changes nothing outside them. *)
Lemma four_fields_outside (x a b c d ma mb mc md : Z) :
  let m := Z.lor (Z.lor (Z.lor ma mb) mc) md in
  Z.land
    (Z.lor (Z.land x (not32 m))
       (Z.lor (Z.lor (Z.lor (Z.land a ma) (Z.land b mb)) (Z.land c mc))
          (Z.land d md)))
    (not32 m)
  = Z.land x (not32 m).
Proof. cbv zeta. bitwise. Qed.

(** Switching a unit off, on again and waiting leaves both bits set. *)
Lemma off_on_ready (cr on rdy : Z) :
  let cr' := Z.lor (Z.lor (Z.land cr (not32 on)) on) rdy in
  Z.land cr' on = on /\ Z.land cr' rdy = rdy.
Proof. cbv zeta. split; bitwise. Qed.

(** X16.  Called with the main PLL configured, [SystemConfigPLLSAI] and
    [SystemConfigPLLI2S] return with their PLL switched on and reported
    ready; they change RCC_CR and their own configuration register only,
    and in that register nothing outside the N, P, Q and R fields. *)
Theorem auxiliary_PLL_frame
        (hdr : DeviceHeader) (pllconfig : PLLConfiguration_t) (s : state) :
  MainPLLConfigured s <> 0 ->
  (exists s',
      SystemConfigPLLSAI pllconfig s = Some (tt, s') /\
      (forall r, r <> RCC_CR -> r <> RCC_PLLSAICFGR -> get r s' = get r s) /\
      SystemCoreClock s' = SystemCoreClock s /\
      MainPLLConfigured s' = MainPLLConfigured s /\
      Z.land (rcc_cr s') RCC_CR_PLLSAION = RCC_CR_PLLSAION /\
      Z.land (rcc_cr s') RCC_CR_PLLSAIRDY = RCC_CR_PLLSAIRDY /\
      let m := Z.lor (Z.lor (Z.lor RCC_PLLSAICFGR_PLLSAIN RCC_PLLSAICFGR_PLLSAIP)
                        RCC_PLLSAICFGR_PLLSAIQ) RCC_PLLSAICFGR_PLLSAIR in
      Z.land (rcc_pllsaicfgr s') (not32 m) = Z.land (rcc_pllsaicfgr s) (not32 m)) /\
  (exists s',
      SystemConfigPLLI2S pllconfig s = Some (tt, s') /\
      (forall r, r <> RCC_CR -> r <> RCC_PLLI2SCFGR -> get r s' = get r s) /\
      SystemCoreClock s' = SystemCoreClock s /\
      MainPLLConfigured s' = MainPLLConfigured s /\
      Z.land (rcc_cr s') RCC_CR_PLLI2SON = RCC_CR_PLLI2SON /\
      Z.land (rcc_cr s') RCC_CR_PLLI2SRDY = RCC_CR_PLLI2SRDY /\
      let m := Z.lor (Z.lor (Z.lor RCC_PLLI2SCFGR_PLLI2SN RCC_PLLI2SCFGR_PLLI2SP)
                        RCC_PLLI2SCFGR_PLLI2SQ) RCC_PLLI2SCFGR_PLLI2SR in
      Z.land (rcc_plli2scfgr s') (not32 m) = Z.land (rcc_plli2scfgr s) (not32 m)).
Proof.
  intros Hflag.
  assert (Hnz : (MainPLLConfigured s =? 0) = false) by (now apply Z.eqb_neq).
  split; eexists;
    unfold SystemConfigPLLSAI, SystemConfigPLLI2S, bind,
      get_MainPLLConfigured, load, store, wait_flag;
    rewrite Hnz; cbv zeta;
    (split; [reflexivity |]);
    cbn [get set log rcc_cr rcc_pllsaicfgr rcc_plli2scfgr SystemCoreClock
           MainPLLConfigured];
    (split; [intros r H1 H2; destruct r; try reflexivity; contradiction |]);
    (split; [reflexivity |]); (split; [reflexivity |]);
    (split; [apply off_on_ready |]); (split; [apply off_on_ready |]);
    apply four_fields_outside.
Qed.

Lemma auxiliary_PLL_frame_witness :
  (exists s',
      @SystemConfigPLLSAI stm32f746xx (@PLLSAIConfiguration_48MHz stm32f746xx)
         running_on_PLL = Some (tt, s') /\
      (forall r, r <> RCC_CR -> r <> RCC_PLLSAICFGR ->
                 get r s' = get r running_on_PLL) /\
      SystemCoreClock s' = SystemCoreClock running_on_PLL /\
      MainPLLConfigured s' = MainPLLConfigured running_on_PLL /\
      Z.land (rcc_cr s') 0x10000000 = 0x10000000 /\
      Z.land (rcc_cr s') 0x20000000 = 0x20000000 /\
      let m := Z.lor (Z.lor (Z.lor 0x7FC0 0x30000) 0xF000000) 0x70000000 in
      Z.land (rcc_pllsaicfgr s') (not32 m)
      = Z.land (rcc_pllsaicfgr running_on_PLL) (not32 m)) /\
  (exists s',
      @SystemConfigPLLI2S stm32f746xx (@PLLSAIConfiguration_48MHz stm32f746xx)
         running_on_PLL = Some (tt, s') /\
      (forall r, r <> RCC_CR -> r <> RCC_PLLI2SCFGR ->
                 get r s' = get r running_on_PLL) /\
      SystemCoreClock s' = SystemCoreClock running_on_PLL /\
      MainPLLConfigured s' = MainPLLConfigured running_on_PLL /\
      Z.land (rcc_cr s') 0x4000000 = 0x4000000 /\
      Z.land (rcc_cr s') 0x8000000 = 0x8000000 /\
      let m := Z.lor (Z.lor (Z.lor 0x7FC0 0x30000) 0xF000000) 0x70000000 in
      Z.land (rcc_plli2scfgr s') (not32 m)
      = Z.land (rcc_plli2scfgr running_on_PLL) (not32 m)).
Proof.
  apply (auxiliary_PLL_frame stm32f746xx (@PLLSAIConfiguration_48MHz stm32f746xx)
           running_on_PLL).
  cbn. discriminate.
Defined.

(** ** The flag of the main PLL and the clock mux *)

Lemma preserves_reads {A : Type} (I : state -> Prop) (c : Sys A) :
  reads c -> preserves I c.
Proof. intros H s a s' HI E. now rewrite (H _ _ _ E). Qed.

Lemma preserves_bind {A B : Type} (I : state -> Prop)
      (c : Sys A) (k : A -> Sys B) :
  preserves I c -> (forall a, preserves I (k a)) -> preserves I (bind c k).
Proof.
  intros Hc Hk s b s'' HI E. apply bind_Some in E as (a & s' & E1 & E2).
  exact (Hk _ _ _ _ (Hc _ _ _ HI E1) E2).
Qed.

Lemma preserves_if {A : Type} (I : state -> Prop) (b : bool) (c1 c2 : Sys A) :
  preserves I c1 -> preserves I c2 -> preserves I (if b then c1 else c2).
Proof. now destruct b. Qed.

Lemma preserves_after {A : Type} (I : state -> Prop) (c : Sys A) (s : state) :
  preserves I c -> I s -> after c s (fun _ s' => I s').
Proof.
  intros H HI. unfold after. destruct (c s) as [[a s'] |] eqn:E; [| exact Logic.I].
  exact (H _ _ _ HI E).
Qed.

Lemma after_Some {A : Type} (c : Sys A) (s : state)
      (Q : A -> state -> Prop) (a : A) (s' : state) :
  after c s Q -> c s = Some (a, s') -> Q a s'.
Proof. unfold after. intros H E. now rewrite E in H. Qed.

Section Flag.

Context {hdr : DeviceHeader}.
Variable P : Z -> Prop.

Lemma flag_store (r : reg) (v : Z) : preserves (flag_is P) (store r v).
Proof. intros s a s' HI [= _ <-]. unfold flag_is in *. now destruct r. Qed.

Lemma flag_wait_flag (r : reg) (flag : Z) :
  preserves (flag_is P) (wait_flag r flag).
Proof. intros s a s' HI [= _ <-]. unfold flag_is in *. now destruct r. Qed.

Lemma flag_set_SystemCoreClock (v : Z) :
  preserves (flag_is P) (set_SystemCoreClock v).
Proof. intros s a s' HI [= _ <-]. exact HI. Qed.

Lemma flag_set_MainPLLConfigured :
  P 1 -> preserves (flag_is P) (set_MainPLLConfigured 1).
Proof. intros H1 s a s' HI [= _ <-]. exact H1. Qed.

End Flag.

(** Walk a routine down to its loads and stores. *)
Ltac step_flag :=
  repeat first
    [ solve [apply preserves_reads; auto 1 with appends]
    | apply flag_store
    | apply flag_wait_flag
    | apply flag_set_SystemCoreClock
    | solve [apply flag_set_MainPLLConfigured; assumption]
    | apply preserves_bind; [| intros ?]
    | apply preserves_if ].

Ltac unfold_routines :=
  unfold SystemSetCoreClockFrequency, SystemSetCoreClock,
    SystemSetCoreClock_finish, worst_case, write_SW, write_HPRE,
    SystemConfigMainPLL, SystemConfigMainPLL_program,
    SystemConfigPLLSAI, SystemConfigPLLI2S,
    SystemSetAHBPrescaler, SystemSetAPB1Prescaler, SystemSetAPB2Prescaler,
    ConfigureFlashWaitStates, SetFlashWaitStates,
    SystemCoreClockUpdate, SystemGetCoreClock, SystemGetSYSCLKFrequency,
    SystemGetAHBPrescaler, SystemGetAPB1Prescaler, SystemGetAPB2Prescaler,
    SystemEnableHSI, SystemEnableHSE, SystemEnableMainPLL,
    SystemDisableMainPLL;
  cbv zeta.

Section FlagOfRoutines.

Context {hdr : DeviceHeader}.
Variable P : Z -> Prop.
Hypothesis P1 : P 1.

Lemma flag_SystemConfigMainPLL (c : PLLConfiguration_t) :
  preserves (flag_is P) (SystemConfigMainPLL c).
Proof.
  unfold_routines. step_flag.
Qed.

Lemma flag_SystemSetCoreClock_finish (ppre1 ppre2 : Z) :
  preserves (flag_is P) (SystemSetCoreClock_finish ppre1 ppre2).
Proof. unfold_routines. step_flag. Qed.

Lemma flag_SystemSetCoreClock (newsrc newdiv : Z) :
  preserves (flag_is P) (SystemSetCoreClock newsrc newdiv).
Proof. unfold_routines. step_flag. Qed.

Lemma flag_SystemSetCoreClockFrequency (freq : Z) :
  preserves (flag_is P) (SystemSetCoreClockFrequency freq).
Proof. unfold_routines. step_flag. Qed.

Lemma flag_SystemConfigPLLSAI (c : PLLConfiguration_t) :
  preserves (flag_is P) (SystemConfigPLLSAI c).
Proof. unfold_routines. step_flag. Qed.

Lemma flag_SystemConfigPLLI2S (c : PLLConfiguration_t) :
  preserves (flag_is P) (SystemConfigPLLI2S c).
Proof. unfold_routines. step_flag. Qed.

Lemma flag_SystemInit {art : DeviceHeaderART} :
  preserves (flag_is P) SystemInit.
Proof. unfold SystemInit. unfold_routines. step_flag. Qed.

End FlagOfRoutines.

(** X17.  No routine of the module clears the flag [MainPLLConfigured]:
    once it is set, it is still set when [SystemConfigMainPLL],
    [SystemSetCoreClock], [SystemSetCoreClockFrequency],
    [SystemConfigPLLSAI], [SystemConfigPLLI2S] or [SystemInit] returns. *)
Theorem MainPLLConfigured_never_cleared
        (hdr : DeviceHeader) (art : DeviceHeaderART)
        (c : PLLConfiguration_t) (newsrc newdiv freq : Z) (s : state) :
  MainPLLConfigured s <> 0 ->
  let set (_ : unit) (s' : state) := MainPLLConfigured s' <> 0 in
  let set' (_ : Z) (s' : state) := MainPLLConfigured s' <> 0 in
  after (SystemConfigMainPLL c) s set /\
  after (SystemSetCoreClock newsrc newdiv) s set' /\
  after (SystemSetCoreClockFrequency freq) s set' /\
  after (SystemConfigPLLSAI c) s set /\
  after (SystemConfigPLLI2S c) s set /\
  after SystemInit s set.
Proof.
  intros Hs. cbv zeta.
  assert (P1 : (fun v => v <> 0) 1) by discriminate.
  repeat split;
    apply (preserves_after (flag_is (fun v => v <> 0))); try exact Hs.
  - now apply flag_SystemConfigMainPLL.
  - now apply flag_SystemSetCoreClock.
  - now apply flag_SystemSetCoreClockFrequency.
  - apply flag_SystemConfigPLLSAI.
  - apply flag_SystemConfigPLLI2S.
  - apply flag_SystemInit.
Qed.

Lemma MainPLLConfigured_never_cleared_witness :
  let c := @MainPLLConfiguration_216MHz stm32f746xx in
  let set (_ : unit) (s' : state) := MainPLLConfigured s' <> 0 in
  let set' (_ : Z) (s' : state) := MainPLLConfigured s' <> 0 in
  after (@SystemConfigMainPLL stm32f746xx c) running_on_PLL set /\
  after (@SystemSetCoreClock stm32f746xx 0 2) running_on_PLL set' /\
  after (@SystemSetCoreClockFrequency stm32f746xx 100000000) running_on_PLL set' /\
  after (@SystemConfigPLLSAI stm32f746xx c) running_on_PLL set /\
  after (@SystemConfigPLLI2S stm32f746xx c) running_on_PLL set /\
  after (@SystemInit stm32f746xx stm32f746xx_art) running_on_PLL set.
Proof.
  apply (MainPLLConfigured_never_cleared stm32f746xx stm32f746xx_art
           (@MainPLLConfiguration_216MHz stm32f746xx) 0 2 100000000
           running_on_PLL).
  cbn. discriminate.
Defined.

(** A write to a field leaves alone every field that lies below it,
    whatever the value written. *)
Lemma field_write_below (m1 p1 w1 m2 p2 w2 x v : Z) :
  FieldLayout m1 p1 w1 -> FieldLayout m2 p2 w2 -> p2 + w2 <= p1 ->
  Z.land (Z.lor (Z.land x (not32 m1)) (shl32 v p1)) m2 = Z.land x m2.
Proof.
  intros L1 L2 Hbelow.
  pose proof (field_pos _ _ _ L1). pose proof (field_pos _ _ _ L2).
  pose proof (field_width _ _ _ L1). pose proof (field_fits _ _ _ L1).
  apply Z.bits_inj'. intros k Hk.
  rewrite !Z.land_spec, Z.lor_spec, Z.land_spec.
  rewrite not32_testbit, shl32_testbit by lia.
  rewrite (field_mask_testbit m1 p1 w1 k L1 Hk).
  rewrite (field_mask_testbit m2 p2 w2 k L2 Hk).
  destruct (Z.leb_spec p2 k); cbn [andb]; [| now rewrite !andb_false_r].
  destruct (Z.ltb_spec k (p2 + w2)); [| now rewrite !andb_false_r].
  rewrite !andb_true_r.
  rewrite (Z.testbit_neg_r v (k - p1)) by lia.
  destruct (Z.ltb_spec k 32); [| lia].
  destruct (Z.leb_spec p1 k); [lia |].
  cbn [andb negb]. now rewrite andb_true_r, orb_false_r.
Qed.

Section Mux.

Context {hdr : DeviceHeader}.
Hypothesis L : MUX_layout hdr.

(** A write to RCC_CFGR with the PLL in the SW field: SW reads the PLL and
    the status follows. *)
Lemma store_CFGR_selects_PLL (v : Z) (s s' : state) :
  Z.land v RCC_CFGR_SW = RCC_CFGR_SW_PLL ->
  store RCC_CFGR v s = Some (tt, s') -> core_on_PLL s'.
Proof.
  intros Hv [= <-]. unfold core_on_PLL. cbn [set log rcc_cfgr get].
  destruct (mux_sw hdr L) as (p & Fsw & _).
  pose proof (cf_apb hdr (mux_fields hdr L)) as LA.
  split.
  - now rewrite (cfgr_status_field LA _ _ 2 _ _ Fsw (mux_sw_sws hdr L)).
  - unfold cfgr_status. cbv zeta. rewrite Hv.
    rewrite (proj2 (Z.eqb_neq _ _) (mux_pll_hsi hdr L)).
    rewrite (proj2 (Z.eqb_neq _ _) (mux_pll_hse hdr L)).
    rewrite Z.eqb_refl.
    transitivity (Z.land RCC_CFGR_SWS_PLL RCC_CFGR_SWS);
      [bitwise | exact (sws_pll_sub hdr LA)].
Qed.

Lemma write_SW_selects_PLL (s s' : state) :
  write_SW RCC_CFGR_SW_PLL s = Some (tt, s') -> core_on_PLL s'.
Proof.
  unfold write_SW, bind, load. apply store_CFGR_selects_PLL.
  transitivity (Z.land RCC_CFGR_SW_PLL RCC_CFGR_SW);
    [bitwise | exact (mux_pll_sub hdr L)].
Qed.

Lemma on_PLL_other_register (s s' : state) :
  rcc_cfgr s' = rcc_cfgr s -> core_on_PLL s -> core_on_PLL s'.
Proof. unfold core_on_PLL. now intros ->. Qed.

Lemma on_PLL_store (r : reg) (v : Z) :
  r <> RCC_CFGR -> preserves core_on_PLL (store r v).
Proof.
  intros Hr s a s' HI [= _ <-]. revert HI. apply on_PLL_other_register.
  destruct r; try reflexivity. contradiction.
Qed.

Lemma on_PLL_set_SystemCoreClock (v : Z) :
  preserves core_on_PLL (set_SystemCoreClock v).
Proof. intros s a s' HI [= _ <-]. exact HI. Qed.

(** The APB prescaler fields lie above the SW field. *)
Lemma on_PLL_store_PPRE (msk pos p : Z) :
  FieldLayout msk pos 3 -> RCC_CFGR_HPRE_Pos <= pos ->
  preserves core_on_PLL
    (cfgr <- load RCC_CFGR ;;
     store RCC_CFGR (Z.lor (Z.land cfgr (not32 msk)) (shl32 p pos))).
Proof.
  intros F Hpos s a s' [HI _] E. unfold bind, load in E.
  destruct a. revert E. apply store_CFGR_selects_PLL.
  destruct (mux_sw hdr L) as (q & Fsw & Hq).
  cbn [get]. rewrite (field_write_below msk pos 3 _ q 2 _ _ F Fsw) by lia.
  exact HI.
Qed.

Lemma on_PLL_SystemSetAPB1Prescaler (div : Z) :
  preserves core_on_PLL (SystemSetAPB1Prescaler div).
Proof.
  pose proof (mux_fields hdr L) as F.
  unfold SystemSetAPB1Prescaler. cbv zeta.
  apply preserves_bind; [apply preserves_reads; auto 1 with appends | intros clk].
  apply preserves_bind; [apply preserves_reads; auto 1 with appends | intros q].
  apply preserves_if; [apply preserves_reads; auto 1 with appends |].
  apply on_PLL_store_PPRE.
  - exact (ppre1_field hdr (cf_apb hdr F)).
  - pose proof (cf_hpre_ppre1 hdr F). lia.
Qed.

Lemma on_PLL_SystemSetAPB2Prescaler (div : Z) :
  preserves core_on_PLL (SystemSetAPB2Prescaler div).
Proof.
  pose proof (mux_fields hdr L) as F.
  unfold SystemSetAPB2Prescaler. cbv zeta.
  apply preserves_bind; [apply preserves_reads; auto 1 with appends | intros clk].
  apply preserves_bind; [apply preserves_reads; auto 1 with appends | intros q].
  apply preserves_if; [apply preserves_reads; auto 1 with appends |].
  apply on_PLL_store_PPRE.
  - exact (ppre2_field hdr (cf_apb hdr F)).
  - pose proof (cf_hpre_ppre1 hdr F). pose proof (cf_ppre1_ppre2 hdr F). lia.
Qed.

(** The tail of [SystemSetCoreClock] leaves the mux where it is. *)
Lemma on_PLL_SystemSetCoreClock_finish (ppre1 ppre2 : Z) :
  preserves core_on_PLL (SystemSetCoreClock_finish ppre1 ppre2).
Proof.
  unfold SystemSetCoreClock_finish.
  apply preserves_bind; [| intros _].
  { unfold SystemCoreClockUpdate, SystemGetCoreClock, SystemGetSYSCLKFrequency,
      SystemGetAHBPrescaler. cbv zeta.
    repeat first
      [ solve [apply preserves_reads; auto 1 with appends]
      | apply on_PLL_set_SystemCoreClock
      | apply preserves_bind; [| intros ?]
      | apply preserves_if ]. }
  apply preserves_bind; [apply preserves_reads; auto 1 with appends | intros clk].
  apply preserves_bind; [| intros _].
  { unfold ConfigureFlashWaitStates, SetFlashWaitStates. cbv zeta.
    repeat first
      [ solve [apply preserves_reads; auto 1 with appends]
      | solve [apply on_PLL_store; discriminate]
      | apply preserves_bind; [| intros ?]
      | apply preserves_if ]. }
  apply preserves_bind; [apply on_PLL_SystemSetAPB1Prescaler | intros _].
  apply preserves_bind; [apply on_PLL_SystemSetAPB2Prescaler | intros _].
  apply preserves_reads; auto 1 with appends.
Qed.

End Mux.

(** Whatever it is given, a configuration with source HSI or HSE leaves
    the flag at 1. *)
Lemma SystemConfigMainPLL_sets_flag
      {hdr : DeviceHeader} (c : PLLConfiguration_t) (s s' : state) :
  source c = CLOCKSRC_HSI \/ source c = CLOCKSRC_HSE ->
  SystemConfigMainPLL c s = Some (tt, s') -> MainPLLConfigured s' = 1.
Proof.
  intros Hsrc E.
  assert (Hprog : forall sw was t t',
             SystemConfigMainPLL_program c sw was t = Some (tt, t') ->
             MainPLLConfigured t' = 1).
  { intros sw was t t' Ep. unfold SystemConfigMainPLL_program in Ep.
    cbv zeta in Ep.
    apply bind_Some in Ep as (x0 & t0 & _ & Ep).
    apply bind_Some in Ep as (x1 & t1 & _ & Ep).
    apply bind_Some in Ep as (x2 & t2 & _ & Ep).
    apply bind_Some in Ep as (x3 & t3 & E3 & Ep).
    injection E3 as _ <-.
    assert (K : preserves (flag_is (fun v => v = 1))
                  (if was =? 0 then ret tt
                   else cfgr <- load RCC_CFGR ;;
                        store RCC_CFGR
                          (Z.lor (Z.land cfgr RCC_CFGR_SW) RCC_CFGR_SW_PLL)))
      by step_flag.
    refine (K _ _ _ _ Ep). reflexivity. }
  unfold SystemConfigMainPLL in E. cbv zeta in E.
  apply bind_Some in E as (x0 & t0 & _ & E).
  apply bind_Some in E as (x1 & t1 & _ & E).
  apply bind_Some in E as (x2 & t2 & _ & E).
  destruct (source c =? CLOCKSRC_HSI) eqn:E1.
  - apply bind_Some in E as (x3 & t3 & _ & E). exact (Hprog _ _ _ _ E).
  - destruct (source c =? CLOCKSRC_HSE) eqn:E2.
    + apply bind_Some in E as (x3 & t3 & _ & E). exact (Hprog _ _ _ _ E).
    + apply Z.eqb_neq in E1, E2. tauto.
Qed.

(** X18.  When [SystemSetCoreClock(CLOCKSRC_PLL, newdiv)] returns, it
    returns 0, the flag of the main PLL is set, the SW field of RCC_CFGR
    selects the PLL and the SWS status reports it, whatever the state it
    was called in and whatever [newdiv]. *)
Theorem SystemSetCoreClock_selects_PLL
        (hdr : DeviceHeader) (newdiv : Z) (s : state) :
  MUX_layout hdr ->
  after (SystemSetCoreClock CLOCKSRC_PLL newdiv) s
    (fun r s' =>
       r = 0 /\ MainPLLConfigured s' <> 0 /\
       Z.land (rcc_cfgr s') RCC_CFGR_SW = RCC_CFGR_SW_PLL /\
       Z.land (rcc_cfgr s') RCC_CFGR_SWS = RCC_CFGR_SWS_PLL).
Proof.
  intros L. unfold after.
  destruct (SystemSetCoreClock CLOCKSRC_PLL newdiv s) as [[r s'] |] eqn:E;
    [| exact I].
  unfold SystemSetCoreClock in E. cbv zeta in E.
  apply bind_Some in E as (cfgr & s0 & E0 & E).
  apply bind_Some in E as (ppre1 & s1 & _ & E).
  apply bind_Some in E as (ppre2 & s2 & _ & E).
  assert (Hne : (CLOCKSRC_PLL =? Z.land cfgr RCC_CFGR_SW) = false).
  { apply Z.eqb_neq. intros Heq. apply (mux_src_sw hdr L).
    unfold CLOCKSRC_PLL in Heq. rewrite Heq at 1 2.
    now rewrite <- Z.land_assoc, Z.land_diag. }
  rewrite Hne in E.
  apply bind_Some in E as ([] & s3 & Eb & Ef).
  assert (Hon : core_on_PLL s3 /\ MainPLLConfigured s3 <> 0).
  { apply bind_Some in Eb as (x0 & t0 & _ & Eb).
    apply bind_Some in Eb as (x1 & t1 & _ & Eb).
    unfold CLOCKSRC_PLL, CLOCKSRC_HSI, CLOCKSRC_HSE in Eb.
    rewrite (proj2 (Z.eqb_neq _ _) (mux_src_hsi hdr L)) in Eb.
    rewrite (proj2 (Z.eqb_neq _ _) (mux_src_hse hdr L)) in Eb.
    rewrite Z.eqb_refl in Eb.
    apply bind_Some in Eb as (conf & t2 & Ec & Eb).
    injection Ec as <- <-.
    apply bind_Some in Eb as ([] & t3 & Ed & Ew).
    split; [exact (write_SW_selects_PLL L _ _ Ew) |].
    assert (H3 : MainPLLConfigured t3 <> 0).
    { destruct (MainPLLConfigured t1 =? 0) eqn:Ez.
      - apply bind_Some in Ed as (y0 & u0 & _ & Ed).
        apply bind_Some in Ed as (y1 & u1 & _ & Ed).
        rewrite (SystemConfigMainPLL_sets_flag ClockConfiguration200MHz _ _
                   (or_intror eq_refl) Ed).
        discriminate.
      - injection Ed as <-. now apply Z.eqb_neq. }
    assert (K : preserves (flag_is (fun v => v <> 0)) (write_SW RCC_CFGR_SW_PLL))
      by (unfold write_SW; step_flag).
    exact (K _ _ _ H3 Ew). }
  destruct Hon as [Hon Hflag].
  pose proof (on_PLL_SystemSetCoreClock_finish L _ _ _ _ _ Hon Ef) as [Hsw Hsws].
  assert (K : preserves (flag_is (fun v => v <> 0))
                (SystemSetCoreClock_finish ppre1 ppre2)).
  { apply flag_SystemSetCoreClock_finish. }
  pose proof (K _ _ _ Hflag Ef) as Hflag'.
  unfold SystemSetCoreClock_finish in Ef.
  do 5 (apply bind_Some in Ef as (? & ? & _ & Ef)).
  injection Ef as <- _.
  repeat split; assumption.
Qed.

Lemma SystemSetCoreClock_selects_PLL_witness :
  exists s',
    @SystemSetCoreClock stm32f746xx (@CLOCKSRC_PLL stm32f746xx) 1
       after_SystemInit = Some (0, s') /\
    MainPLLConfigured s' <> 0 /\
    Z.land (rcc_cfgr s') 3 = 2 /\ Z.land (rcc_cfgr s') 12 = 8.
Proof.
  assert (L : MUX_layout stm32f746xx).
  { constructor;
      [ constructor;
        [ constructor; try reflexivity; constructor; cbn; try lia; reflexivity
        | constructor; cbn; try lia; reflexivity
        | reflexivity | cbn; lia | cbn; lia ]
      | exists 0; split; [constructor; cbn; try lia; reflexivity | cbn; lia]
      | reflexivity | reflexivity
      | discriminate | discriminate | discriminate | discriminate
      | discriminate ]. }
  assert (E : exists s',
             @SystemSetCoreClock stm32f746xx (@CLOCKSRC_PLL stm32f746xx) 1
               after_SystemInit = Some (0, s'))
    by (vm_compute; eexists; reflexivity).
  destruct E as [s' E]. exists s'. split; [exact E |].
  exact (proj2 (after_Some _ _ _ _ _
                  (SystemSetCoreClock_selects_PLL stm32f746xx 1
                     after_SystemInit L) E)).
Defined.

(** X19.  Given a configuration whose source is neither HSI nor HSE, and
    with the PLL not driving the core, [SystemConfigMainPLL] returns
    having only cleared PLLON in RCC_CR: one write, the PLL left switched
    off, the configuration register and the flag as they were. *)
Theorem SystemConfigMainPLL_unsupported_source
        (hdr : DeviceHeader) (c : PLLConfiguration_t) (s : state) :
  source c <> CLOCKSRC_HSI -> source c <> CLOCKSRC_HSE ->
  Z.land (rcc_cfgr s) RCC_CFGR_SWS <> RCC_CFGR_SWS_PLL ->
  exists s',
    SystemConfigMainPLL c s = Some (tt, s') /\
    rcc_cr s' = Z.land (rcc_cr s) (not32 RCC_CR_PLLON) /\
    writes s' = writes s ++ [(RCC_CR, Z.land (rcc_cr s) (not32 RCC_CR_PLLON))] /\
    (forall r, r <> RCC_CR -> get r s' = get r s) /\
    MainPLLConfigured s' = MainPLLConfigured s /\
    SystemCoreClock s' = SystemCoreClock s.
Proof.
  intros H1 H2 H3. apply Z.eqb_neq in H1, H2, H3.
  eexists. split.
  - unfold SystemConfigMainPLL, bind, load. cbv zeta. cbn [get].
    rewrite H3. unfold ret, SystemDisableMainPLL, bind, load, store.
    cbv zeta. rewrite H1, H2. reflexivity.
  - cbn [get set log rcc_cr writes MainPLLConfigured SystemCoreClock].
    repeat split; try reflexivity.
    intros r Hr. destruct r; try reflexivity. contradiction.
Qed.

Lemma SystemConfigMainPLL_unsupported_source_witness :
  let c := {| source := 8; M := 25; N := 400; P := 2; Q := 2; R := 2 |} in
  exists s',
    @SystemConfigMainPLL stm32f746xx c after_SystemInit = Some (tt, s') /\
    rcc_cr s' = Z.land (rcc_cr after_SystemInit) (not32 0x1000000) /\
    writes s' = writes after_SystemInit
                ++ [(RCC_CR, Z.land (rcc_cr after_SystemInit) (not32 0x1000000))] /\
    (forall r, r <> RCC_CR -> get r s' = get r after_SystemInit) /\
    MainPLLConfigured s' = MainPLLConfigured after_SystemInit /\
    SystemCoreClock s' = SystemCoreClock after_SystemInit.
Proof.
  apply (SystemConfigMainPLL_unsupported_source stm32f746xx
           {| source := 8; M := 25; N := 400; P := 2; Q := 2; R := 2 |}
           after_SystemInit); vm_compute; discriminate.
Defined.

(** ** Reading the PLL configuration back *)

(** A field read with the position of a field above it gives 0. *)
Lemma field_read_above (msk pos w x q : Z) :
  FieldLayout msk pos w -> pos + w <= q ->
  Z.shiftr (Z.land x msk) q = 0.
Proof.
  intros F Hq.
  pose proof (field_pos _ _ _ F). pose proof (field_width _ _ _ F).
  apply Z.bits_inj'. intros n Hn.
  rewrite Z.shiftr_spec, Z.land_spec, Z.bits_0 by assumption.
  rewrite (field_mask_testbit msk pos w (n + q) F) by lia.
  destruct (Z.ltb_spec (n + q) (pos + w)); [lia |].
  now rewrite andb_false_r, andb_false_r.
Qed.

(** A field read with a position [q] below its own comes out shifted
    left by the distance. *)
Lemma field_read_below (msk pos w x q : Z) :
  FieldLayout msk pos w -> 0 <= q <= pos ->
  Z.shiftr (Z.land x msk) q = Z.shiftr (Z.land x msk) pos * 2 ^ (pos - q).
Proof.
  intros F Hq.
  pose proof (field_pos _ _ _ F). pose proof (field_width _ _ _ F).
  rewrite <- Z.shiftl_mul_pow2 by lia.
  apply Z.bits_inj'. intros n Hn.
  rewrite Z.shiftr_spec, Z.shiftl_spec by assumption.
  destruct (Z.lt_ge_cases n (pos - q)).
  - rewrite (Z.testbit_neg_r _ (n - (pos - q))) by lia.
    rewrite Z.land_spec, (field_mask_testbit msk pos w (n + q) F) by lia.
    destruct (Z.leb_spec pos (n + q)); [lia |].
    now rewrite andb_false_r.
  - rewrite Z.shiftr_spec by lia. f_equal. lia.
Qed.

(** Take the branch of the [switch] for a unit that exists. *)
Ltac pick_unit :=
  unfold SystemGetPLLConfiguration, bind, load, ret; cbv zeta;
  change (PLL_MAIN =? PLL_MAIN) with true;
  change (PLL_SAI =? PLL_MAIN) with false;
  change (PLL_SAI =? PLL_SAI) with true;
  change (PLL_I2S =? PLL_MAIN) with false;
  change (PLL_I2S =? PLL_SAI) with false;
  change (PLL_I2S =? PLL_I2S) with true;
  cbv beta iota; reflexivity.

(** What the main PLL reads as, whatever the registers hold *)
Lemma SystemGetPLLConfiguration_read_main
      {hdr : DeviceHeader} (L : PLL_layout hdr)
      (old : PLLConfiguration_t) (s : state) :
  exists c,
    SystemGetPLLConfiguration PLL_MAIN old s = Some ((0, c), s) /\
    Q c = 0 /\ R c = 0.
Proof.
  eexists. split; [pick_unit |]. cbn [Q R].
  split; [exact (field_read_above _ _ 2 _ _ (pl_p hdr L) (pl_pq hdr L)) |].
  reflexivity.
Qed.

(** X20.  [SystemGetPLLConfiguration] returns 0 and leaves the state as
    it is.  For the main PLL it returns Q = 0 and R = 0 and P among 2, 4,
    6 and 8, whatever the registers hold; for the SAI and the I2S PLL Q
    is R shifted left by the distance between the two fields; for a unit
    that does not exist N, Q and R are those the caller's structure held
    and P is that P doubled plus 2. *)
Theorem SystemGetPLLConfiguration_read
        (hdr : DeviceHeader) (old : PLLConfiguration_t) (s : state) :
  PLL_layout hdr ->
  (exists c,
      SystemGetPLLConfiguration PLL_MAIN old s = Some ((0, c), s) /\
      Q c = 0 /\ R c = 0 /\ (P c = 2 \/ P c = 4 \/ P c = 6 \/ P c = 8)) /\
  (exists c,
      SystemGetPLLConfiguration PLL_SAI old s = Some ((0, c), s) /\
      Q c = R c * 2 ^ (RCC_PLLSAICFGR_PLLSAIR_Pos - RCC_PLLSAICFGR_PLLSAIQ_Pos)) /\
  (exists c,
      SystemGetPLLConfiguration PLL_I2S old s = Some ((0, c), s) /\
      Q c = R c * 2 ^ (RCC_PLLI2SCFGR_PLLI2SR_Pos - RCC_PLLI2SCFGR_PLLI2SQ_Pos)) /\
  (forall whichone,
      whichone <> PLL_MAIN -> whichone <> PLL_SAI -> whichone <> PLL_I2S ->
      exists c,
        SystemGetPLLConfiguration whichone old s = Some ((0, c), s) /\
        N c = N old /\ Q c = Q old /\ R c = R old /\
        P c = u32 (P old * 2 + 2)).
Proof.
  intros L. repeat split.
  - eexists. split; [pick_unit |]. cbn [Q R P].
    split; [exact (field_read_above _ _ 2 _ _ (pl_p hdr L) (pl_pq hdr L)) |].
    split; [reflexivity |].
    pose proof (field_get_range _ _ 2 (get RCC_PLLCFGR s) (pl_p hdr L)) as Hp.
    change (2 ^ 2) with 4 in Hp.
    set (p := Z.shiftr _ _) in *.
    assert (Hu : u32 (p * 2 + 2) = p * 2 + 2)
      by (unfold u32; apply Z.mod_small; lia).
    rewrite Hu. lia.
  - eexists. split; [pick_unit |]. cbn [Q R].
    exact (field_read_below _ _ 3 _ _ (pl_sai_r hdr L) (pl_sai_qr hdr L)).
  - eexists. split; [pick_unit |]. cbn [Q R].
    exact (field_read_below _ _ 3 _ _ (pl_i2s_r hdr L) (pl_i2s_qr hdr L)).
  - intros w H0 H1 H2. apply Z.eqb_neq in H0, H1, H2.
    eexists. split.
    + unfold SystemGetPLLConfiguration, bind, load. cbv zeta.
      rewrite H0, H1, H2. reflexivity.
    + cbn [N Q R P]. repeat split; reflexivity.
Qed.

Lemma SystemGetPLLConfiguration_read_witness :
  let old := {| source := 0; M := 0; N := 7; P := 4294967295; Q := 9; R := 1 |} in
  (exists c,
      @SystemGetPLLConfiguration stm32f746xx PLL_MAIN old running_on_PLL
      = Some ((0, c), running_on_PLL) /\
      Q c = 0 /\ R c = 0 /\ (P c = 2 \/ P c = 4 \/ P c = 6 \/ P c = 8)) /\
  (exists c,
      @SystemGetPLLConfiguration stm32f746xx PLL_SAI old running_on_PLL
      = Some ((0, c), running_on_PLL) /\
      Q c = R c * 2 ^ (28 - 24)) /\
  (exists c,
      @SystemGetPLLConfiguration stm32f746xx PLL_I2S old running_on_PLL
      = Some ((0, c), running_on_PLL) /\
      Q c = R c * 2 ^ (28 - 24)) /\
  (forall whichone,
      whichone <> PLL_MAIN -> whichone <> PLL_SAI -> whichone <> PLL_I2S ->
      exists c,
        @SystemGetPLLConfiguration stm32f746xx whichone old running_on_PLL
        = Some ((0, c), running_on_PLL) /\
        N c = N old /\ Q c = Q old /\ R c = R old /\
        P c = u32 (P old * 2 + 2)).
Proof.
  apply (SystemGetPLLConfiguration_read stm32f746xx
           {| source := 0; M := 0; N := 7; P := 4294967295; Q := 9; R := 1 |}
           running_on_PLL).
  constructor; try (cbn; lia); constructor; cbn; try lia; reflexivity.
Defined.

(** ** Start-up *)

Lemma bind_eq {A B : Type} (c : Sys A) (k : A -> Sys B) s a s1 :
  c s = Some (a, s1) -> bind c k s = k a s1.
Proof. unfold bind. now intros ->. Qed.








(** ** The cached core clock *)

Lemma reads_SystemGetCoreClock {hdr : DeviceHeader} : reads SystemGetCoreClock.
Proof.
  unfold SystemGetCoreClock.
  apply reads_bind; [apply reads_SystemGetSYSCLKFrequency | intros f].
  apply reads_bind; [apply reads_SystemGetAHBPrescaler | intros p].
  apply reads_lift.
Qed.

(** [SystemGetCoreClock] looks at the SWS status, at the HPRE field and at
    RCC_PLLCFGR, and at nothing else. *)
Lemma SystemGetCoreClock_depends {hdr : DeviceHeader} (a b : state) (f : Z) :
  Z.land (rcc_cfgr a) RCC_CFGR_SWS = Z.land (rcc_cfgr b) RCC_CFGR_SWS ->
  Z.land (rcc_cfgr a) RCC_CFGR_HPRE_Msk = Z.land (rcc_cfgr b) RCC_CFGR_HPRE_Msk ->
  rcc_pllcfgr a = rcc_pllcfgr b ->
  SystemGetCoreClock a = Some (f, a) -> SystemGetCoreClock b = Some (f, b).
Proof.
  intros H1 H2 H3 E. unfold SystemGetCoreClock in *.
  apply bind_Some in E as (x & a1 & Ex & E).
  pose proof (reads_SystemGetSYSCLKFrequency _ _ _ Ex) as ->.
  apply bind_Some in E as (p & a2 & Ep & E).
  pose proof (reads_SystemGetAHBPrescaler _ _ _ Ep) as ->.
  assert (Ex' : SystemGetSYSCLKFrequency b = Some (x, b)).
  { revert Ex. unfold SystemGetSYSCLKFrequency, bind, load.
    cbv beta iota zeta. cbn [get]. rewrite H1, H3.
    repeat match goal with
           | |- context [if ?c then _ else _] => destruct c
           end;
      unfold ret, lift;
      repeat match goal with
             | |- context [match ?o with Some _ => _ | None => _ end] =>
                 destruct o
             end;
      congruence. }
  assert (Ep' : SystemGetAHBPrescaler b = Some (p, b)).
  { revert Ep. unfold SystemGetAHBPrescaler, bind, load.
    cbv beta iota zeta. cbn [get]. rewrite H2.
    unfold lift. destruct (index _ _); congruence. }
  rewrite (bind_eq _ _ _ _ _ Ex'), (bind_eq _ _ _ _ _ Ep').
  revert E. unfold lift. destruct (udiv x p); congruence.
Qed.

Section Cache.

Context {hdr : DeviceHeader}.
Hypothesis L : MUX_layout hdr.

Let F : CFGR_fields hdr := mux_fields hdr L.
Let LA : CFGR_layout hdr := cf_apb hdr F.

Lemma cfgr_status_eq (old v : Z) :
  cfgr_status old v = Z.lor (Z.land v (not32 RCC_CFGR_SWS)) (status_of old v).
Proof. reflexivity. Qed.

Lemma status_of_inside (old v : Z) :
  Z.land (status_of old v) RCC_CFGR_SWS = status_of old v.
Proof.
  unfold status_of. cbv zeta.
  repeat match goal with
         | |- context [if ?c then _ else _] => destruct c
         end.
  - exact (sws_hsi_sub hdr LA).
  - exact (sws_hse_sub hdr LA).
  - exact (sws_pll_sub hdr LA).
  - now rewrite <- Z.land_assoc, Z.land_diag.
Qed.

Lemma cfgr_status_SWS (old v : Z) :
  Z.land (cfgr_status old v) RCC_CFGR_SWS = status_of old v.
Proof.
  rewrite cfgr_status_eq. rewrite <- (status_of_inside old v) at 2.
  generalize (status_of old v). intros q. bitwise.
Qed.

Lemma cfgr_status_SW (old v : Z) :
  Z.land (cfgr_status old v) RCC_CFGR_SW = Z.land v RCC_CFGR_SW.
Proof.
  destruct (mux_sw hdr L) as (p & Fsw & _).
  exact (cfgr_status_field LA _ _ 2 old v Fsw (mux_sw_sws hdr L)).
Qed.

(** The status only depends on the SW field written, once it is settled. *)
Lemma status_of_settled (c v : Z) :
  Z.land c RCC_CFGR_SWS = status_of c c ->
  Z.land v RCC_CFGR_SW = Z.land c RCC_CFGR_SW ->
  status_of c v = Z.land c RCC_CFGR_SWS.
Proof.
  intros Hc Hv. rewrite Hc. unfold status_of. cbv zeta. now rewrite Hv.
Qed.

(** Every write to RCC_CFGR leaves the status settled. *)
Lemma settled_store_CFGR (v : Z) (s s' : state) (a : unit) :
  store RCC_CFGR v s = Some (a, s') -> settled s'.
Proof.
  intros [= _ <-]. unfold settled. cbn [set log rcc_cfgr get].
  rewrite cfgr_status_SWS.
  unfold status_of at 2. cbv zeta. rewrite cfgr_status_SW, cfgr_status_SWS.
  unfold status_of. cbv zeta.
  repeat match goal with
         | |- context [if ?c then _ else _] => destruct c
         end; reflexivity.
Qed.

Lemma settled_other_register (s s' : state) :
  rcc_cfgr s' = rcc_cfgr s -> settled s -> settled s'.
Proof. unfold settled. now intros ->. Qed.

Lemma settled_store (r : reg) (v : Z) : preserves settled (store r v).
Proof.
  intros s a s' HI E. destruct r;
    try (injection E as _ <-; exact HI).
  exact (settled_store_CFGR _ _ _ _ E).
Qed.

Lemma settled_wait_flag (r : reg) (flag : Z) :
  r <> RCC_CFGR -> preserves settled (wait_flag r flag).
Proof.
  intros Hr s a s' HI [= _ <-]. revert HI. apply settled_other_register.
  destruct r; try reflexivity. contradiction.
Qed.

Lemma settled_set_SystemCoreClock (v : Z) :
  preserves settled (set_SystemCoreClock v).
Proof. intros s a s' HI [= _ <-]. exact HI. Qed.

Lemma settled_set_MainPLLConfigured (v : Z) :
  preserves settled (set_MainPLLConfigured v).
Proof. intros s a s' HI [= _ <-]. exact HI. Qed.

(** What [SystemSetCoreClock] does before its tail leaves the status
    settled: both branches write the HPRE field. *)
Lemma settled_write_HPRE (h : Z) (s s' : state) :
  write_HPRE h s = Some (tt, s') -> settled s'.
Proof. unfold write_HPRE, bind, load. apply settled_store_CFGR. Qed.

(** A write to an APB prescaler field while the view is held *)
Lemma view_store_PPRE (clk sws hpre pllcfgr msk pos p : Z) :
  FieldLayout msk pos 3 -> RCC_CFGR_HPRE_Pos + 4 <= pos ->
  preserves (clock_view clk sws hpre pllcfgr)
    (cfgr <- load RCC_CFGR ;;
     store RCC_CFGR (Z.lor (Z.land cfgr (not32 msk)) (shl32 p pos))).
Proof.
  intros Fm Hpos s a s' (Hset & Hclk & Hsws & Hhpre & Hpll) E.
  unfold bind, load in E. cbn [get] in E.
  split; [exact (settled_store_CFGR _ _ _ _ E) |].
  injection E as _ <-. cbn [set log rcc_cfgr get SystemCoreClock rcc_pllcfgr].
  destruct (mux_sw hdr L) as (q & Fsw & Hq).
  pose proof (cf_hpre hdr F) as FH.
  repeat split; try assumption.
  - rewrite cfgr_status_SWS. rewrite <- Hsws.
    apply status_of_settled; [exact Hset |].
    apply (field_write_below msk pos 3 _ q 2 _ _ Fm Fsw). lia.
  - rewrite (cfgr_status_field LA _ _ 4 _ _ FH (cf_hpre_sws hdr F)).
    rewrite <- Hhpre.
    apply (field_write_below msk pos 3 _ _ 4 _ _ Fm FH). lia.
Qed.

Lemma view_other_register (clk sws hpre pllcfgr : Z) (s s' : state) :
  rcc_cfgr s' = rcc_cfgr s -> rcc_pllcfgr s' = rcc_pllcfgr s ->
  SystemCoreClock s' = SystemCoreClock s ->
  clock_view clk sws hpre pllcfgr s -> clock_view clk sws hpre pllcfgr s'.
Proof. unfold clock_view, settled. now intros -> -> ->. Qed.

Lemma view_SystemSetAPB1Prescaler (clk sws hpre pllcfgr div : Z) :
  preserves (clock_view clk sws hpre pllcfgr) (SystemSetAPB1Prescaler div).
Proof.
  unfold SystemSetAPB1Prescaler. cbv zeta.
  apply preserves_bind; [apply preserves_reads; auto 1 with appends | intros c].
  apply preserves_bind; [apply preserves_reads; auto 1 with appends | intros q].
  apply preserves_if; [apply preserves_reads; auto 1 with appends |].
  apply view_store_PPRE.
  - exact (ppre1_field hdr LA).
  - exact (cf_hpre_ppre1 hdr F).
Qed.

Lemma view_SystemSetAPB2Prescaler (clk sws hpre pllcfgr div : Z) :
  preserves (clock_view clk sws hpre pllcfgr) (SystemSetAPB2Prescaler div).
Proof.
  unfold SystemSetAPB2Prescaler. cbv zeta.
  apply preserves_bind; [apply preserves_reads; auto 1 with appends | intros c].
  apply preserves_bind; [apply preserves_reads; auto 1 with appends | intros q].
  apply preserves_if; [apply preserves_reads; auto 1 with appends |].
  apply view_store_PPRE.
  - exact (ppre2_field hdr LA).
  - pose proof (cf_hpre_ppre1 hdr F). pose proof (cf_ppre1_ppre2 hdr F). lia.
Qed.

Lemma view_ConfigureFlashWaitStates (clk sws hpre pllcfgr freq voltage : Z) :
  preserves (clock_view clk sws hpre pllcfgr)
    (ConfigureFlashWaitStates freq voltage).
Proof.
  unfold ConfigureFlashWaitStates, SetFlashWaitStates. cbv zeta.
  apply preserves_bind; [apply preserves_reads; auto 1 with appends | intros r].
  apply preserves_if; [apply preserves_reads; auto 1 with appends |].
  apply preserves_bind; [apply preserves_reads; auto 1 with appends | intros c].
  intros s a s' HI [= _ <-]. revert HI.
  apply view_other_register; reflexivity.
Qed.

(** The tail of [SystemSetCoreClock], entered with the status settled,
    returns 0 and caches the clock that the registers gave when it was
    entered; the status, the HPRE field and RCC_PLLCFGR are then still
    the same. *)
Lemma SystemSetCoreClock_finish_view (ppre1 ppre2 r : Z) (s s' : state) :
  settled s ->
  SystemSetCoreClock_finish ppre1 ppre2 s = Some (r, s') ->
  exists f,
    SystemGetCoreClock s = Some (f, s) /\ r = 0 /\
    clock_view f (Z.land (rcc_cfgr s) RCC_CFGR_SWS)
      (Z.land (rcc_cfgr s) RCC_CFGR_HPRE_Msk) (rcc_pllcfgr s) s'.
Proof.
  intros Hset E. unfold SystemSetCoreClock_finish in E.
  apply bind_Some in E as ([] & s1 & Eu & E).
  unfold SystemCoreClockUpdate in Eu.
  apply bind_Some in Eu as (f & s0 & Eg & Eu).
  pose proof (reads_SystemGetCoreClock _ _ _ Eg) as ->.
  injection Eu as <-.
  apply bind_Some in E as (clk & s2 & Ec & E). injection Ec as <- <-.
  apply bind_Some in E as ([] & s3 & E3 & E).
  apply bind_Some in E as ([] & s4 & E4 & E).
  apply bind_Some in E as ([] & s5 & E5 & E).
  injection E as <- <-.
  set (s1 := mkState _ _ _ _ _ _ _ _ _ _) in *.
  assert (V : clock_view f (Z.land (rcc_cfgr s) RCC_CFGR_SWS)
                (Z.land (rcc_cfgr s) RCC_CFGR_HPRE_Msk) (rcc_pllcfgr s) s1).
  { repeat split; try reflexivity. exact Hset. }
  pose proof (view_ConfigureFlashWaitStates _ _ _ _ _ _ _ _ _ V E3) as V3.
  pose proof (view_SystemSetAPB1Prescaler _ _ _ _ _ _ _ _ V3 E4) as V4.
  pose proof (view_SystemSetAPB2Prescaler _ _ _ _ _ _ _ _ V4 E5) as V5.
  exists f. split; [exact Eg |]. split; [reflexivity | exact V5].
Qed.

(** So the cached clock is the one the registers give on return. *)
Lemma SystemSetCoreClock_finish_cache (ppre1 ppre2 r : Z) (s s' : state) :
  settled s ->
  SystemSetCoreClock_finish ppre1 ppre2 s = Some (r, s') ->
  SystemGetCoreClock s' = Some (SystemCoreClock s', s').
Proof.
  intros Hset E.
  destruct (SystemSetCoreClock_finish_view _ _ _ _ _ Hset E)
    as (f & Eg & _ & _ & Hclk & Hsws & Hhpre & Hpll).
  rewrite Hclk.
  apply (SystemGetCoreClock_depends s s' f); congruence.
Qed.

End Cache.

(** X22.  When [SystemSetCoreClock] returns, the cached [SystemCoreClock]
    is the frequency that [SystemGetCoreClock] computes from the
    registers as they then are, whatever the source and the divisor asked
    for and whatever the state it was called in. *)
Theorem SystemSetCoreClock_updates_cache
        (hdr : DeviceHeader) (newsrc newdiv : Z) (s : state) :
  MUX_layout hdr ->
  after (SystemSetCoreClock newsrc newdiv) s
    (fun _ s' => SystemGetCoreClock s' = Some (SystemCoreClock s', s')).
Proof.
  intros L. unfold after.
  destruct (SystemSetCoreClock newsrc newdiv s) as [[r s'] |] eqn:E;
    [| exact I].
  unfold SystemSetCoreClock in E. cbv zeta in E.
  apply bind_Some in E as (cfgr & s0 & _ & E).
  apply bind_Some in E as (ppre1 & s1 & _ & E).
  apply bind_Some in E as (ppre2 & s2 & _ & E).
  apply bind_Some in E as ([] & s3 & Eb & Ef).
  apply (SystemSetCoreClock_finish_cache L ppre1 ppre2 r s3 s'); [| exact Ef].
  destruct (newsrc =? Z.land cfgr RCC_CFGR_SW).
  - apply bind_Some in Eb as (x0 & t0 & _ & Eb).
    apply bind_Some in Eb as (x1 & t1 & _ & Eb).
    apply bind_Some in Eb as (x2 & t2 & _ & Eb).
    exact (settled_write_HPRE L _ _ _ Eb).
  - apply bind_Some in Eb as (x0 & t0 & _ & Eb).
    apply bind_Some in Eb as ([] & t1 & Eh & Eb).
    pose proof (settled_write_HPRE L _ _ _ Eh) as H1.
    revert Eb. revert H1.
    match goal with
    | |- settled t1 -> ?c t1 = _ -> _ =>
        assert (K : preserves settled c)
    end.
    { unfold_routines.
      repeat first
        [ solve [apply preserves_reads; auto 1 with appends]
        | apply (settled_store L)
        | solve [apply settled_wait_flag; discriminate]
        | apply settled_set_SystemCoreClock
        | apply settled_set_MainPLLConfigured
        | apply preserves_bind; [| intros ?]
        | apply preserves_if ]. }
    intros H1 Eb. exact (K _ _ _ H1 Eb).
Qed.

Lemma SystemSetCoreClock_updates_cache_witness :
  exists s',
    @SystemSetCoreClock stm32f746xx (@CLOCKSRC_HSE stm32f746xx) 2
       running_on_PLL = Some (0, s') /\
    SystemCoreClock s' = 6250000 /\
    @SystemGetCoreClock stm32f746xx s' = Some (SystemCoreClock s', s').
Proof.
  assert (L : MUX_layout stm32f746xx).
  { constructor;
      [ constructor;
        [ constructor; try reflexivity; constructor; cbn; try lia; reflexivity
        | constructor; cbn; try lia; reflexivity
        | reflexivity | cbn; lia | cbn; lia ]
      | exists 0; split; [constructor; cbn; try lia; reflexivity | cbn; lia]
      | reflexivity | reflexivity
      | discriminate | discriminate | discriminate | discriminate
      | discriminate ]. }
  assert (E : exists s',
             @SystemSetCoreClock stm32f746xx (@CLOCKSRC_HSE stm32f746xx) 2
               running_on_PLL = Some (0, s') /\
             SystemCoreClock s' = 6250000)
    by (vm_compute; eexists; split; reflexivity).
  destruct E as (s' & E & Hclk). exists s'.
  split; [exact E |]. split; [exact Hclk |].
  exact (after_Some _ _ _ _ _
           (SystemSetCoreClock_updates_cache stm32f746xx
              (@CLOCKSRC_HSE stm32f746xx) 2 running_on_PLL L) E).
Defined.

(** ** Writing the main PLL and reading it back *)

(** Fields that follow one another have no bit in common. *)
Lemma fields_disjoint (m1 p1 w1 m2 p2 w2 : Z) :
  FieldLayout m1 p1 w1 -> FieldLayout m2 p2 w2 -> p1 + w1 <= p2 ->
  Z.land m1 m2 = 0 /\ Z.land m2 m1 = 0.
Proof.
  intros F1 F2 Hord.
  assert (H : Z.land m1 m2 = 0).
  { apply Z.bits_inj'. intros k Hk.
    rewrite Z.land_spec, Z.bits_0.
    rewrite (field_mask_testbit m1 p1 w1 k F1 Hk).
    rewrite (field_mask_testbit m2 p2 w2 k F2 Hk).
    destruct (Z.ltb_spec k (p1 + w1)), (Z.leb_spec p2 k); try lia;
      now rewrite ?andb_false_r. }
  split; [exact H | now rewrite Z.land_comm].
Qed.

(** A value shifted to a field and masked reads back modulo the width. *)
Lemma field_of_shl (msk pos w v : Z) :
  FieldLayout msk pos w ->
  Z.shiftr (Z.land (shl32 v pos) msk) pos = v mod 2 ^ w.
Proof.
  intros F. rewrite <- (field_readback_mod msk pos w 0 v F).
  now rewrite Z.land_0_l, Z.lor_0_l.
Qed.

(** The bit of a 1-bit field is the parity of the value written. *)
Lemma bit_of_shl (msk pos v : Z) :
  FieldLayout msk pos 1 ->
  (Z.land (shl32 v pos) msk =? 0) = negb (Z.odd v).
Proof.
  intros F.
  pose proof (field_pos _ _ _ F). pose proof (field_fits _ _ _ F).
  assert (Hbit : Z.testbit (Z.land (shl32 v pos) msk) pos = Z.odd v).
  { rewrite Z.land_spec, shl32_testbit by lia.
    rewrite (field_mask_testbit msk pos 1 pos F) by lia.
    rewrite Z.sub_diag, Z.bit0_odd.
    destruct (Z.ltb_spec pos 32), (Z.leb_spec pos pos),
      (Z.ltb_spec pos (pos + 1)); try lia.
    cbn [andb]. now rewrite andb_true_r. }
  destruct (Z.odd v) eqn:Hodd; cbn [negb].
  - apply Z.eqb_neq. intros Hz. rewrite Hz, Z.bits_0 in Hbit. discriminate.
  - apply Z.eqb_eq. apply Z.bits_inj'. intros k Hk.
    rewrite Z.bits_0, Z.land_spec, shl32_testbit by lia.
    rewrite (field_mask_testbit msk pos 1 k F Hk).
    destruct (Z.leb_spec pos k), (Z.ltb_spec k (pos + 1));
      rewrite ?andb_false_r; try reflexivity.
    replace k with pos by lia. rewrite Z.sub_diag, Z.bit0_odd, Hodd.
    now rewrite andb_false_r.
Qed.

Section MainPLLRegister.

Context {hdr : DeviceHeader}.
Hypothesis PL : PLLCFGR_layout hdr.

(** The value [SystemConfigMainPLL] writes to RCC_PLLCFGR *)
Let written (x m n p q src : Z) : Z :=
  Z.lor
    (Z.land x
       (not32 (Z.lor (Z.lor (Z.lor (Z.lor RCC_PLLCFGR_PLLM RCC_PLLCFGR_PLLN)
                 RCC_PLLCFGR_PLLP) RCC_PLLCFGR_PLLQ) RCC_PLLCFGR_PLLSRC)))
    (Z.lor (Z.lor (Z.lor (Z.lor
       (Z.land (shl32 m RCC_PLLCFGR_PLLM_Pos) RCC_PLLCFGR_PLLM)
       (Z.land (shl32 n RCC_PLLCFGR_PLLN_Pos) RCC_PLLCFGR_PLLN))
       (Z.land (shl32 p RCC_PLLCFGR_PLLP_Pos) RCC_PLLCFGR_PLLP))
       (Z.land (shl32 q RCC_PLLCFGR_PLLQ_Pos) RCC_PLLCFGR_PLLQ))
       (Z.land (shl32 src RCC_PLLCFGR_PLLSRC_Pos) RCC_PLLCFGR_PLLSRC)).

(** Under each mask the register holds what was written for that field. *)
Lemma written_fields (x m n p q src : Z) :
  let v := written x m n p q src in
  Z.land v RCC_PLLCFGR_PLLM
  = Z.land (shl32 m RCC_PLLCFGR_PLLM_Pos) RCC_PLLCFGR_PLLM /\
  Z.land v RCC_PLLCFGR_PLLN
  = Z.land (shl32 n RCC_PLLCFGR_PLLN_Pos) RCC_PLLCFGR_PLLN /\
  Z.land v RCC_PLLCFGR_PLLP
  = Z.land (shl32 p RCC_PLLCFGR_PLLP_Pos) RCC_PLLCFGR_PLLP /\
  Z.land v RCC_PLLCFGR_PLLSRC
  = Z.land (shl32 src RCC_PLLCFGR_PLLSRC_Pos) RCC_PLLCFGR_PLLSRC.
Proof.
  pose proof (pc_m hdr PL) as FM. pose proof (pc_n hdr PL) as FN.
  pose proof (pc_p hdr PL) as FP. pose proof (pc_src hdr PL) as FS.
  pose proof (pc_q hdr PL) as FQ.
  pose proof (pc_m_n hdr PL). pose proof (pc_n_p hdr PL).
  pose proof (pc_p_src hdr PL). pose proof (pc_src_q hdr PL).
  pose proof (field_width _ _ _ FM). pose proof (field_pos _ _ _ FM).
  destruct (fields_disjoint _ _ 6 _ _ 9 FM FN) as [Hmn Hnm]; [lia |].
  destruct (fields_disjoint _ _ 6 _ _ 2 FM FP) as [Hmp Hpm]; [lia |].
  destruct (fields_disjoint _ _ 6 _ _ 1 FM FS) as [Hms Hsm]; [lia |].
  destruct (fields_disjoint _ _ 6 _ _ 4 FM FQ) as [Hmq Hqm]; [lia |].
  destruct (fields_disjoint _ _ 9 _ _ 2 FN FP) as [Hnp Hpn]; [lia |].
  destruct (fields_disjoint _ _ 9 _ _ 1 FN FS) as [Hns Hsn]; [lia |].
  destruct (fields_disjoint _ _ 9 _ _ 4 FN FQ) as [Hnq Hqn]; [lia |].
  destruct (fields_disjoint _ _ 2 _ _ 1 FP FS) as [Hps Hsp]; [lia |].
  destruct (fields_disjoint _ _ 2 _ _ 4 FP FQ) as [Hpq Hqp]; [lia |].
  destruct (fields_disjoint _ _ 1 _ _ 4 FS FQ) as [Hsq Hqs]; [lia |].
  cbv zeta. unfold written.
  assert (Hclr : forall msk,
             msk = RCC_PLLCFGR_PLLM \/ msk = RCC_PLLCFGR_PLLN \/
             msk = RCC_PLLCFGR_PLLP \/ msk = RCC_PLLCFGR_PLLSRC ->
             Z.land
               (Z.land x
                  (not32 (Z.lor (Z.lor (Z.lor (Z.lor RCC_PLLCFGR_PLLM
                     RCC_PLLCFGR_PLLN) RCC_PLLCFGR_PLLP) RCC_PLLCFGR_PLLQ)
                     RCC_PLLCFGR_PLLSRC))) msk = 0).
  { intros msk [-> | [-> | [-> | ->]]]; bitwise. }
  repeat split;
    rewrite !Z.land_lor_distr_l, Hclr by tauto;
    rewrite <- !Z.land_assoc;
    rewrite ?Hmn, ?Hnm, ?Hmp, ?Hpm, ?Hms, ?Hsm, ?Hmq, ?Hqm, ?Hnp, ?Hpn,
      ?Hns, ?Hsn, ?Hnq, ?Hqn, ?Hps, ?Hsp, ?Hpq, ?Hqp, ?Hsq, ?Hqs;
    rewrite ?Z.land_diag, ?Z.land_0_r, ?Z.lor_0_l, ?Z.lor_0_r;
    reflexivity.
Qed.

(** With a source it supports, [SystemConfigMainPLL] leaves in
    RCC_PLLCFGR the value it composed from the configuration. *)
Lemma SystemConfigMainPLL_register (c : PLLConfiguration_t) (s s' : state) :
  source c = CLOCKSRC_HSI \/ source c = CLOCKSRC_HSE ->
  SystemConfigMainPLL c s = Some (tt, s') ->
  exists x src,
    rcc_pllcfgr s' = written x (M c) (N c) (P c) (Q c) src /\
    (source c = CLOCKSRC_HSI /\ src = RCC_CFGR_SW_HSI \/
     source c = CLOCKSRC_HSE /\ src = RCC_CFGR_SW_HSE).
Proof.
  intros Hsrc E.
  assert (Hprog : forall sw was t t',
             SystemConfigMainPLL_program c sw was t = Some (tt, t') ->
             exists x, rcc_pllcfgr t' = written x (M c) (N c) (P c) (Q c) sw).
  { intros sw was t t' Ep. unfold SystemConfigMainPLL_program in Ep.
    cbv zeta in Ep.
    apply bind_Some in Ep as (x & t0 & E0 & Ep). injection E0 as <- <-.
    apply bind_Some in Ep as ([] & t1 & E1 & Ep). injection E1 as <-.
    exists (get RCC_PLLCFGR t).
    assert (K : keeps RCC_PLLCFGR
                  (SystemEnableMainPLL ;;
                   set_MainPLLConfigured 1 ;;
                   (if was =? 0 then ret tt
                    else cfgr <- load RCC_CFGR ;;
                         store RCC_CFGR
                           (Z.lor (Z.land cfgr RCC_CFGR_SW) RCC_CFGR_SW_PLL)))).
    { unfold SystemEnableMainPLL.
      repeat first
        [ solve [apply keeps_reads; auto 1 with appends]
        | solve [apply keeps_store; discriminate]
        | solve [apply keeps_wait_flag; discriminate]
        | apply keeps_set_MainPLLConfigured
        | apply keeps_bind; [| intros ?]
        | apply keeps_if ]. }
    change (rcc_pllcfgr t') with (get RCC_PLLCFGR t').
    rewrite (K _ _ _ Ep). reflexivity. }
  unfold SystemConfigMainPLL in E. cbv zeta in E.
  apply bind_Some in E as (x0 & t0 & _ & E).
  apply bind_Some in E as (x1 & t1 & _ & E).
  apply bind_Some in E as (x2 & t2 & _ & E).
  destruct (source c =? CLOCKSRC_HSI) eqn:E1.
  - apply bind_Some in E as (x3 & t3 & _ & E).
    destruct (Hprog _ _ _ _ E) as [x Hx]. exists x, RCC_CFGR_SW_HSI.
    split; [exact Hx |]. left. split; [now apply Z.eqb_eq | reflexivity].
  - destruct (source c =? CLOCKSRC_HSE) eqn:E2.
    + apply bind_Some in E as (x3 & t3 & _ & E).
      destruct (Hprog _ _ _ _ E) as [x Hx]. exists x, RCC_CFGR_SW_HSE.
      split; [exact Hx |]. right. split; [now apply Z.eqb_eq | reflexivity].
    + apply Z.eqb_neq in E1, E2. tauto.
Qed.

(** What [SystemGetPLLConfiguration] makes of such a register *)
Lemma SystemGetPLLConfiguration_of_written
      (old : PLLConfiguration_t) (s : state) (x m n p q src : Z) :
  rcc_pllcfgr s = written x m n p q src ->
  exists c,
    SystemGetPLLConfiguration PLL_MAIN old s = Some ((0, c), s) /\
    source c = (if Z.odd src then CLOCKSRC_HSE else CLOCKSRC_HSI) /\
    M c = m mod 2 ^ 6 /\ N c = n mod 2 ^ 9 /\
    P c = 2 * (p mod 2 ^ 2) + 2 /\ Q c = 0.
Proof.
  intros Hreg.
  destruct (written_fields x m n p q src) as (Hm & Hn & Hp & Hs).
  eexists. split; [pick_unit |]. cbn [source M N P Q get].
  rewrite Hreg, Hm, Hn, Hp, Hs.
  rewrite (bit_of_shl _ _ src (pc_src hdr PL)).
  rewrite (field_of_shl _ _ 6 m (pc_m hdr PL)).
  rewrite (field_of_shl _ _ 9 n (pc_n hdr PL)).
  rewrite (field_of_shl _ _ 2 p (pc_p hdr PL)).
  repeat split.
  - now destruct (Z.odd src).
  - pose proof (Z.mod_pos_bound p (2 ^ 2) eq_refl).
    unfold u32. rewrite Z.mod_small; lia.
  - rewrite <- Hp, <- Hreg.
    apply (field_read_above _ _ 2 _ _ (pc_p hdr PL)).
    pose proof (pc_p_src hdr PL). pose proof (pc_src_q hdr PL). lia.
Qed.

(** With the PLL as the source in use, [SystemGetSYSCLKFrequency]
    computes the output frequency of the configuration whose fields the
    register holds. *)
Lemma SystemGetSYSCLKFrequency_of_written
      (c : PLLConfiguration_t) (s : state) (x src : Z) :
  RCC_PLLCFGR_PLLSRC_HSI = 0 ->
  RCC_CFGR_SWS_PLL <> RCC_CFGR_SWS_HSI ->
  RCC_CFGR_SWS_PLL <> RCC_CFGR_SWS_HSE ->
  Z.land (rcc_cfgr s) RCC_CFGR_SWS = RCC_CFGR_SWS_PLL ->
  rcc_pllcfgr s = written x (M c) (N c) (P c) (Q c) src ->
  source c = (if Z.odd src then CLOCKSRC_HSE else CLOCKSRC_HSI) ->
  0 <= M c < 2 ^ 6 -> 0 <= N c < 2 ^ 9 -> 0 <= P c < 2 ^ 2 ->
  SystemGetSYSCLKFrequency s = lift (CalculateMainPLLOutFrequency c) s.
Proof.
  intros Hhsi H1 H2 Hsws Hreg Hsrc HM HN HP.
  destruct (written_fields x (M c) (N c) (P c) (Q c) src)
    as (Hm & Hn & Hp & Hs).
  unfold SystemGetSYSCLKFrequency, bind, load. cbv beta iota zeta.
  cbn [get]. rewrite Hsws.
  rewrite (proj2 (Z.eqb_neq _ _) H1), (proj2 (Z.eqb_neq _ _) H2), Z.eqb_refl.
  rewrite <- Z.land_assoc, Z.land_diag.
  rewrite Hreg, Hm, Hn, Hp, Hs, Hhsi.
  rewrite (bit_of_shl _ _ src (pc_src hdr PL)).
  rewrite (field_of_shl _ _ 6 _ (pc_m hdr PL)).
  rewrite (field_of_shl _ _ 9 _ (pc_n hdr PL)).
  rewrite (field_of_shl _ _ 2 _ (pc_p hdr PL)).
  rewrite !Z.mod_small by assumption.
  f_equal. unfold CalculateMainPLLOutFrequency. cbv zeta. cbn [source M N P].
  rewrite Hsrc. now destruct (Z.odd src).
Qed.

(** The same, for the register as [SystemConfigMainPLL] leaves it. *)
Lemma SystemGetSYSCLKFrequency_after_SystemConfigMainPLL
      (c : PLLConfiguration_t) (s s1 t : state) :
  RCC_PLLCFGR_PLLSRC_HSI = 0 ->
  RCC_CFGR_SWS_PLL <> RCC_CFGR_SWS_HSI ->
  RCC_CFGR_SWS_PLL <> RCC_CFGR_SWS_HSE ->
  source c = CLOCKSRC_HSI \/ source c = CLOCKSRC_HSE ->
  0 <= M c < 2 ^ 6 -> 0 <= N c < 2 ^ 9 -> 0 <= P c < 2 ^ 2 ->
  SystemConfigMainPLL c s = Some (tt, s1) ->
  rcc_pllcfgr t = rcc_pllcfgr s1 ->
  Z.land (rcc_cfgr t) RCC_CFGR_SWS = RCC_CFGR_SWS_PLL ->
  SystemGetSYSCLKFrequency t = lift (CalculateMainPLLOutFrequency c) t.
Proof.
  intros Hhsi H1 H2 Hsrc HM HN HP E Ht Hsws.
  destruct (SystemConfigMainPLL_register c s s1 Hsrc E)
    as (x & src & Hreg & Hcase).
  apply (SystemGetSYSCLKFrequency_of_written c t x src); try assumption.
  - now rewrite Ht.
  - destruct Hcase as [[-> ->] | [-> ->]].
    + now rewrite (pc_hsi hdr PL).
    + now rewrite (pc_hse hdr PL).
Qed.

End MainPLLRegister.

(** X23.  After [SystemConfigMainPLL] with a source it supports,
    [SystemGetPLLConfiguration(PLL_MAIN)] gives back the source, M modulo
    64 and N modulo 512; P comes back as twice the P written (modulo 4)
    plus 2 and never as written, and Q comes back as 0 whatever was
    written. *)
Theorem SystemConfigMainPLL_read_back
        (hdr : DeviceHeader) (c old : PLLConfiguration_t) (s : state) :
  PLLCFGR_layout hdr ->
  source c = CLOCKSRC_HSI \/ source c = CLOCKSRC_HSE ->
  after (SystemConfigMainPLL c) s
    (fun _ s' =>
       exists c',
         SystemGetPLLConfiguration PLL_MAIN old s' = Some ((0, c'), s') /\
         source c' = source c /\
         M c' = M c mod 2 ^ 6 /\ N c' = N c mod 2 ^ 9 /\
         P c' = 2 * (P c mod 2 ^ 2) + 2 /\ P c' <> P c mod 2 ^ 2 /\
         Q c' = 0).
Proof.
  intros PL Hsrc. unfold after.
  destruct (SystemConfigMainPLL c s) as [[[] s'] |] eqn:E; [| exact I].
  destruct (SystemConfigMainPLL_register c s s' Hsrc E)
    as (x & src & Hreg & Hcase).
  destruct (SystemGetPLLConfiguration_of_written PL old s' _ _ _ _ _ _ Hreg)
    as (c' & Hget & Hs & Hm & Hn & Hp & Hq).
  exists c'. split; [exact Hget |].
  pose proof (Z.mod_pos_bound (P c) (2 ^ 2) eq_refl).
  repeat split; try assumption; try lia.
  rewrite Hs.
  destruct Hcase as [[-> ->] | [-> ->]].
  - now rewrite (pc_hsi hdr PL).
  - now rewrite (pc_hse hdr PL).
Qed.

Lemma SystemConfigMainPLL_read_back_witness :
  let c := @MainPLLConfiguration_216MHz stm32f746xx in
  exists s',
    @SystemConfigMainPLL stm32f746xx c after_SystemInit = Some (tt, s') /\
    exists c',
      @SystemGetPLLConfiguration stm32f746xx PLL_MAIN c s' = Some ((0, c'), s') /\
      source c' = source c /\
      M c' = M c mod 2 ^ 6 /\ N c' = N c mod 2 ^ 9 /\
      P c' = 2 * (P c mod 2 ^ 2) + 2 /\ P c' <> P c mod 2 ^ 2 /\
      Q c' = 0.
Proof.
  assert (PL : PLLCFGR_layout stm32f746xx).
  { constructor; try (cbn; lia); try reflexivity;
      constructor; cbn; try lia; reflexivity. }
  assert (E : exists s',
             @SystemConfigMainPLL stm32f746xx
               (@MainPLLConfiguration_216MHz stm32f746xx) after_SystemInit
             = Some (tt, s'))
    by (vm_compute; eexists; reflexivity).
  destruct E as (s' & E). exists s'. split; [exact E |].
  exact (after_Some _ _ _ _ _
           (SystemConfigMainPLL_read_back stm32f746xx
              (@MainPLLConfiguration_216MHz stm32f746xx)
              (@MainPLLConfiguration_216MHz stm32f746xx)
              after_SystemInit PL (or_intror eq_refl)) E).
Defined.

(** ** The frequencies of a PLL unit *)

(** X24.  For the three PLL units [SystemGetPLLFrequencies] gives a
    result that owes nothing to what its uninitialised local structure
    held.  For the main PLL, when it returns, it returns 0 with the state
    as it was and with the Q and R outputs at 0, whatever the registers
    hold. *)
Theorem SystemGetPLLFrequencies_units
        (hdr : DeviceHeader) (u1 u2 : PLLConfiguration_t)
        (pllfreq : PLLOutputFrequencies_t) (s : state) :
  PLL_layout hdr ->
  SystemGetPLLFrequencies PLL_MAIN u1 pllfreq s
  = SystemGetPLLFrequencies PLL_MAIN u2 pllfreq s /\
  SystemGetPLLFrequencies PLL_SAI u1 pllfreq s
  = SystemGetPLLFrequencies PLL_SAI u2 pllfreq s /\
  SystemGetPLLFrequencies PLL_I2S u1 pllfreq s
  = SystemGetPLLFrequencies PLL_I2S u2 pllfreq s /\
  after (SystemGetPLLFrequencies PLL_MAIN u1 pllfreq) s
    (fun r s' =>
       s' = s /\ fst r = 0 /\ qoutfreq (snd r) = 0 /\ routfreq (snd r) = 0).
Proof.
  intros L.
  assert (Hunit : forall w u,
             w = PLL_MAIN \/ w = PLL_SAI \/ w = PLL_I2S ->
             SystemGetPLLConfiguration w u s
             = SystemGetPLLConfiguration w u1 s).
  { intros w u [-> | [-> | ->]];
      unfold SystemGetPLLConfiguration, bind, load, ret; cbv zeta;
      change (PLL_MAIN =? PLL_MAIN) with true;
      change (PLL_SAI =? PLL_MAIN) with false;
      change (PLL_SAI =? PLL_SAI) with true;
      change (PLL_I2S =? PLL_MAIN) with false;
      change (PLL_I2S =? PLL_SAI) with false;
      change (PLL_I2S =? PLL_I2S) with true;
      reflexivity. }
  repeat split;
    try (unfold SystemGetPLLFrequencies, bind; rewrite (Hunit _ u2); tauto).
  unfold after.
  destruct (SystemGetPLLFrequencies PLL_MAIN u1 pllfreq s)
    as [[[r f] s'] |] eqn:E; [| exact I].
  unfold SystemGetPLLFrequencies in E.
  apply bind_Some in E as ([z c] & s0 & Ec & E).
  apply bind_Some in E as ([z' f'] & s1 & Ef & E).
  injection E as <- <- <-. cbn [fst snd] in *.
  destruct (SystemGetPLLConfiguration_read_main L u1 s) as (c0 & Hc & HQ & HR).
  rewrite Hc in Ec. injection Ec as <- <- <-.
  unfold lift in Ef.
  destruct (SystemCalcPLLFrequencies c0 pllfreq) as [[z0 f0] |] eqn:Ecalc;
    [| discriminate].
  injection Ef as <- <- <-.
  split; [reflexivity |]. split; [reflexivity |].
  revert Ecalc. unfold SystemCalcPLLFrequencies. cbv zeta.
  assert (Hsrc : source c0 = CLOCKSRC_HSI \/ source c0 = CLOCKSRC_HSE).
  { revert Hc. unfold SystemGetPLLConfiguration, bind, load, ret. cbv zeta.
    change (PLL_MAIN =? PLL_MAIN) with true. cbv beta iota.
    intros [= <-]. cbn [source].
    destruct (_ =? 0); [left | right]; reflexivity. }
  rewrite HQ, HR. change (0 =? 0) with true. cbv iota.
  destruct (source c0 =? CLOCKSRC_HSI) eqn:E1;
    [| destruct (source c0 =? CLOCKSRC_HSE) eqn:E2].
  - repeat match goal with
           | |- context [udiv ?a ?b] => destruct (udiv a b)
           end; try discriminate.
    intros [= _ <-]. split; reflexivity.
  - repeat match goal with
           | |- context [udiv ?a ?b] => destruct (udiv a b)
           end; try discriminate.
    intros [= _ <-]. split; reflexivity.
  - apply Z.eqb_neq in E1, E2. tauto.
Qed.

Lemma SystemGetPLLFrequencies_units_witness :
  let u1 := {| source := 0; M := 0; N := 0; P := 0; Q := 0; R := 0 |} in
  let u2 := {| source := 8; M := 1; N := 2; P := 3; Q := 4; R := 5 |} in
  let pllfreq := {| infreq := 0; pllinfreq := 0; vcofreq := 0;
                    poutfreq := 0; qoutfreq := 7; routfreq := 7 |} in
  @SystemGetPLLFrequencies stm32f746xx PLL_MAIN u1 pllfreq running_on_PLL
  = @SystemGetPLLFrequencies stm32f746xx PLL_MAIN u2 pllfreq running_on_PLL /\
  @SystemGetPLLFrequencies stm32f746xx PLL_SAI u1 pllfreq running_on_PLL
  = @SystemGetPLLFrequencies stm32f746xx PLL_SAI u2 pllfreq running_on_PLL /\
  @SystemGetPLLFrequencies stm32f746xx PLL_I2S u1 pllfreq running_on_PLL
  = @SystemGetPLLFrequencies stm32f746xx PLL_I2S u2 pllfreq running_on_PLL /\
  after (@SystemGetPLLFrequencies stm32f746xx PLL_MAIN u1 pllfreq)
    running_on_PLL
    (fun r s' =>
       s' = running_on_PLL /\ fst r = 0 /\
       qoutfreq (snd r) = 0 /\ routfreq (snd r) = 0).
Proof.
  apply (SystemGetPLLFrequencies_units stm32f746xx
           {| source := 0; M := 0; N := 0; P := 0; Q := 0; R := 0 |}
           {| source := 8; M := 1; N := 2; P := 3; Q := 4; R := 5 |}
           {| infreq := 0; pllinfreq := 0; vcofreq := 0;
              poutfreq := 0; qoutfreq := 7; routfreq := 7 |}
           running_on_PLL).
  constructor; try (cbn; lia); constructor; cbn; try lia; reflexivity.
Defined.

(** ** The on/off routines of the header *)

Lemma on_ready (cr on rdy : Z) :
  let cr' := Z.lor (Z.lor cr on) rdy in
  Z.land cr' on = on /\ Z.land cr' rdy = rdy /\
  Z.land cr' (not32 (Z.lor on rdy)) = Z.land cr (not32 (Z.lor on rdy)).
Proof. cbv zeta. repeat split; bitwise. Qed.

Lemma off_only (cr on : Z) :
  let cr' := Z.land cr (not32 on) in
  Z.land cr' on = 0 /\ Z.land cr' (not32 on) = Z.land cr (not32 on).
Proof. cbv zeta. split; bitwise. Qed.

Lemma enable_switched_on {hdr : DeviceHeader} (on rdy : Z) (s : state) :
  exists s',
    (cr <- load RCC_CR ;; store RCC_CR (Z.lor cr on) ;; wait_flag RCC_CR rdy) s
    = Some (tt, s') /\ switched_on on rdy s s'.
Proof.
  eexists. split; [reflexivity |]. unfold switched_on.
  cbn [get set log rcc_cr SystemCoreClock MainPLLConfigured].
  destruct (on_ready (rcc_cr s) on rdy) as (H1 & H2 & H3).
  repeat split; try assumption.
  intros r Hr. destruct r; try reflexivity. contradiction.
Qed.

Lemma disable_switched_off {hdr : DeviceHeader} (on : Z) (s : state) :
  exists s',
    (cr <- load RCC_CR ;; store RCC_CR (Z.land cr (not32 on))) s
    = Some (tt, s') /\ switched_off on s s'.
Proof.
  eexists. split; [reflexivity |]. unfold switched_off.
  cbn [get set log rcc_cr SystemCoreClock MainPLLConfigured].
  destruct (off_only (rcc_cr s) on) as (H1 & H2).
  repeat split; try assumption.
  intros r Hr. destruct r; try reflexivity. contradiction.
Qed.

(** X25.  Each of the on/off routines of the header returns, and changes
    in RCC_CR only the bits of its own unit: an enable routine returns
    with the unit on and reported ready, a disable routine with its bits
    cleared; the other bits of RCC_CR, the other registers, the cached
    clock and the flag of the main PLL stay as they were.  For HSE the
    bits switched are HSEON and HSEBYP together. *)
Theorem on_off_routines (hdr : DeviceHeader) (s : state) :
  (exists s', SystemEnableMainPLL s = Some (tt, s') /\
              switched_on RCC_CR_PLLON RCC_CR_PLLRDY s s') /\
  (exists s', SystemDisableMainPLL s = Some (tt, s') /\
              switched_off RCC_CR_PLLON s s') /\
  (exists s', SystemEnablePLLSAI s = Some (tt, s') /\
              switched_on RCC_CR_PLLSAION RCC_CR_PLLSAIRDY s s') /\
  (exists s', SystemDisablePLLSAI s = Some (tt, s') /\
              switched_off RCC_CR_PLLSAION s s') /\
  (exists s', SystemEnablePLLI2S s = Some (tt, s') /\
              switched_on RCC_CR_PLLI2SON RCC_CR_PLLI2SRDY s s') /\
  (exists s', SystemDisablePLLI2S s = Some (tt, s') /\
              switched_off RCC_CR_PLLI2SON s s') /\
  (exists s', SystemEnableHSE s = Some (tt, s') /\
              switched_on (Z.lor RCC_CR_HSEON RCC_CR_HSEBYP) RCC_CR_HSERDY
                s s') /\
  (exists s', SystemDisableHSE s = Some (tt, s') /\
              switched_off (Z.lor RCC_CR_HSEON RCC_CR_HSEBYP) s s') /\
  (exists s', SystemEnableHSI s = Some (tt, s') /\
              switched_on RCC_CR_HSION RCC_CR_HSIRDY s s') /\
  (exists s', SystemDisableHSI s = Some (tt, s') /\
              switched_off RCC_CR_HSION s s').
Proof.
  repeat split;
    first [ apply enable_switched_on | apply disable_switched_off ].
Qed.

(** ** The start-up sequence of the applications *)

(** A write to the SW field leaves alone every field above it. *)
Lemma write_SW_above (sw p v msk pos w c : Z) :
  FieldLayout sw p 2 -> FieldLayout msk pos w -> p + 2 <= pos ->
  Z.land v sw = v ->
  Z.land (Z.lor (Z.land c (not32 sw)) v) msk = Z.land c msk.
Proof.
  intros Fsw Fm Hord Hv.
  pose proof (field_pos _ _ _ Fsw). pose proof (field_fits _ _ _ Fm).
  apply Z.bits_inj'. intros k Hk.
  rewrite !Z.land_spec, Z.lor_spec, Z.land_spec, not32_testbit by assumption.
  rewrite (field_mask_testbit msk pos w k Fm Hk).
  destruct (Z.leb_spec pos k); cbn [andb]; [| now rewrite !andb_false_r].
  destruct (Z.ltb_spec k (pos + w)); [| now rewrite !andb_false_r].
  assert (Hsw : Z.testbit sw k = false).
  { rewrite (field_mask_testbit sw p 2 k Fsw Hk).
    destruct (Z.ltb_spec k (p + 2)); [lia |]. apply andb_false_r. }
  assert (Hvk : Z.testbit v k = false).
  { rewrite <- Hv, Z.land_spec, Hsw. apply andb_false_r. }
  rewrite Hsw, Hvk. destruct (Z.ltb_spec k 32); [| lia].
  cbn [andb negb]. now rewrite orb_false_r, !andb_true_r.
Qed.

Ltac step_keeps_reg :=
  repeat first
    [ solve [apply keeps_reads; auto 1 with appends]
    | solve [apply keeps_store; discriminate]
    | solve [apply keeps_wait_flag; discriminate]
    | apply keeps_set_MainPLLConfigured
    | apply keeps_bind; [| intros ?]
    | apply keeps_if ].

Section Startup.

Context {hdr : DeviceHeader}.
Hypothesis L : MUX_layout hdr.

Let F : CFGR_fields hdr := mux_fields hdr L.
Let LA : CFGR_layout hdr := cf_apb hdr F.

(** With the main PLL configured, [SystemSetCoreClock(CLOCKSRC_PLL, d)]
    reaches its tail with RCC_PLLCFGR untouched, the PLL selected, the
    status settled and the HPRE field holding [FindHPRE d]. *)
Lemma SystemSetCoreClock_PLL_path (d r : Z) (s s' : state) :
  MainPLLConfigured s <> 0 ->
  SystemSetCoreClock CLOCKSRC_PLL d s = Some (r, s') ->
  exists s3 ppre1 ppre2,
    rcc_pllcfgr s3 = rcc_pllcfgr s /\
    core_on_PLL s3 /\ settled s3 /\
    Z.land (rcc_cfgr s3) RCC_CFGR_HPRE_Msk
    = Z.land (shl32 (FindHPRE d) RCC_CFGR_HPRE_Pos) RCC_CFGR_HPRE_Msk /\
    SystemSetCoreClock_finish ppre1 ppre2 s3 = Some (r, s').
Proof.
  intros Hflag E.
  unfold SystemSetCoreClock in E. cbv zeta in E.
  apply bind_Some in E as (cfgr & s0 & E0 & E).
  pose proof (reads_load _ _ _ _ E0) as ->.
  apply bind_Some in E as (ppre1 & s1 & E1 & E).
  pose proof (reads_SystemGetAPB1Prescaler _ _ _ E1) as ->.
  apply bind_Some in E as (ppre2 & s2 & E2 & E).
  pose proof (reads_SystemGetAPB2Prescaler _ _ _ E2) as ->.
  assert (Hne : (CLOCKSRC_PLL =? Z.land cfgr RCC_CFGR_SW) = false).
  { apply Z.eqb_neq. intros Heq. apply (mux_src_sw hdr L).
    unfold CLOCKSRC_PLL in Heq. rewrite Heq at 1 2.
    now rewrite <- Z.land_assoc, Z.land_diag. }
  rewrite Hne in E.
  apply bind_Some in E as ([] & s3 & Eb & Ef).
  exists s3, ppre1, ppre2.
  apply bind_Some in Eb as ([] & t0 & Ew & Eb).
  apply bind_Some in Eb as ([] & t1 & Eh & Eb).
  unfold CLOCKSRC_PLL, CLOCKSRC_HSI, CLOCKSRC_HSE in Eb.
  rewrite (proj2 (Z.eqb_neq _ _) (mux_src_hsi hdr L)) in Eb.
  rewrite (proj2 (Z.eqb_neq _ _) (mux_src_hse hdr L)) in Eb.
  rewrite Z.eqb_refl in Eb.
  apply bind_Some in Eb as (conf & t2 & Ec & Eb). injection Ec as <- <-.
  assert (Kw : keeps RCC_PLLCFGR worst_case /\
               preserves (flag_is (fun v => v <> 0)) worst_case).
  { split; unfold_routines; [step_keeps_reg | step_flag]. }
  assert (Kh : keeps RCC_PLLCFGR (write_HPRE (FindHPRE d)) /\
               preserves (flag_is (fun v => v <> 0)) (write_HPRE (FindHPRE d))).
  { split; unfold_routines; [step_keeps_reg | step_flag]. }
  assert (Ks : keeps RCC_PLLCFGR (write_SW RCC_CFGR_SW_PLL)).
  { unfold_routines. step_keeps_reg. }
  assert (Hf1 : MainPLLConfigured t1 <> 0).
  { exact (proj2 Kh _ _ _ (proj2 Kw _ _ _ Hflag Ew) Eh). }
  rewrite (proj2 (Z.eqb_neq _ _) Hf1) in Eb.
  apply bind_Some in Eb as ([] & t3 & Er & Esw). injection Er as <-.
  destruct (mux_sw hdr L) as (p & Fsw & Hp).
  pose proof (cf_hpre hdr F) as FH.
  split; [| split; [| split; [| split]]].
  - change (get RCC_PLLCFGR s3 = get RCC_PLLCFGR s).
    rewrite (Ks _ _ _ Esw), (proj1 Kh _ _ _ Eh). exact (proj1 Kw _ _ _ Ew).
  - exact (write_SW_selects_PLL L _ _ Esw).
  - unfold write_SW, bind, load in Esw. exact (settled_store_CFGR L _ _ _ _ Esw).
  - unfold write_SW, bind, load in Esw. injection Esw as <-.
    unfold write_HPRE, bind, load in Eh. injection Eh as <-.
    cbn [get set log rcc_cfgr].
    rewrite (cfgr_status_field LA _ _ 4 _ _ FH (cf_hpre_sws hdr F)).
    rewrite (write_SW_above _ p _ _ _ 4 _ Fsw FH Hp (mux_pll_sub hdr L)).
    rewrite (cfgr_status_field LA _ _ 4 _ _ FH (cf_hpre_sws hdr F)).
    unfold RCC_CFGR_HPRE. bitwise.
  - exact Ef.
Qed.

End Startup.

(** X26.  The start-up sequence of the applications,
    [SystemConfigMainPLL(c); SystemSetCoreClock(CLOCKSRC_PLL,1)], for a
    configuration with source HSI or HSE whose M, N and P fit their
    fields: when it returns, it returns 0, the PLL is the source in use
    and the cached [SystemCoreClock] is the output frequency
    [CalculateMainPLLOutFrequency] gives for [c], undivided. *)
Theorem main_clock_setup_frequency
        (hdr : DeviceHeader) (c : PLLConfiguration_t) (s : state) :
  MUX_layout hdr -> PLLCFGR_layout hdr ->
  RCC_PLLCFGR_PLLSRC_HSI = 0 ->
  source c = CLOCKSRC_HSI \/ source c = CLOCKSRC_HSE ->
  0 <= M c < 2 ^ 6 -> 0 <= N c < 2 ^ 9 -> 0 <= P c < 2 ^ 2 ->
  after (main_clock_setup c) s
    (fun r s' =>
       r = 0 /\
       Z.land (rcc_cfgr s') RCC_CFGR_SWS = RCC_CFGR_SWS_PLL /\
       CalculateMainPLLOutFrequency c = Some (SystemCoreClock s')).
Proof.
  intros L PL Hhsi Hsrc HM HN HP. unfold after.
  destruct (main_clock_setup c s) as [[r s'] |] eqn:E; [| exact I].
  unfold main_clock_setup in E.
  apply bind_Some in E as ([] & s1 & E1 & E2).
  assert (Hflag : MainPLLConfigured s1 <> 0).
  { rewrite (SystemConfigMainPLL_sets_flag c s s1 Hsrc E1). discriminate. }
  destruct (SystemSetCoreClock_PLL_path L 1 r s1 s' Hflag E2)
    as (s3 & ppre1 & ppre2 & Hpll & [_ Hsws] & Hset & Hhpre & Ef).
  destruct (SystemSetCoreClock_finish_view L _ _ _ _ _ Hset Ef)
    as (f & Eg & -> & _ & Hclk & Hsws' & _ & _).
  split; [reflexivity |]. split; [congruence |].
  rewrite Hclk.
  unfold SystemGetCoreClock in Eg.
  apply bind_Some in Eg as (x & u & Ex & Eg).
  rewrite (SystemGetSYSCLKFrequency_after_SystemConfigMainPLL PL c s s1 s3
             Hhsi (mux_src_hsi hdr L) (mux_src_hse hdr L) Hsrc HM HN HP
             E1 Hpll Hsws) in Ex.
  unfold lift in Ex.
  destruct (CalculateMainPLLOutFrequency c) as [x0 |]; [| discriminate].
  injection Ex as <- <-.
  unfold SystemGetAHBPrescaler, bind, load in Eg. cbv beta iota zeta in Eg.
  cbn [get] in Eg. rewrite Hhpre in Eg.
  rewrite (field_of_shl _ _ 4 _ (cf_hpre hdr (mux_fields hdr L))) in Eg.
  change (index hpre_table (FindHPRE 1 mod 2 ^ 4)) with (Some 1) in Eg.
  unfold lift, udiv in Eg. change (1 =? 0) with false in Eg.
  cbv iota in Eg. rewrite Z.div_1_r in Eg. congruence.
Qed.

Lemma main_clock_setup_frequency_witness :
  let c := @MainPLLConfiguration_200MHz stm32f746xx in
  exists s',
    @main_clock_setup stm32f746xx c after_SystemInit = Some (0, s') /\
    Z.land (rcc_cfgr s') 12 = 8 /\
    @CalculateMainPLLOutFrequency stm32f746xx c = Some (SystemCoreClock s') /\
    SystemCoreClock s' = 200000000.
Proof.
  assert (L : MUX_layout stm32f746xx).
  { constructor;
      [ constructor;
        [ constructor; try reflexivity; constructor; cbn; try lia; reflexivity
        | constructor; cbn; try lia; reflexivity
        | reflexivity | cbn; lia | cbn; lia ]
      | exists 0; split; [constructor; cbn; try lia; reflexivity | cbn; lia]
      | reflexivity | reflexivity
      | discriminate | discriminate | discriminate | discriminate
      | discriminate ]. }
  assert (PL : PLLCFGR_layout stm32f746xx).
  { constructor; try (cbn; lia); try reflexivity;
      constructor; cbn; try lia; reflexivity. }
  assert (E : exists s',
             @main_clock_setup stm32f746xx
               (@MainPLLConfiguration_200MHz stm32f746xx) after_SystemInit
             = Some (0, s') /\ SystemCoreClock s' = 200000000)
    by (vm_compute; eexists; split; reflexivity).
  destruct E as (s' & E & Hclk). exists s'. split; [exact E |].
  assert (HM : 0 <= M (@MainPLLConfiguration_200MHz stm32f746xx) < 2 ^ 6)
    by (cbn; lia).
  assert (HN : 0 <= N (@MainPLLConfiguration_200MHz stm32f746xx) < 2 ^ 9)
    by (cbn; lia).
  assert (HP : 0 <= P (@MainPLLConfiguration_200MHz stm32f746xx) < 2 ^ 2)
    by (cbn; lia).
  pose proof (after_Some _ _ _ _ _
                (main_clock_setup_frequency stm32f746xx
                   (@MainPLLConfiguration_200MHz stm32f746xx)
                   after_SystemInit L PL eq_refl (or_intror eq_refl)
                   HM HN HP) E) as (_ & H1 & H2).
  split; [exact H1 |]. split; [exact H2 | exact Hclk].
Defined.
